(** * A round-robin LED-blinker scheduler for Cortex-M4, embedded in Rocq

    Shallow embedding of [src/main.c], [src/main.h], [src/led.c] and
    [src/led.h]: the task control block table, the stack frame initialiser,
    the SysTick housekeeping (tick counter and unblock scan), the round-robin
    selection of [update_current_task], the blocking primitive [task_delay]
    and the two GPIO operations [led_on] / [led_off].

    C integers are modelled as [Z] with the wrap-around of their width
    written out ([to_u8], [to_u32]); the TCB array is a [list TCB_t]
    indexed through stdpp's lookup and insert; SRAM is a finite map from
    byte addresses to 32-bit words. *)

From Stdlib Require Import ZArith Lia List.
From stdpp Require Import base tactics option list numbers gmap.

Local Open Scope Z_scope.

(** ** Machine integers *)

Definition to_u8 (x : Z) : Z := x mod 2 ^ 8.
Definition to_u32 (x : Z) : Z := x mod 2 ^ 32.

Definition is_u32 (x : Z) : Prop := 0 <= x < 2 ^ 32.

(** ** Configuration constants ([main.h], [led.h]) *)

Definition MAX_TASKS : Z := 5.

Definition SIZE_TASK_STACK : Z := 1024.
Definition SIZE_SCHED_STACK : Z := 1024.

Definition SRAM_START : Z := 0x20000000.
Definition SRAM_SIZE : Z := 128 * 1024.
Definition SRAM_END : Z := SRAM_START + SRAM_SIZE.

Definition T1_STACK_START : Z := SRAM_END.
Definition T2_STACK_START : Z := SRAM_END - 1 * SIZE_TASK_STACK.
Definition T3_STACK_START : Z := SRAM_END - 2 * SIZE_TASK_STACK.
Definition T4_STACK_START : Z := SRAM_END - 3 * SIZE_TASK_STACK.
Definition IDLE_STACK_START : Z := SRAM_END - 4 * SIZE_TASK_STACK.
Definition SCHED_STACK_START : Z := SRAM_END - 5 * SIZE_TASK_STACK.

Definition PENDSVSET_BIT : Z := 28.
Definition DUMMY_XPSR : Z := 0x01000000.
Definition EXC_RETURN_THREAD_PSP : Z := 0xFFFFFFFD.

Definition TASK_READY_STATE : Z := 0x00.
Definition TASK_BLOCKED_STATE : Z := 0xFF.

Definition LED_GREEN : Z := 12.
Definition LED_ORANGE : Z := 13.
Definition LED_RED : Z := 14.
Definition LED_BLUE : Z := 15.

Definition LED_GREEN_FREQ : Z := 1000.
Definition LED_ORANGE_FREQ : Z := 500.
Definition LED_BLUE_FREQ : Z := 250.
Definition LED_RED_FREQ : Z := 125.

(** ** GPIO driver ([led.c])

    [GPIOD_ODR] is a 32-bit register; both operations are a
    read-modify-write of it.  [1UL << led_no] is an [unsigned long]
    (32 bits on this target). *)

Module Led.

(** [GPIOD_ODR |= (1UL << led_no);] *)
Definition led_on (led_no : Z) (odr : Z) : Z :=
  Z.lor odr (to_u32 (Z.shiftl 1 led_no)).

(** [GPIOD_ODR &= ~(1UL << led_no);] *)
Definition led_off (led_no : Z) (odr : Z) : Z :=
  Z.land odr (to_u32 (Z.lnot (to_u32 (Z.shiftl 1 led_no)))).

End Led.

(** ** Task control blocks and the machine state ([main.c]) *)

(** The five functions a TCB can point at. *)
Inductive handler : Set :=
| idle_handler
| task1_handler
| task2_handler
| task3_handler
| task4_handler.

Record TCB_t : Type := mkTCB {
  psp_value : Z;                    (* uint32_t: saved process stack pointer *)
  block_count : Z;                  (* uint32_t: wake-up tick *)
  current_state : Z;                (* uint8_t: READY or BLOCKED *)
  task_handler : option handler     (* void ( * )(void); None is NULL *)
}.

Definition set_psp_value (v : Z) (t : TCB_t) : TCB_t :=
  mkTCB v (block_count t) (current_state t) (task_handler t).
Definition set_block_count (v : Z) (t : TCB_t) : TCB_t :=
  mkTCB (psp_value t) v (current_state t) (task_handler t).
Definition set_current_state (v : Z) (t : TCB_t) : TCB_t :=
  mkTCB (psp_value t) (block_count t) v (task_handler t).
Definition set_task_handler (h : option handler) (t : TCB_t) : TCB_t :=
  mkTCB (psp_value t) (block_count t) (current_state t) h.

(** A zero-initialised TCB, as [.bss] leaves it. *)
Definition zero_TCB : TCB_t := mkTCB 0 0 0 None.

#[global] Instance TCB_inhabited : Inhabited TCB_t := populate zero_TCB.

Record machine : Type := mkMachine {
  user_tasks : list TCB_t;          (* TCB_t user_tasks[MAX_TASKS] *)
  g_tick_count : Z;                 (* uint32_t *)
  current_task : Z;                 (* uint8_t *)
  ICSR : Z;                         (* interrupt control and state register *)
  PRIMASK : Z;                      (* interrupt mask register *)
  GPIOD_ODR : Z;                    (* GPIO port D output data register *)
  sram : gmap Z Z                   (* 32-bit words by byte address *)
}.

Definition with_user_tasks (ts : list TCB_t) (m : machine) : machine :=
  mkMachine ts (g_tick_count m) (current_task m) (ICSR m) (PRIMASK m)
            (GPIOD_ODR m) (sram m).
Definition with_g_tick_count (g : Z) (m : machine) : machine :=
  mkMachine (user_tasks m) g (current_task m) (ICSR m) (PRIMASK m)
            (GPIOD_ODR m) (sram m).
Definition with_current_task (c : Z) (m : machine) : machine :=
  mkMachine (user_tasks m) (g_tick_count m) c (ICSR m) (PRIMASK m)
            (GPIOD_ODR m) (sram m).
Definition with_ICSR (r : Z) (m : machine) : machine :=
  mkMachine (user_tasks m) (g_tick_count m) (current_task m) r (PRIMASK m)
            (GPIOD_ODR m) (sram m).
Definition with_PRIMASK (r : Z) (m : machine) : machine :=
  mkMachine (user_tasks m) (g_tick_count m) (current_task m) (ICSR m) r
            (GPIOD_ODR m) (sram m).
Definition with_GPIOD_ODR (r : Z) (m : machine) : machine :=
  mkMachine (user_tasks m) (g_tick_count m) (current_task m) (ICSR m)
            (PRIMASK m) r (sram m).
Definition with_sram (mem : gmap Z Z) (m : machine) : machine :=
  mkMachine (user_tasks m) (g_tick_count m) (current_task m) (ICSR m)
            (PRIMASK m) (GPIOD_ODR m) mem.

(** [user_tasks[i]] read and written through a [uint8_t] / [int] index. *)
Definition tcb_at (ts : list TCB_t) (i : Z) : TCB_t := ts !!! Z.to_nat i.
Definition tcb_upd (f : TCB_t -> TCB_t) (i : Z) (ts : list TCB_t) : list TCB_t :=
  alter f (Z.to_nat i) ts.

(** The initial stack tops, [PSP_INIT_ADDRS]. *)
Definition PSP_INIT_ADDRS : list Z :=
  [IDLE_STACK_START; T1_STACK_START; T2_STACK_START; T3_STACK_START;
   T4_STACK_START].

(** ** Loops *)

(** [for (int i = i0; i < i0 + n; i++) body(i);] without [break]. *)
Fixpoint for_range (n : nat) (i : Z) (body : Z -> machine -> machine)
    (m : machine) : machine :=
  match n with
  | O => m
  | S n' => for_range n' (i + 1) body (body i m)
  end.

(** ** Stack frame initialiser *)

Definition store32 (a v : Z) (mem : gmap Z Z) : gmap Z Z := <[a := v]> mem.

(** [for (int j = 0; j < n; ++j) { *--pPSP = 0; }] *)
Fixpoint push_zeros (n : nat) (p : Z) (mem : gmap Z Z) : Z * gmap Z Z :=
  match n with
  | O => (p, mem)
  | S n' => push_zeros n' (p - 4) (store32 (p - 4) 0 mem)
  end.

(** [(uint32_t) user_tasks[i].task_handler], given the address the linker
    gave each function. *)
Definition handler_word (fn_addr : handler -> Z) (h : option handler) : Z :=
  to_u32 (match h with Some f => fn_addr f | None => 0 end).

(** The body of the [for] loop of [init_tasks_stack]. *)
Definition init_task_frame (fn_addr : handler -> Z) (i : Z) (m : machine)
    : machine :=
  let ts1 := tcb_upd (set_current_state TASK_READY_STATE) i (user_tasks m) in
  let ts2 := tcb_upd (set_psp_value (PSP_INIT_ADDRS !!! Z.to_nat i)) i ts1 in
  let p0 := psp_value (tcb_at ts2 i) in
  let p1 := p0 - 4 in
  let mem1 := store32 p1 DUMMY_XPSR (sram m) in
  let p2 := p1 - 4 in
  let mem2 := store32 p2 (handler_word fn_addr (task_handler (tcb_at ts2 i))) mem1 in
  let p3 := p2 - 4 in
  let mem3 := store32 p3 EXC_RETURN_THREAD_PSP mem2 in
  let '(p4, mem4) := push_zeros 5 p3 mem3 in
  let '(p5, mem5) := push_zeros 8 p4 mem4 in
  with_sram mem5
    (with_user_tasks (tcb_upd (set_psp_value (to_u32 p5)) i ts2) m).

Definition init_tasks_stack (fn_addr : handler -> Z) (m : machine) : machine :=
  let ts0 := tcb_upd (set_task_handler (Some idle_handler)) 0 (user_tasks m) in
  let ts1 := tcb_upd (set_task_handler (Some task1_handler)) 1 ts0 in
  let ts2 := tcb_upd (set_task_handler (Some task2_handler)) 2 ts1 in
  let ts3 := tcb_upd (set_task_handler (Some task3_handler)) 3 ts2 in
  let ts4 := tcb_upd (set_task_handler (Some task4_handler)) 4 ts3 in
  for_range (Z.to_nat MAX_TASKS) 0 (init_task_frame fn_addr)
    (with_user_tasks ts4 m).

(** ** Stack pointer bookkeeping *)

Definition get_psp_value (m : machine) : Z :=
  psp_value (tcb_at (user_tasks m) (current_task m)).

Definition save_psp_value (current_psp : Z) (m : machine) : machine :=
  with_user_tasks
    (tcb_upd (set_psp_value current_psp) (current_task m) (user_tasks m)) m.

(** ** Round-robin selection *)

(** The [for] loop of [update_current_task]: [n] iterations are left,
    [state] is the local variable; the result is its value and the machine
    when the loop is left, by [break] or by exhaustion. *)
Fixpoint uct_loop (n : nat) (state : Z) (m : machine) : Z * machine :=
  match n with
  | O => (state, m)
  | S n' =>
      let c1 := to_u8 (current_task m + 1) in
      let c2 := to_u8 (Z.rem c1 MAX_TASKS) in
      let m' := with_current_task c2 m in
      let state' := current_state (tcb_at (user_tasks m') (current_task m')) in
      if (state' =? TASK_READY_STATE) && negb (current_task m' =? 0)
      then (state', m')
      else uct_loop n' state' m'
  end.

Definition update_current_task (m : machine) : machine :=
  let '(state, m') := uct_loop (Z.to_nat MAX_TASKS) TASK_BLOCKED_STATE m in
  if state =? TASK_BLOCKED_STATE then with_current_task 0 m' else m'.

(** ** Tick housekeeping *)

Definition update_global_tick_count (m : machine) : machine :=
  with_g_tick_count (to_u32 (g_tick_count m + 1)) m.

(** The body of the [for] loop of [unblock_tasks]. *)
Definition unblock_body (i : Z) (m : machine) : machine :=
  if negb (current_state (tcb_at (user_tasks m) i) =? TASK_READY_STATE)
  then
    if block_count (tcb_at (user_tasks m) i) =? g_tick_count m
    then with_user_tasks
           (tcb_upd (set_current_state TASK_READY_STATE) i (user_tasks m)) m
    else m
  else m.

Definition unblock_tasks (m : machine) : machine :=
  for_range (Z.to_nat MAX_TASKS) 0 unblock_body m.

(** [*pICSR |= (1 << PENDSVSET_BIT);] *)
Definition schedule (m : machine) : machine :=
  with_ICSR (Z.lor (ICSR m) (Z.shiftl 1 PENDSVSET_BIT)) m.

Definition SysTick_Handler (m : machine) : machine :=
  schedule (unblock_tasks (update_global_tick_count m)).

(** ** The blocking primitive *)

Definition INTERRUPT_DISABLE (m : machine) : machine := with_PRIMASK 1 m.
Definition INTERRUPT_ENABLE (m : machine) : machine := with_PRIMASK 0 m.

Definition task_delay (tick_count : Z) (m : machine) : machine :=
  let m1 := INTERRUPT_DISABLE m in
  let m2 := with_user_tasks
              (tcb_upd (set_block_count (to_u32 (g_tick_count m1 + tick_count)))
                       (current_task m1) (user_tasks m1)) m1 in
  let m3 := with_user_tasks
              (tcb_upd (set_current_state TASK_BLOCKED_STATE)
                       (current_task m2) (user_tasks m2)) m2 in
  let m4 := schedule m3 in
  INTERRUPT_ENABLE m4.

(** ** The context switch, seen from C

    [PendSV_Handler] is a naked assembly routine.  Between saving R4-R11 on
    the outgoing stack and restoring them from the incoming one it calls
    [save_psp_value] with the decremented stack pointer and then
    [update_current_task]; these two calls are all it does to the C state. *)
Definition context_switch (psp_after_push : Z) (m : machine) : machine :=
  update_current_task (save_psp_value psp_after_push m).

(** ** The task bodies *)

Inductive call : Set :=
| call_led_on (led_no : Z)
| call_led_off (led_no : Z)
| call_task_delay (tick_count : Z)
| wfi.

(** What each handler does in one turn of its [while(1)] loop. *)
Definition handler_body (h : handler) : list call :=
  match h with
  | idle_handler => [wfi]
  | task1_handler =>
      [call_led_on LED_GREEN; call_task_delay LED_GREEN_FREQ;
       call_led_off LED_GREEN; call_task_delay LED_GREEN_FREQ]
  | task2_handler =>
      [call_led_on LED_ORANGE; call_task_delay LED_ORANGE_FREQ;
       call_led_off LED_ORANGE; call_task_delay LED_ORANGE_FREQ]
  | task3_handler =>
      [call_led_on LED_BLUE; call_task_delay LED_BLUE_FREQ;
       call_led_off LED_BLUE; call_task_delay LED_BLUE_FREQ]
  | task4_handler =>
      [call_led_on LED_RED; call_task_delay LED_RED_FREQ;
       call_led_off LED_RED; call_task_delay LED_RED_FREQ]
  end.

Definition exec_call (c : call) (m : machine) : machine :=
  match c with
  | call_led_on n => with_GPIOD_ODR (Led.led_on n (GPIOD_ODR m)) m
  | call_led_off n => with_GPIOD_ODR (Led.led_off n (GPIOD_ODR m)) m
  | call_task_delay d => task_delay d m
  | wfi => m
  end.

(** ** The system as a transition system *)

(** The C globals as the start-up code leaves them before [main]:
    [user_tasks] zeroed, [g_tick_count = 0], [current_task = 1]. *)
Definition boot_globals (m : machine) : Prop :=
  user_tasks m = replicate (Z.to_nat MAX_TASKS) zero_TCB /\
  g_tick_count m = 0 /\
  current_task m = 1.

(** One step of the running system: a SysTick firing, a context switch, or
    the task whose TCB is current performing one of the calls of its body.
    A call is taken whole.  The scheduler state is written only with
    interrupts masked or inside the handlers, so for it nothing is lost;
    the load and the store of an LED call, between which the task can be
    preempted, are told apart in [led_on_store] and [led_off_store]. *)
Inductive step : machine -> machine -> Prop :=
| step_tick m :
    step m (SysTick_Handler m)
| step_switch m p :
    step m (context_switch p m)
| step_call m h c :
    task_handler (tcb_at (user_tasks m) (current_task m)) = Some h ->
    c ∈ handler_body h ->
    step m (exec_call c m).

Inductive reachable (fn_addr : handler -> Z) : machine -> Prop :=
| reach_init m0 :
    boot_globals m0 -> reachable fn_addr (init_tasks_stack fn_addr m0)
| reach_step m m' :
    reachable fn_addr m -> step m m' -> reachable fn_addr m'.

(** ** Event traces

    For the timing properties the tasks are left abstract: the running task
    may call [task_delay] with any duration. *)
Inductive event : Type :=
| E_tick
| E_switch (psp_after_push : Z)
| E_delay (tick_count : Z).

Definition exec_event (e : event) (m : machine) : machine :=
  match e with
  | E_tick => SysTick_Handler m
  | E_switch p => context_switch p m
  | E_delay d => task_delay d m
  end.

Fixpoint run (tr : list event) (m : machine) : machine :=
  match tr with
  | [] => m
  | e :: tr' => run tr' (exec_event e m)
  end.

Definition is_tick (e : event) : bool :=
  match e with E_tick => true | _ => false end.
Definition is_switch (e : event) : bool :=
  match e with E_switch _ => true | _ => false end.

Definition ticks (tr : list event) : nat := length (List.filter is_tick tr).
Definition switches (tr : list event) : nat := length (List.filter is_switch tr).

(** Task [i] makes no call in [tr] started from [m]: every [task_delay] of
    the trace is made while another task is current, with a [uint32_t]
    argument. *)
Fixpoint asleep (i : Z) (tr : list event) (m : machine) : Prop :=
  match tr with
  | [] => True
  | e :: tr' =>
      match e with
      | E_delay d => current_task m <> i /\ is_u32 d
      | _ => True
      end /\ asleep i tr' (exec_event e m)
  end.

(** Task [i] is selected by some context switch of [tr] started from [m],
    and is READY at that moment. *)
Definition selected_in (i : Z) (tr : list event) (m : machine) : Prop :=
  exists pre p post,
    tr = pre ++ E_switch p :: post /\
    current_task (run (pre ++ [E_switch p]) m) = i /\
    current_state (tcb_at (user_tasks (run (pre ++ [E_switch p]) m)) i)
      = TASK_READY_STATE.

(** ** Vocabulary of the statements *)

Definition table_ok (m : machine) : Prop :=
  length (user_tasks m) = Z.to_nat MAX_TASKS.

Definition index_ok (m : machine) : Prop :=
  0 <= current_task m < MAX_TASKS.

Definition state_of (m : machine) (i : Z) : Z :=
  current_state (tcb_at (user_tasks m) i).

(** A task the scheduler may select: READY and not the idle task. *)
Definition eligible (ts : list TCB_t) (j : Z) : bool :=
  (current_state (tcb_at ts j) =? TASK_READY_STATE) && negb (j =? 0).

(** The indices one revolution visits after [c]: [c+1], ..., [c+MAX_TASKS],
    each modulo the table size. *)
Definition scan_order (c : Z) : list Z :=
  (fun k => (c + k) mod MAX_TASKS) <$> seqZ 1 MAX_TASKS.

(** The selection order of one revolution: the eligible tasks in scan order. *)
Definition revolution (ts : list TCB_t) (c : Z) : list Z :=
  List.filter (eligible ts) (scan_order c).

(** The selection as a function of the table and the current index: the
    first eligible task of the revolution; without one the index stays where
    the revolution ends, on [c] itself, unless that TCB is BLOCKED, and then
    the idle task is chosen. *)
Definition next_task (ts : list TCB_t) (c : Z) : Z :=
  match revolution ts c with
  | j :: _ => j
  | [] => if current_state (tcb_at ts c) =? TASK_BLOCKED_STATE then 0 else c
  end.

(** One step of the loop of [update_current_task] on the index alone, and
    the indices [n] iterations visit. *)
Definition next_index (c : Z) : Z := to_u8 (Z.rem (to_u8 (c + 1)) MAX_TASKS).

Fixpoint visit (n : nat) (c : Z) : list Z :=
  match n with
  | O => []
  | S n' => next_index c :: visit n' (next_index c)
  end.

(** The value of the local [state] when the loop of [update_current_task] runs
    out after [n] iterations from index [c]. *)
Definition exhausted_state (n : nat) (st : Z) (ts : list TCB_t) (c : Z) : Z :=
  match n with
  | O => st
  | S _ => current_state (tcb_at ts (Nat.iter n next_index c))
  end.

(** One tick followed by the selection it asks for. *)
Definition tick_then_select (m : machine) : machine :=
  update_current_task (SysTick_Handler m).

(** No task that is not READY reaches its wake-up tick within the next [n]
    ticks. *)
Definition no_wakeup (m : machine) (n : nat) : Prop :=
  forall j t (k : nat),
    user_tasks m !! j = Some t ->
    current_state t <> TASK_READY_STATE ->
    (1 <= k <= n)%nat ->
    block_count t <> to_u32 (g_tick_count m + Z.of_nat k).

(** The entry point [init_tasks_stack] installs in [user_tasks[i]]. *)
Definition entry_point (i : nat) : option handler :=
  [idle_handler; task1_handler; task2_handler; task3_handler; task4_handler]
    !! i.

(** The [k]-th word of an initial frame, counted from the stack top down:
    xPSR, PC, LR, then thirteen zeroed registers. *)
Definition frame_word (fn_addr : handler -> Z) (h : option handler) (k : Z)
    : Z :=
  if k =? 1 then DUMMY_XPSR
  else if k =? 2 then handler_word fn_addr h
  else if k =? 3 then EXC_RETURN_THREAD_PSP
  else 0.

(** The TCB table has the entry points of [init_tasks_stack]. *)
Definition handlers_installed (m : machine) : Prop :=
  forall (i : nat) t, user_tasks m !! i = Some t -> task_handler t = entry_point i.

(** What every reachable machine satisfies. *)
Definition sched_inv (m : machine) : Prop :=
  table_ok m /\ index_ok m /\ handlers_installed m /\
  state_of m 0 = TASK_READY_STATE.

(** How far index [i] is after index [c] on the ring of table indices,
    between 1 and [MAX_TASKS] (which is [i = c]). *)
Definition ring_distance (c i : Z) : Z := (i - c - 1) mod MAX_TASKS + 1.

(** The number of tick firings a [task_delay d] sleeps through. *)
Definition wake_after (d : Z) : Z := if d =? 0 then 2 ^ 32 else d.

(** Task [i] sleeps, with [n] ticks elapsed since it
    called [task_delay d] at tick [t0]: it is BLOCKED before the
    [wake_after d]-th tick and READY from then on. *)
Definition sleeping (i t0 d n : Z) (m : machine) : Prop :=
  table_ok m /\ index_ok m /\
  g_tick_count m = to_u32 (t0 + n) /\
  exists t,
    user_tasks m !! Z.to_nat i = Some t /\
    block_count t = to_u32 (t0 + d) /\
    current_state t
      = if n <? wake_after d
        then TASK_BLOCKED_STATE else TASK_READY_STATE.

(** What the unblock scan does to one TCB when the counter reads [g]. *)
Definition unblock_tcb (g : Z) (t : TCB_t) : TCB_t :=
  if negb (current_state t =? TASK_READY_STATE) && (block_count t =? g)
  then set_current_state TASK_READY_STATE t
  else t.


(** ** Sample configurations *)

(** Addresses a linker could give the five handlers (Thumb bit set). *)
Definition sample_fn_addr (h : handler) : Z :=
  match h with
  | idle_handler => 0x08000389
  | task1_handler => 0x080002C1
  | task2_handler => 0x080002F1
  | task3_handler => 0x08000321
  | task4_handler => 0x08000351
  end.

(** The machine when [main] is entered. *)
Definition boot_machine : machine :=
  mkMachine (replicate (Z.to_nat MAX_TASKS) zero_TCB) 0 1 0 0 0 ∅.

(** After [init_tasks_stack], with the stack pointers it computes: all five
    tasks READY, task 1 current, no tick counted yet. *)
Definition started_machine : machine :=
  mkMachine
    [mkTCB (IDLE_STACK_START - 64) 0 TASK_READY_STATE (Some idle_handler);
     mkTCB (T1_STACK_START - 64) 0 TASK_READY_STATE (Some task1_handler);
     mkTCB (T2_STACK_START - 64) 0 TASK_READY_STATE (Some task2_handler);
     mkTCB (T3_STACK_START - 64) 0 TASK_READY_STATE (Some task3_handler);
     mkTCB (T4_STACK_START - 64) 0 TASK_READY_STATE (Some task4_handler)]
    0 1 0 0 0 ∅.

(** At tick 7 with task 1 current: tasks 2 and 4 sleep until ticks 500 and
    125, task 3 is READY. *)
Definition mixed_machine : machine :=
  mkMachine
    [mkTCB (IDLE_STACK_START - 64) 0 TASK_READY_STATE (Some idle_handler);
     mkTCB (T1_STACK_START - 64) 0 TASK_READY_STATE (Some task1_handler);
     mkTCB (T2_STACK_START - 64) 500 TASK_BLOCKED_STATE (Some task2_handler);
     mkTCB (T3_STACK_START - 64) 0 TASK_READY_STATE (Some task3_handler);
     mkTCB (T4_STACK_START - 64) 125 TASK_BLOCKED_STATE (Some task4_handler)]
    7 1 0 0 0 ∅.

(** At tick 124 with the idle task current: every user task sleeps; task 4
    is due at the next tick. *)
Definition all_blocked_machine : machine :=
  mkMachine
    [mkTCB (IDLE_STACK_START - 64) 0 TASK_READY_STATE (Some idle_handler);
     mkTCB (T1_STACK_START - 64) 1000 TASK_BLOCKED_STATE (Some task1_handler);
     mkTCB (T2_STACK_START - 64) 500 TASK_BLOCKED_STATE (Some task2_handler);
     mkTCB (T3_STACK_START - 64) 250 TASK_BLOCKED_STATE (Some task3_handler);
     mkTCB (T4_STACK_START - 64) 125 TASK_BLOCKED_STATE (Some task4_handler)]
    124 0 0 0 0 ∅.

(** ** Further vocabulary *)

(** Every state field holds one of the two values the code ever writes. *)
Definition states_ok (m : machine) : Prop :=
  forall (j : nat) t,
    user_tasks m !! j = Some t ->
    current_state t = TASK_READY_STATE \/ current_state t = TASK_BLOCKED_STATE.

(** Task [i] is READY, in a table that can be indexed. *)
Definition ready_in (i : Z) (m : machine) : Prop :=
  table_ok m /\ index_ok m /\
  exists t, user_tasks m !! Z.to_nat i = Some t /\
            current_state t = TASK_READY_STATE.

(** The address lies in none of the five initial frames. *)
Definition outside_frames (a : Z) : Prop :=
  forall (j : nat) p, PSP_INIT_ADDRS !! j = Some p -> a < p - 64 \/ p <= a.

(** ** The processor and peripheral registers around the C state

    The start-up code and the assembly routines also use core registers and
    memory-mapped registers that the scheduler functions never touch.
    Memory-mapped registers are taken as 32-bit storage: a read returns what
    was last written. *)

Definition MEM_MANAGE_EN_BIT : Z := 16.
Definition BUS_FAULT_EN_BIT : Z := 17.
Definition USAGE_FAULT_EN_BIT : Z := 18.

Definition TICK_HZ : Z := 1000.
Definition HSI_CLOCK : Z := 16000000.
Definition SYSTICK_TIM_CLK : Z := HSI_CLOCK.

Definition RCC_AHB1ENR_GPIODEN_Pos : Z := 3.
Definition RCC_AHB1ENR_GPIODEN_Msk : Z :=
  to_u32 (Z.shiftl 1 RCC_AHB1ENR_GPIODEN_Pos).

Record board : Type := mkBoard {
  mach : machine;   (* the C globals, SRAM and the registers above *)
  R0 : Z;           (* argument and result register *)
  R4_R11 : list Z;  (* callee-saved registers, R4 first *)
  LR : Z;           (* link register *)
  PSP : Z;          (* process stack pointer *)
  MSP : Z;          (* main stack pointer *)
  CONTROL : Z;      (* bit 1 selects PSP in thread mode *)
  SHCSR : Z;        (* system handler control and state *)
  SYST_RVR : Z;     (* SysTick reload value *)
  SYST_CSR : Z;     (* SysTick control and status *)
  RCC_AHB1ENR : Z;  (* AHB1 peripheral clock enable *)
  GPIOD_MODER : Z   (* GPIO port D mode *)
}.

Definition with_mach (v : machine) (b : board) : board :=
  mkBoard v (R0 b) (R4_R11 b) (LR b) (PSP b) (MSP b) (CONTROL b) (SHCSR b)
    (SYST_RVR b) (SYST_CSR b) (RCC_AHB1ENR b) (GPIOD_MODER b).
Definition with_R0 (v : Z) (b : board) : board :=
  mkBoard (mach b) v (R4_R11 b) (LR b) (PSP b) (MSP b) (CONTROL b) (SHCSR b)
    (SYST_RVR b) (SYST_CSR b) (RCC_AHB1ENR b) (GPIOD_MODER b).
Definition with_R4_R11 (v : list Z) (b : board) : board :=
  mkBoard (mach b) (R0 b) v (LR b) (PSP b) (MSP b) (CONTROL b) (SHCSR b)
    (SYST_RVR b) (SYST_CSR b) (RCC_AHB1ENR b) (GPIOD_MODER b).
Definition with_LR (v : Z) (b : board) : board :=
  mkBoard (mach b) (R0 b) (R4_R11 b) v (PSP b) (MSP b) (CONTROL b) (SHCSR b)
    (SYST_RVR b) (SYST_CSR b) (RCC_AHB1ENR b) (GPIOD_MODER b).
Definition with_PSP (v : Z) (b : board) : board :=
  mkBoard (mach b) (R0 b) (R4_R11 b) (LR b) v (MSP b) (CONTROL b) (SHCSR b)
    (SYST_RVR b) (SYST_CSR b) (RCC_AHB1ENR b) (GPIOD_MODER b).
Definition with_MSP (v : Z) (b : board) : board :=
  mkBoard (mach b) (R0 b) (R4_R11 b) (LR b) (PSP b) v (CONTROL b) (SHCSR b)
    (SYST_RVR b) (SYST_CSR b) (RCC_AHB1ENR b) (GPIOD_MODER b).
Definition with_CONTROL (v : Z) (b : board) : board :=
  mkBoard (mach b) (R0 b) (R4_R11 b) (LR b) (PSP b) (MSP b) v (SHCSR b)
    (SYST_RVR b) (SYST_CSR b) (RCC_AHB1ENR b) (GPIOD_MODER b).
Definition with_SHCSR (v : Z) (b : board) : board :=
  mkBoard (mach b) (R0 b) (R4_R11 b) (LR b) (PSP b) (MSP b) (CONTROL b) v
    (SYST_RVR b) (SYST_CSR b) (RCC_AHB1ENR b) (GPIOD_MODER b).
Definition with_SYST_RVR (v : Z) (b : board) : board :=
  mkBoard (mach b) (R0 b) (R4_R11 b) (LR b) (PSP b) (MSP b) (CONTROL b)
    (SHCSR b) v (SYST_CSR b) (RCC_AHB1ENR b) (GPIOD_MODER b).
Definition with_SYST_CSR (v : Z) (b : board) : board :=
  mkBoard (mach b) (R0 b) (R4_R11 b) (LR b) (PSP b) (MSP b) (CONTROL b)
    (SHCSR b) (SYST_RVR b) v (RCC_AHB1ENR b) (GPIOD_MODER b).
Definition with_RCC_AHB1ENR (v : Z) (b : board) : board :=
  mkBoard (mach b) (R0 b) (R4_R11 b) (LR b) (PSP b) (MSP b) (CONTROL b)
    (SHCSR b) (SYST_RVR b) (SYST_CSR b) v (GPIOD_MODER b).
Definition with_GPIOD_MODER (v : Z) (b : board) : board :=
  mkBoard (mach b) (R0 b) (R4_R11 b) (LR b) (PSP b) (MSP b) (CONTROL b)
    (SHCSR b) (SYST_RVR b) (SYST_CSR b) (RCC_AHB1ENR b) v.

(** A C function called from the board level acts on the C state alone. *)
Definition on_mach (f : machine -> machine) (b : board) : board :=
  with_mach (f (mach b)) b.

(** *** Memory accesses of the assembly routines

    [sram] holds the words written or assumed so far; a word it does not
    hold is read as 0.  No statement below reads such a word. *)
Definition load32 (a : Z) (mem : gmap Z Z) : Z := default 0 (mem !! a).

(** Store multiple, ascending from [a]. *)
Fixpoint store_words (a : Z) (ws : list Z) (mem : gmap Z Z) : gmap Z Z :=
  match ws with
  | [] => mem
  | w :: ws' => store_words (a + 4) ws' (store32 a w mem)
  end.

(** Load multiple, ascending from [a]. *)
Fixpoint load_words (n : nat) (a : Z) (mem : gmap Z Z) : list Z :=
  match n with
  | O => []
  | S n' => load32 a mem :: load_words n' (a + 4) mem
  end.

(** [PUSH {LR}] and [POP {LR}] on the stack pointer [sp]. *)
Definition push_word (sp w : Z) (mem : gmap Z Z) : Z * gmap Z Z :=
  (to_u32 (sp - 4), store32 (to_u32 (sp - 4)) w mem).
Definition pop_word (sp : Z) (mem : gmap Z Z) : Z * Z :=
  (load32 sp mem, to_u32 (sp + 4)).

(** *** Start-up code ([main.c]) *)

Definition enable_processor_faults (b : board) : board :=
  let r1 := Z.lor (SHCSR b) (Z.shiftl 1 MEM_MANAGE_EN_BIT) in
  let r2 := Z.lor r1 (Z.shiftl 1 BUS_FAULT_EN_BIT) in
  let r3 := Z.lor r2 (Z.shiftl 1 USAGE_FAULT_EN_BIT) in
  with_SHCSR r3 b.

(** [tick_hz] is not 0: the division is undefined otherwise. *)
Definition init_systick_timer (tick_hz : Z) (b : board) : board :=
  let count_val := to_u32 (SYSTICK_TIM_CLK / tick_hz - 1) in
  let rvr1 := Z.land (SYST_RVR b) (to_u32 (Z.lnot 0x00FFFFFF)) in
  let rvr2 := Z.lor rvr1 (to_u32 (Z.shiftl count_val 0)) in
  let csr1 := Z.lor (SYST_CSR b) (Z.shiftl 1 1) in
  let csr2 := Z.lor csr1 (Z.shiftl 1 2) in
  let csr3 := Z.lor csr2 (Z.shiftl 1 0) in
  with_SYST_CSR csr3 (with_SYST_RVR rvr2 b).

(** [MSR MSP,%0; BX LR] *)
Definition init_scheduler_stack (top_sched_stack : Z) (b : board) : board :=
  with_MSP top_sched_stack b.

(** The stack pointer thread-mode code uses. *)
Definition thread_sp (b : board) : Z :=
  if Z.testbit (CONTROL b) 1 then PSP b else MSP b.
Definition with_thread_sp (v : Z) (b : board) : board :=
  if Z.testbit (CONTROL b) 1 then with_PSP v b else with_MSP v b.

Definition with_mem (mem : gmap Z Z) (b : board) : board :=
  on_mach (with_sram mem) b.

(** [switch_sp_to_psp], called from [main] in thread mode. *)
Definition switch_sp_to_psp (b : board) : board :=
  (* PUSH {LR} *)
  let '(sp1, mem1) := push_word (thread_sp b) (LR b) (sram (mach b)) in
  let b1 := with_mem mem1 (with_thread_sp sp1 b) in
  (* BL get_psp_value *)
  let b2 := with_R0 (get_psp_value (mach b1)) b1 in
  (* MSR PSP,R0 *)
  let b3 := with_PSP (R0 b2) b2 in
  (* POP {LR} *)
  let '(lr, sp2) := pop_word (thread_sp b3) (sram (mach b3)) in
  let b4 := with_thread_sp sp2 (with_LR lr b3) in
  (* MOV R0,#0x02; MSR CONTROL,R0 *)
  let b5 := with_R0 2 b4 in
  with_CONTROL (R0 b5) b5.

(** *** The context switch ([PendSV_Handler]), run in handler mode on MSP *)

Definition PendSV_Handler (b : board) : board :=
  (* MRS R0,PSP *)
  let b1 := with_R0 (PSP b) b in
  (* STMDB R0!,{R4-R11} *)
  let a := to_u32 (R0 b1 - 32) in
  let b2 := with_R0 a
              (with_mem (store_words a (R4_R11 b1) (sram (mach b1))) b1) in
  (* PUSH {LR} *)
  let '(sp1, mem1) := push_word (MSP b2) (LR b2) (sram (mach b2)) in
  let b3 := with_mem mem1 (with_MSP sp1 b2) in
  (* BL save_psp_value; BL update_current_task; BL get_psp_value *)
  let b4 := on_mach (save_psp_value (R0 b3)) b3 in
  let b5 := on_mach update_current_task b4 in
  let b6 := with_R0 (get_psp_value (mach b5)) b5 in
  (* LDMIA R0!,{R4-R11} *)
  let b7 := with_R0 (to_u32 (R0 b6 + 32))
              (with_R4_R11 (load_words 8 (R0 b6) (sram (mach b6))) b6) in
  (* MSR PSP,R0 *)
  let b8 := with_PSP (R0 b7) b7 in
  (* POP {LR} *)
  let '(lr, sp2) := pop_word (MSP b8) (sram (mach b8)) in
  with_MSP sp2 (with_LR lr b8).

(** *** GPIO set-up ([led.c]) *)

Definition pin_mode_mask (pin : Z) : Z :=
  to_u32 (Z.shiftl 3 (to_u32 (2 * pin))).

Definition led_init_all (b : board) : board :=
  let b1 := with_RCC_AHB1ENR
              (Z.lor (RCC_AHB1ENR b) RCC_AHB1ENR_GPIODEN_Msk) b in
  let moder := GPIOD_MODER b1 in
  let moder := Z.land moder (to_u32 (Z.lnot (pin_mode_mask LED_GREEN))) in
  let moder := Z.land moder (to_u32 (Z.lnot (pin_mode_mask LED_ORANGE))) in
  let moder := Z.land moder (to_u32 (Z.lnot (pin_mode_mask LED_RED))) in
  let moder := Z.land moder (to_u32 (Z.lnot (pin_mode_mask LED_BLUE))) in
  let moder := Z.lor moder (to_u32 (Z.shiftl 1 (to_u32 (2 * LED_GREEN)))) in
  let moder := Z.lor moder (to_u32 (Z.shiftl 1 (to_u32 (2 * LED_ORANGE)))) in
  let moder := Z.lor moder (to_u32 (Z.shiftl 1 (to_u32 (2 * LED_RED)))) in
  let moder := Z.lor moder (to_u32 (Z.shiftl 1 (to_u32 (2 * LED_BLUE)))) in
  let b2 := with_GPIOD_MODER moder b1 in
  let b3 := on_mach (exec_call (call_led_off LED_GREEN)) b2 in
  let b4 := on_mach (exec_call (call_led_off LED_ORANGE)) b3 in
  let b5 := on_mach (exec_call (call_led_off LED_RED)) b4 in
  on_mach (exec_call (call_led_off LED_BLUE)) b5.

(** *** [main], up to the call of [task1_handler]

    [LR] of the argument stands for the link register with which
    [switch_sp_to_psp] is entered: the branches of [main] to the functions
    before it are not followed at the instruction level. *)

Definition main_startup (fn_addr : handler -> Z) (b : board) : board :=
  let b1 := enable_processor_faults b in
  let b2 := init_scheduler_stack SCHED_STACK_START b1 in
  let b3 := on_mach (init_tasks_stack fn_addr) b2 in
  let b4 := led_init_all b3 in
  let b5 := init_systick_timer TICK_HZ b4 in
  switch_sp_to_psp b5.

(** *** Saved contexts *)

(** The TCB of task [i] points at [sp], and the eight words from [sp] up
    hold [regs]: what [PendSV_Handler] leaves of a task it switches out. *)
Definition saved_context (i : Z) (regs : list Z) (sp : Z) (m : machine)
    : Prop :=
  length regs = 8%nat /\
  psp_value (tcb_at (user_tasks m) i) = sp /\
  forall (k : nat) w, regs !! k = Some w ->
    sram m !! (sp + 4 * Z.of_nat k) = Some w.

(** The initial frame of task [i], entry function [h], stack top [p], is
    in memory as [init_tasks_stack] built it, and the TCB points below it:
    the task has not run yet. *)
Definition fresh_frame (fn_addr : handler -> Z) (i : Z) (h : handler) (p : Z)
    (m : machine) : Prop :=
  psp_value (tcb_at (user_tasks m) i) = p - 64 /\
  forall k, 1 <= k <= 16 ->
    sram m !! (p - 4 * k) = Some (frame_word fn_addr (Some h) k).

(** The word at [x] lies outside the [n] bytes from [a] up. *)
Definition clear_of (x a n : Z) : Prop := x + 4 <= a \/ a + n <= x.

(** *** The two accesses of an LED call ([led.c])

    [GPIOD_ODR] is a [volatile uint32_t] location: the statements
    [GPIOD_ODR |= (1UL << led_no);] and [GPIOD_ODR &= ~(1UL << led_no);]
    read the register and later write back the value computed from what was
    read.  Interrupts are not masked in between, so the task can be
    preempted after the load.  [exec_call] takes the two accesses together;
    here the store is applied to the machine as it is when the task goes
    on. *)
Definition odr_load (m : machine) : Z := GPIOD_ODR m.

Definition led_on_store (led_no loaded : Z) (m : machine) : machine :=
  with_GPIOD_ODR (Led.led_on led_no loaded) m.

Definition led_off_store (led_no loaded : Z) (m : machine) : machine :=
  with_GPIOD_ODR (Led.led_off led_no loaded) m.

(** ** Sample boards *)

(** The board when [main] is entered: the globals as the C start-up code
    leaves them, the processor on the main stack. *)
Definition boot_board : board :=
  mkBoard boot_machine 0 (replicate 8 0) 0xFFFFFFFF 0 SRAM_END 0 0 0 0
    0x00100000 0xA8000000.

(** Task 1 is running when PendSV is taken: the exception entry has pushed
    its eight words on the task's stack. *)
Definition switch_board : board :=
  mkBoard (init_tasks_stack sample_fn_addr boot_machine)
    0 [4; 5; 6; 7; 8; 9; 10; 11] 0xFFFFFFFD (T1_STACK_START - 128)
    SCHED_STACK_START 2 0x70000 15999 7 0x00100008 0x55000000.

(** Later task 4 is running when PendSV is taken, and task 1 is as the
    switch at [switch_board] left it. *)
Definition return_board : board :=
  with_PSP (T4_STACK_START - 128)
    (with_R4_R11 [40; 50; 60; 70; 80; 90; 100; 110]
       (on_mach (with_current_task 4) (PendSV_Handler switch_board))).

(** * Running the model *)

Example boot_then_init_tables :
  user_tasks (init_tasks_stack sample_fn_addr boot_machine)
  = user_tasks started_machine.
Proof. vm_compute. reflexivity. Qed.

Example init_writes_task1_frame :
  let mem := sram (init_tasks_stack sample_fn_addr boot_machine) in
  (mem !! (T1_STACK_START - 4), mem !! (T1_STACK_START - 8),
   mem !! (T1_STACK_START - 12), mem !! (T1_STACK_START - 16),
   mem !! (T1_STACK_START - 64), mem !! (T1_STACK_START - 68))
  = (Some 0x01000000, Some 0x080002C1, Some 0xFFFFFFFD, Some 0, Some 0, None).
Proof. vm_compute. reflexivity. Qed.

Example select_from_1_all_ready :
  current_task (update_current_task started_machine) = 2.
Proof. vm_compute. reflexivity. Qed.

Example select_from_1_mixed :
  current_task (update_current_task mixed_machine) = 3 /\
  current_task (update_current_task (update_current_task mixed_machine)) = 1.
Proof. vm_compute. split; reflexivity. Qed.

Example select_wraps_past_idle :
  current_task (update_current_task (with_current_task 4 started_machine)) = 1.
Proof. vm_compute. reflexivity. Qed.

Example select_idle_when_all_blocked :
  current_task (update_current_task all_blocked_machine) = 0 /\
  current_task (update_current_task (with_current_task 3 all_blocked_machine))
  = 0.
Proof. vm_compute. split; reflexivity. Qed.

Example tick_wakes_due_task_only :
  let m := SysTick_Handler all_blocked_machine in
  g_tick_count m = 125 /\
  (current_state <$> user_tasks m)
  = [TASK_READY_STATE; TASK_BLOCKED_STATE; TASK_BLOCKED_STATE;
     TASK_BLOCKED_STATE; TASK_READY_STATE] /\
  Z.testbit (ICSR m) PENDSVSET_BIT = true.
Proof. vm_compute. repeat split; reflexivity. Qed.

(** A wake tick that has been passed is not honoured: equality, not "at
    least". *)
Example tick_ignores_passed_wake_tick :
  let m := SysTick_Handler (with_g_tick_count 125 all_blocked_machine) in
  (current_state <$> user_tasks m)
  = [TASK_READY_STATE; TASK_BLOCKED_STATE; TASK_BLOCKED_STATE;
     TASK_BLOCKED_STATE; TASK_BLOCKED_STATE].
Proof. vm_compute. reflexivity. Qed.

Example tick_counter_wraps :
  g_tick_count (SysTick_Handler (with_g_tick_count 0xFFFFFFFF started_machine))
  = 0.
Proof. vm_compute. reflexivity. Qed.

Example delay_blocks_caller :
  let m := task_delay LED_GREEN_FREQ (with_g_tick_count 7 started_machine) in
  tcb_at (user_tasks m) 1
  = mkTCB (T1_STACK_START - 64) 1007 TASK_BLOCKED_STATE (Some task1_handler) /\
  current_task m = 1 /\ g_tick_count m = 7 /\
  ICSR m = 0x10000000 /\ PRIMASK m = 0.
Proof. vm_compute. repeat split; reflexivity. Qed.

Example delay_then_switch :
  current_task (context_switch (T1_STACK_START - 96)
                  (task_delay LED_GREEN_FREQ started_machine)) = 2.
Proof. vm_compute. reflexivity. Qed.

(** [task_delay 0] records the present tick, which the next firing has
    already passed. *)
Example delay_zero_not_woken_by_next_tick :
  let m := SysTick_Handler (task_delay 0 started_machine) in
  block_count (tcb_at (user_tasks m) 1) = 0 /\
  g_tick_count m = 1 /\
  state_of m 1 = TASK_BLOCKED_STATE.
Proof. vm_compute. repeat split; reflexivity. Qed.

Example led_green_on_off :
  Led.led_on LED_GREEN 0 = 0x1000 /\
  Led.led_off LED_GREEN 0xF000 = 0xE000 /\
  Led.led_off LED_GREEN (Led.led_on LED_GREEN 0x2000) = 0x2000.
Proof. vm_compute. repeat split; reflexivity. Qed.

(** * Verification *)

(** Case analysis on a valid table index. *)
Ltac index_cases c :=
  let H := fresh "Hcases" in
  assert (c = 0 \/ c = 1 \/ c = 2 \/ c = 3 \/ c = 4) as H
    by (unfold MAX_TASKS in *; lia);
  destruct H as [-> | [-> | [-> | [-> | ->]]]].

(** ** Machine integers *)

Lemma to_u32_small x : is_u32 x -> to_u32 x = x.
Proof. intros H. unfold to_u32. apply Z.mod_small. exact H. Qed.

Lemma to_u32_testbit x k :
  Z.testbit (to_u32 x) k = (k <? 32) && Z.testbit x k.
Proof.
  unfold to_u32. destruct (Z.ltb_spec k 32) as [Hlt | Hge]; simpl.
  - apply Z.mod_pow2_bits_low. exact Hlt.
  - apply Z.mod_pow2_bits_high. lia.
Qed.

Lemma u32_testbit_high x k : is_u32 x -> 32 <= k -> Z.testbit x k = false.
Proof.
  intros Hx Hk. rewrite <- (to_u32_small x Hx), to_u32_testbit.
  destruct (Z.ltb_spec k 32); [lia | reflexivity].
Qed.

(** Two counter values less than a full period apart are different. *)
Lemma to_u32_apart a b : 0 < b - a < 2 ^ 32 -> to_u32 a <> to_u32 b.
Proof.
  unfold to_u32. intros H Heq.
  pose proof (Z.div_mod a (2 ^ 32)) as Ha.
  pose proof (Z.div_mod b (2 ^ 32)) as Hb.
  assert (b - a = 2 ^ 32 * (b / 2 ^ 32 - a / 2 ^ 32)) as Hd by lia.
  assert (0 < b / 2 ^ 32 - a / 2 ^ 32 < 1) by nia. lia.
Qed.

Lemma to_u32_period a : to_u32 (a + 2 ^ 32) = to_u32 a.
Proof.
  unfold to_u32. replace (a + 2 ^ 32) with (a + 1 * 2 ^ 32) by lia.
  apply Z.mod_add. lia.
Qed.

Lemma to_u32_succ a : to_u32 (to_u32 a + 1) = to_u32 (a + 1).
Proof. unfold to_u32. apply Z.add_mod_idemp_l. lia. Qed.

(** ** GPIO driver *)

Module LedFacts.
Import Led.

Lemma led_mask n : 0 <= n < 32 -> to_u32 (Z.shiftl 1 n) = 2 ^ n.
Proof.
  intros Hn. rewrite Z.shiftl_1_l. apply to_u32_small. unfold is_u32.
  split; [apply Z.pow_nonneg; lia | apply Z.pow_lt_mono_r; lia].
Qed.

Lemma led_on_testbit n odr k :
  0 <= n < 32 ->
  Z.testbit (led_on n odr) k = Z.testbit odr k || (n =? k).
Proof.
  intros Hn. unfold led_on. rewrite led_mask by exact Hn.
  rewrite Z.lor_spec, Z.pow2_bits_eqb by lia. reflexivity.
Qed.

Lemma led_off_testbit n odr k :
  0 <= n < 32 -> is_u32 odr ->
  Z.testbit (led_off n odr) k = Z.testbit odr k && negb (n =? k).
Proof.
  intros Hn Hodr. unfold led_off. rewrite led_mask by exact Hn.
  rewrite Z.land_spec, to_u32_testbit.
  destruct (Z.ltb_spec k 32) as [Hlt | Hge]; simpl.
  - destruct (Z.le_gt_cases 0 k) as [Hk | Hk].
    + rewrite Z.lnot_spec, Z.pow2_bits_eqb by lia. reflexivity.
    + rewrite !(Z.testbit_neg_r _ k) by lia. reflexivity.
  - rewrite (u32_testbit_high odr k) by (exact Hodr || lia). reflexivity.
Qed.

Lemma led_on_range n odr : 0 <= n < 32 -> is_u32 odr -> is_u32 (led_on n odr).
Proof.
  intros Hn [Hlo Hhi]. unfold led_on. rewrite led_mask by exact Hn.
  assert (0 <= 2 ^ n) as Hp by (apply Z.pow_nonneg; lia).
  assert (2 ^ n < 2 ^ 32) as Hq by (apply Z.pow_lt_mono_r; lia).
  unfold is_u32. split.
  - apply Z.lor_nonneg. lia.
  - destruct (Z.eq_dec (Z.lor odr (2 ^ n)) 0) as [-> | Hnz]; [lia |].
    apply Z.log2_lt_pow2; [pose proof (proj2 (Z.lor_nonneg odr (2 ^ n))); lia |].
    rewrite Z.log2_lor by lia.
    apply Z.max_lub_lt.
    + destruct (Z.eq_dec odr 0) as [-> | ?]; [simpl; lia |].
      apply Z.log2_lt_pow2; lia.
    + rewrite Z.log2_pow2; lia.
Qed.

End LedFacts.

(** C10, as the code has it.  For every pin [n] of the 32-bit register and
    every prior value [odr] of [GPIOD_ODR]: [led_on n] sets bit [n] and
    [led_off n] clears it, neither changes any other bit, and [led_off n]
    after [led_on n] yields the original value with bit [n] cleared, which
    is the original value exactly when that bit was clear before. *)
Theorem led_on_off_frame (n odr : Z) :
  0 <= n < 32 -> is_u32 odr ->
  Z.testbit (Led.led_on n odr) n = true /\
  Z.testbit (Led.led_off n odr) n = false /\
  (forall k, k <> n -> Z.testbit (Led.led_on n odr) k = Z.testbit odr k) /\
  (forall k, k <> n -> Z.testbit (Led.led_off n odr) k = Z.testbit odr k) /\
  Led.led_off n (Led.led_on n odr) = Led.led_off n odr /\
  (Z.testbit odr n = false -> Led.led_off n (Led.led_on n odr) = odr).
Proof.
  intros Hn Hodr.
  assert (forall k, Z.testbit (Led.led_off n (Led.led_on n odr)) k
                    = Z.testbit (Led.led_off n odr) k) as Hbits.
  { intros k.
    rewrite !LedFacts.led_off_testbit, LedFacts.led_on_testbit
      by (exact Hn || exact Hodr || apply LedFacts.led_on_range; assumption).
    destruct (Z.testbit odr k), (n =? k); reflexivity. }
  repeat split.
  - rewrite LedFacts.led_on_testbit, Z.eqb_refl by exact Hn.
    apply orb_true_r.
  - rewrite LedFacts.led_off_testbit, Z.eqb_refl by assumption.
    apply andb_false_r.
  - intros k Hk. rewrite LedFacts.led_on_testbit by exact Hn.
    destruct (Z.eqb_spec n k); [congruence | apply orb_false_r].
  - intros k Hk. rewrite LedFacts.led_off_testbit by assumption.
    destruct (Z.eqb_spec n k); [congruence | apply andb_true_r].
  - apply Z.bits_inj'. intros k _. apply Hbits.
  - intros Hclear. apply Z.bits_inj'. intros k _. rewrite Hbits.
    rewrite LedFacts.led_off_testbit by assumption.
    destruct (Z.eqb_spec n k) as [-> | _].
    + rewrite Hclear. reflexivity.
    + apply andb_true_r.
Qed.

(** C10, as the spec words it, fails: switching the green LED off after
    switching it on does not restore a register in which it was already on. *)
Lemma led_off_after_on_not_identity :
  Led.led_off LED_GREEN (Led.led_on LED_GREEN 4096) <> 4096.
Proof. vm_compute. discriminate. Qed.

(** ** The TCB table *)

Lemma tcb_at_lookup ts i t :
  ts !! Z.to_nat i = Some t -> tcb_at ts i = t.
Proof. intros H. unfold tcb_at. apply list_lookup_total_correct. exact H. Qed.

Lemma length_tcb_upd f i ts : length (tcb_upd f i ts) = length ts.
Proof. apply length_alter. Qed.

Lemma lookup_tcb_upd f i ts j :
  tcb_upd f i ts !! j
  = if decide (Z.to_nat i = j) then f <$> ts !! j else ts !! j.
Proof.
  unfold tcb_upd. destruct (decide (Z.to_nat i = j)) as [<- | Hne].
  - apply list_lookup_alter_eq.
  - apply list_lookup_alter_ne. exact Hne.
Qed.



(** An update that leaves the addressed TCB as it is leaves the table. *)
Lemma tcb_upd_fixed f i ts :
  f (tcb_at ts i) = tcb_at ts i -> tcb_upd f i ts = ts.
Proof.
  intros Hf. apply list_eq. intros j. rewrite lookup_tcb_upd.
  destruct (decide (Z.to_nat i = j)) as [<- | _]; [| reflexivity].
  destruct (ts !! Z.to_nat i) as [t |] eqn:Ht; [| reflexivity].
  simpl. f_equal. rewrite (tcb_at_lookup _ _ _ Ht) in Hf. exact Hf.
Qed.

(** ** The unblock scan *)

Lemma unblock_body_spec (i : nat) m :
  unblock_body (Z.of_nat i) m
  = with_user_tasks
      (alter (unblock_tcb (g_tick_count m)) i (user_tasks m)) m.
Proof.
  assert (forall f, f (tcb_at (user_tasks m) (Z.of_nat i))
                    = tcb_at (user_tasks m) (Z.of_nat i) ->
                    m = with_user_tasks (alter f i (user_tasks m)) m) as Hfix.
  { intros f Hf. apply tcb_upd_fixed in Hf. unfold tcb_upd in Hf.
    rewrite Nat2Z.id in Hf. rewrite Hf. destruct m; reflexivity. }
  unfold unblock_body, tcb_upd. rewrite Nat2Z.id.
  destruct (negb (current_state (tcb_at (user_tasks m) (Z.of_nat i))
                  =? TASK_READY_STATE)) eqn:Hst;
    [destruct (block_count (tcb_at (user_tasks m) (Z.of_nat i))
               =? g_tick_count m) eqn:Hbc |].
  - f_equal. apply list_eq. intros j.
    destruct (decide (i = j)) as [<- | Hne].
    + rewrite !list_lookup_alter_eq.
      destruct (user_tasks m !! i) as [t |] eqn:Ht; [| reflexivity].
      simpl. f_equal.
      assert (tcb_at (user_tasks m) (Z.of_nat i) = t) as Hat
        by (apply tcb_at_lookup; rewrite Nat2Z.id; exact Ht).
      rewrite Hat in Hst, Hbc. unfold unblock_tcb. rewrite Hst, Hbc.
      reflexivity.
    + rewrite !list_lookup_alter_ne by exact Hne. reflexivity.
  - apply Hfix. unfold unblock_tcb. rewrite Hst, Hbc. reflexivity.
  - apply Hfix. unfold unblock_tcb. rewrite Hst. reflexivity.
Qed.

Lemma for_range_unblock n : forall (i : nat) m,
  for_range n (Z.of_nat i) unblock_body m
  = with_user_tasks (user_tasks (for_range n (Z.of_nat i) unblock_body m)) m
  /\ forall j,
       user_tasks (for_range n (Z.of_nat i) unblock_body m) !! j
       = if decide (i <= j < i + n)%nat
         then unblock_tcb (g_tick_count m) <$> user_tasks m !! j
         else user_tasks m !! j.
Proof.
  induction n as [| n IH]; intros i m; simpl.
  - split; [destruct m; reflexivity |].
    intros j. destruct (decide (i <= j < i + 0)%nat); [lia | reflexivity].
  - replace (Z.of_nat i + 1) with (Z.of_nat (S i)) by lia.
    destruct (IH (S i) (unblock_body (Z.of_nat i) m)) as [Hframe Hlook].
    rewrite unblock_body_spec in Hframe, Hlook |- *. simpl in *.
    split; [rewrite Hframe at 1; reflexivity |].
    intros j. rewrite Hlook.
    destruct (decide (i = j)) as [<- | Hne].
    + rewrite list_lookup_alter_eq.
      repeat case_decide; try lia; reflexivity.
    + rewrite list_lookup_alter_ne by exact Hne.
      repeat case_decide; try lia; reflexivity.
Qed.

Lemma unblock_tasks_spec m :
  table_ok m ->
  unblock_tasks m
  = with_user_tasks (unblock_tcb (g_tick_count m) <$> user_tasks m) m.
Proof.
  intros Hlen. unfold unblock_tasks.
  destruct (for_range_unblock (Z.to_nat MAX_TASKS) 0 m) as [Hframe Hlook].
  change (Z.of_nat 0) with 0 in *. rewrite Hframe. f_equal.
  apply list_eq. intros j. rewrite Hlook, list_lookup_fmap.
  destruct (decide (0 <= j < 0 + Z.to_nat MAX_TASKS)%nat) as [_ | Hout];
    [reflexivity |].
  rewrite (proj2 (lookup_ge_None (user_tasks m) j)); [reflexivity |].
  unfold table_ok in Hlen. lia.
Qed.

Lemma SysTick_Handler_spec m :
  table_ok m ->
  SysTick_Handler m
  = mkMachine
      (unblock_tcb (to_u32 (g_tick_count m + 1)) <$> user_tasks m)
      (to_u32 (g_tick_count m + 1))
      (current_task m)
      (Z.lor (ICSR m) (Z.shiftl 1 PENDSVSET_BIT))
      (PRIMASK m) (GPIOD_ODR m) (sram m).
Proof.
  intros Hlen. unfold SysTick_Handler.
  rewrite unblock_tasks_spec by exact Hlen. reflexivity.
Qed.

Lemma SysTick_Handler_table_ok m : table_ok m -> table_ok (SysTick_Handler m).
Proof.
  intros Hlen. rewrite SysTick_Handler_spec by exact Hlen.
  unfold table_ok in *. simpl. rewrite length_fmap. exact Hlen.
Qed.

Lemma pend_bit_set r : Z.testbit (Z.lor r (Z.shiftl 1 PENDSVSET_BIT)) PENDSVSET_BIT = true.
Proof. rewrite Z.lor_spec. apply orb_true_r. Qed.

(** C3.  One firing of the tick handler moves a BLOCKED task to READY
    exactly when its [block_count] equals the counter value the firing has
    just produced (equality, not "at least"); a READY task is left as it
    is, and no other field of any TCB changes. *)
Theorem unblock_exact_equality (m : machine) (j : nat) (t : TCB_t) :
  table_ok m ->
  user_tasks m !! j = Some t ->
  exists t',
    user_tasks (SysTick_Handler m) !! j = Some t' /\
    user_tasks (unblock_tasks (update_global_tick_count m)) !! j = Some t' /\
    g_tick_count (SysTick_Handler m) = to_u32 (g_tick_count m + 1) /\
    (current_state t = TASK_BLOCKED_STATE ->
       (current_state t' = TASK_READY_STATE
        <-> block_count t = g_tick_count (SysTick_Handler m))) /\
    (current_state t = TASK_BLOCKED_STATE ->
       block_count t <> g_tick_count (SysTick_Handler m) -> t' = t) /\
    (current_state t = TASK_READY_STATE -> t' = t) /\
    psp_value t' = psp_value t /\
    block_count t' = block_count t /\
    task_handler t' = task_handler t.
Proof.
  intros Hlen Hj.
  exists (unblock_tcb (to_u32 (g_tick_count m + 1)) t).
  rewrite SysTick_Handler_spec by exact Hlen.
  rewrite unblock_tasks_spec by exact Hlen. simpl.
  rewrite list_lookup_fmap, Hj. simpl.
  unfold unblock_tcb.
  split; [reflexivity |]. split; [reflexivity |]. split; [reflexivity |].
  destruct (Z.eqb_spec (block_count t) (to_u32 (g_tick_count m + 1)))
    as [Heq | Hne];
    destruct (Z.eqb_spec (current_state t) TASK_READY_STATE) as [Hrd | Hnr];
    simpl; repeat split; try reflexivity; try congruence.
  all: intros; exfalso; unfold TASK_READY_STATE, TASK_BLOCKED_STATE in *; lia.
Qed.

(** ** The tick counter *)

Lemma iter_SysTick_table_ok N m :
  table_ok m -> table_ok (Nat.iter N SysTick_Handler m).
Proof.
  intros Hlen. induction N as [| N IH]; simpl;
    [exact Hlen | apply SysTick_Handler_table_ok, IH].
Qed.

Lemma iter_SysTick_counter N m :
  table_ok m -> is_u32 (g_tick_count m) ->
  g_tick_count (Nat.iter N SysTick_Handler m)
  = to_u32 (g_tick_count m + Z.of_nat N).
Proof.
  intros Hlen Hg. induction N as [| N IH].
  - simpl. rewrite Z.add_0_r. symmetry. apply to_u32_small. exact Hg.
  - rewrite Nat.iter_succ.
    rewrite SysTick_Handler_spec by (apply iter_SysTick_table_ok; exact Hlen).
    simpl g_tick_count. rewrite IH, to_u32_succ. f_equal. lia.
Qed.

(** C9.  Every firing of [SysTick_Handler] advances the 32-bit tick counter
    by one, so [N] firings advance it by [N] (in [uint32_t] arithmetic, and
    literally as long as the counter does not pass [2^32 - 1]).  Within a
    firing the counter is incremented first, the unblock scan then compares
    every wake tick with the new value, and PendSV is pended last. *)
Theorem tick_counts_every_firing_once (m : machine) (N : nat) :
  table_ok m ->
  is_u32 (g_tick_count m) ->
  g_tick_count (Nat.iter N SysTick_Handler m)
    = to_u32 (g_tick_count m + Z.of_nat N) /\
  (g_tick_count m + Z.of_nat N < 2 ^ 32 ->
     g_tick_count (Nat.iter N SysTick_Handler m)
       = g_tick_count m + Z.of_nat N) /\
  g_tick_count (update_global_tick_count m) = to_u32 (g_tick_count m + 1) /\
  user_tasks (update_global_tick_count m) = user_tasks m /\
  unblock_tasks (update_global_tick_count m)
    = with_user_tasks
        (unblock_tcb (to_u32 (g_tick_count m + 1)) <$> user_tasks m)
        (update_global_tick_count m) /\
  SysTick_Handler m = schedule (unblock_tasks (update_global_tick_count m)) /\
  ICSR (unblock_tasks (update_global_tick_count m)) = ICSR m /\
  Z.testbit (ICSR (SysTick_Handler m)) PENDSVSET_BIT = true /\
  g_tick_count (SysTick_Handler m) = to_u32 (g_tick_count m + 1) /\
  current_task (SysTick_Handler m) = current_task m.
Proof.
  intros Hlen Hg.
  pose proof (iter_SysTick_counter N m Hlen Hg) as Hcount.
  split; [exact Hcount |].
  split.
  { intros Hno. rewrite Hcount. apply to_u32_small.
    unfold is_u32 in *. lia. }
  split; [reflexivity |]. split; [reflexivity |].
  split; [apply (unblock_tasks_spec (update_global_tick_count m)); exact Hlen |].
  split; [reflexivity |].
  rewrite (unblock_tasks_spec (update_global_tick_count m)) by exact Hlen.
  rewrite SysTick_Handler_spec by exact Hlen. simpl.
  split; [reflexivity |]. split; [apply pend_bit_set |].
  split; reflexivity.
Qed.

(** ** The blocking primitive *)

Lemma task_delay_spec d m :
  task_delay d m
  = mkMachine
      (tcb_upd (set_current_state TASK_BLOCKED_STATE) (current_task m)
         (tcb_upd (set_block_count (to_u32 (g_tick_count m + d)))
            (current_task m) (user_tasks m)))
      (g_tick_count m) (current_task m)
      (Z.lor (ICSR m) (Z.shiftl 1 PENDSVSET_BIT))
      0 (GPIOD_ODR m) (sram m).
Proof. reflexivity. Qed.

Lemma task_delay_lookup d m j :
  user_tasks (task_delay d m) !! j
  = if decide (Z.to_nat (current_task m) = j)
    then (fun t => mkTCB (psp_value t) (to_u32 (g_tick_count m + d))
                     TASK_BLOCKED_STATE (task_handler t))
           <$> user_tasks m !! j
    else user_tasks m !! j.
Proof.
  rewrite task_delay_spec. simpl. rewrite !lookup_tcb_upd.
  case_decide; [| reflexivity].
  destruct (user_tasks m !! j); reflexivity.
Qed.

Lemma task_delay_table_ok d m : table_ok m -> table_ok (task_delay d m).
Proof.
  unfold table_ok. rewrite task_delay_spec. simpl.
  rewrite !length_tcb_upd. trivial.
Qed.

(** C4.  [task_delay d], called by the task at the current index, records
    the wake tick [g_tick_count + d] (a [uint32_t] sum) in that task's TCB,
    marks it BLOCKED and pends PendSV.  Of the caller's TCB only
    [block_count] and [current_state] change; every other TCB, the tick
    counter and the current-task index are as before. *)
Theorem task_delay_effect (m : machine) (d : Z) :
  table_ok m ->
  index_ok m ->
  let c := current_task m in
  let m' := task_delay d m in
  block_count (tcb_at (user_tasks m') c) = to_u32 (g_tick_count m + d) /\
  (is_u32 (g_tick_count m + d) ->
     block_count (tcb_at (user_tasks m') c) = g_tick_count m + d) /\
  current_state (tcb_at (user_tasks m') c) = TASK_BLOCKED_STATE /\
  Z.testbit (ICSR m') PENDSVSET_BIT = true /\
  psp_value (tcb_at (user_tasks m') c) = psp_value (tcb_at (user_tasks m) c) /\
  task_handler (tcb_at (user_tasks m') c)
    = task_handler (tcb_at (user_tasks m) c) /\
  (forall j : nat, j <> Z.to_nat c -> user_tasks m' !! j = user_tasks m !! j) /\
  length (user_tasks m') = length (user_tasks m) /\
  g_tick_count m' = g_tick_count m /\
  current_task m' = current_task m /\
  GPIOD_ODR m' = GPIOD_ODR m /\
  sram m' = sram m.
Proof.
  intros Hlen Hidx c m'.
  assert (exists t, user_tasks m !! Z.to_nat c = Some t) as [t Ht].
  { apply lookup_lt_is_Some_2. unfold table_ok, index_ok, MAX_TASKS in *.
    subst c. lia. }
  assert (user_tasks m' !! Z.to_nat c
          = Some (mkTCB (psp_value t) (to_u32 (g_tick_count m + d))
                    TASK_BLOCKED_STATE (task_handler t))) as Ht'.
  { subst m' c. rewrite task_delay_lookup, Ht.
    case_decide; [reflexivity | congruence]. }
  assert (forall j : nat, j <> Z.to_nat c ->
            user_tasks m' !! j = user_tasks m !! j) as Hother.
  { intros j Hj. subst m' c. rewrite task_delay_lookup.
    case_decide; [congruence | reflexivity]. }
  rewrite (tcb_at_lookup _ _ _ Ht), (tcb_at_lookup _ _ _ Ht'). simpl.
  split; [reflexivity |].
  split; [intros Hfit; apply to_u32_small; exact Hfit |].
  split; [reflexivity |]. split; [apply pend_bit_set |].
  split; [reflexivity |]. split; [reflexivity |].
  split; [exact Hother |].
  split; [rewrite !length_tcb_upd; reflexivity |].
  repeat split.
Qed.

(** ** Round-robin selection *)

Lemma next_index_range c : 0 <= next_index c < MAX_TASKS.
Proof.
  unfold next_index, to_u8, MAX_TASKS.
  assert (0 <= (c + 1) mod 2 ^ 8 < 2 ^ 8) as Hb by (apply Z.mod_pos_bound; lia).
  rewrite Z.rem_mod_nonneg by lia.
  assert (0 <= ((c + 1) mod 2 ^ 8) mod 5 < 5) as Hm
    by (apply Z.mod_pos_bound; lia).
  rewrite (Z.mod_small (_ mod 5)) by lia. exact Hm.
Qed.

Lemma next_index_valid c :
  0 <= c < MAX_TASKS -> next_index c = (c + 1) mod MAX_TASKS.
Proof.
  unfold next_index, to_u8, MAX_TASKS. intros Hc.
  rewrite (Z.mod_small (c + 1)) by lia.
  rewrite Z.rem_mod_nonneg by lia.
  apply Z.mod_small.
  assert (0 <= (c + 1) mod 5 < 5) by (apply Z.mod_pos_bound; lia). lia.
Qed.

Lemma iter_next_index_range n c :
  (0 < n)%nat -> 0 <= Nat.iter n next_index c < MAX_TASKS.
Proof.
  destruct n as [| n]; [lia |]. intros _. simpl. apply next_index_range.
Qed.

Lemma visit_range n : forall c j, In j (visit n c) -> 0 <= j < MAX_TASKS.
Proof.
  induction n as [| n IH]; intros c j; simpl; [tauto |].
  intros [<- | Hin]; [apply next_index_range | exact (IH _ _ Hin)].
Qed.

(** A valid index scans one revolution and ends on itself. *)
Lemma visit_revolution c :
  0 <= c < MAX_TASKS ->
  visit (Z.to_nat MAX_TASKS) c = scan_order c /\
  Nat.iter (Z.to_nat MAX_TASKS) next_index c = c.
Proof.
  intros Hc. index_cases c; vm_compute; split; reflexivity.
Qed.

Lemma uct_loop_spec n : forall st m,
  uct_loop n st m
  = match List.filter (eligible (user_tasks m)) (visit n (current_task m)) with
    | j :: _ => (TASK_READY_STATE, with_current_task j m)
    | [] => (exhausted_state n st (user_tasks m) (current_task m),
             with_current_task (Nat.iter n next_index (current_task m)) m)
    end.
Proof.
  induction n as [| n IH]; intros st m.
  - destruct m; reflexivity.
  - cbn [uct_loop visit List.filter].
    change (to_u8 (Z.rem (to_u8 (current_task m + 1)) MAX_TASKS))
      with (next_index (current_task m)).
    set (c2 := next_index (current_task m)).
    cbn [user_tasks current_task with_current_task].
    change ((current_state (tcb_at (user_tasks m) c2) =? TASK_READY_STATE)
            && negb (c2 =? 0)) with (eligible (user_tasks m) c2).
    destruct (eligible (user_tasks m) c2) eqn:Hel.
    + unfold eligible in Hel. apply andb_true_iff in Hel as [Hst _].
      apply Z.eqb_eq in Hst. rewrite Hst. reflexivity.
    + rewrite IH. cbn [user_tasks current_task with_current_task].
      destruct (List.filter (eligible (user_tasks m)) (visit n c2));
        [| reflexivity].
      rewrite Nat.iter_succ_r. fold c2.
      unfold exhausted_state. rewrite Nat.iter_succ_r. fold c2.
      destruct n; reflexivity.
Qed.

Lemma update_current_task_frame m :
  update_current_task m
  = with_current_task (current_task (update_current_task m)) m.
Proof.
  unfold update_current_task. rewrite uct_loop_spec.
  destruct (List.filter _ _); destruct (_ =? TASK_BLOCKED_STATE);
    cbn [current_task with_current_task]; reflexivity.
Qed.

Lemma update_current_task_spec m :
  index_ok m ->
  update_current_task m
  = with_current_task (next_task (user_tasks m) (current_task m)) m.
Proof.
  intros Hc. unfold update_current_task. rewrite uct_loop_spec.
  destruct (visit_revolution _ Hc) as [-> Hlast].
  unfold next_task, revolution.
  destruct (List.filter _ _) as [| j l]; [| reflexivity].
  unfold exhausted_state.
  change (Z.to_nat MAX_TASKS) with 5%nat in *. cbv iota.
  rewrite Hlast.
  destruct (_ =? TASK_BLOCKED_STATE); [reflexivity |].
  destruct m; reflexivity.
Qed.

Lemma filter_none {A} (P : A -> bool) l :
  (forall x, In x l -> P x = false) -> List.filter P l = [].
Proof.
  induction l as [| x l IH]; intros Hall; simpl; [reflexivity |].
  rewrite (Hall x) by (left; reflexivity).
  apply IH. intros y Hy. apply Hall. right. exact Hy.
Qed.

(** C6.  When every user task (indices 1 to 4) is BLOCKED,
    [update_current_task] selects the idle task, index 0, from whatever
    index it starts; nothing but the current-task index changes. *)
Theorem idle_selected_when_all_blocked (m : machine) :
  table_ok m ->
  (forall j, 1 <= j < MAX_TASKS -> state_of m j = TASK_BLOCKED_STATE) ->
  current_task (update_current_task m) = 0 /\
  update_current_task m = with_current_task 0 m.
Proof.
  intros _ Hblocked.
  assert (current_task (update_current_task m) = 0) as Hzero.
  { unfold update_current_task. rewrite uct_loop_spec.
    rewrite filter_none.
    - unfold exhausted_state. change (Z.to_nat MAX_TASKS) with 5%nat.
      cbv iota.
      pose proof (iter_next_index_range 5 (current_task m) ltac:(lia)) as Hr.
      set (j := Nat.iter 5 next_index (current_task m)) in *.
      destruct (Z.eq_dec j 0) as [Hj | Hj].
      + destruct (_ =? TASK_BLOCKED_STATE); [reflexivity | exact Hj].
      + unfold state_of in Hblocked. rewrite Hblocked by lia. reflexivity.
    - intros j Hj. apply visit_range in Hj. unfold eligible.
      destruct (Z.eq_dec j 0) as [-> | Hnz]; [apply andb_false_r |].
      unfold state_of in Hblocked. rewrite Hblocked by lia. reflexivity. }
  split; [exact Hzero |].
  rewrite update_current_task_frame, Hzero. reflexivity.
Qed.

(** ** One revolution after another *)

Lemma scan_order_range c j : 0 <= c < MAX_TASKS ->
  In j (scan_order c) <-> 0 <= j < MAX_TASKS.
Proof.
  intros Hc. index_cases c; vm_compute (scan_order _); simpl In;
    unfold MAX_TASKS; lia.
Qed.

Lemma scan_order_NoDup c : 0 <= c < MAX_TASKS -> NoDup (scan_order c).
Proof.
  intros Hc. index_cases c;
    apply NoDup_ListNoDup; vm_compute (scan_order _);
    repeat (constructor; [simpl In; lia |]); constructor.
Qed.

(** The scan started after [e] is the scan started after [c], rotated so
    that [e] comes last. *)
Lemma scan_order_rotate c pre e post :
  0 <= c < MAX_TASKS ->
  scan_order c = pre ++ e :: post ->
  scan_order e = post ++ pre ++ [e].
Proof.
  intros Hc. index_cases c;
    vm_compute (scan_order _) at 1;
    destruct pre as [| p0 [| p1 [| p2 [| p3 [| p4 pre]]]]];
    intros Heq; simplify_eq/=; try reflexivity;
    destruct pre; discriminate.
Qed.

Lemma filter_head_split {A} (P : A -> bool) l e rest :
  List.filter P l = e :: rest ->
  exists pre post,
    l = pre ++ e :: post /\ List.filter P pre = [] /\ P e = true /\
    List.filter P post = rest.
Proof.
  induction l as [| x l IH]; simpl; [discriminate |].
  destruct (P x) eqn:Hx.
  - intros [= -> <-]. exists [], l. auto.
  - intros Hl. destruct (IH Hl) as (pre & post & -> & Hpre & He & Hpost).
    exists (x :: pre), post. simpl. rewrite Hx. auto.
Qed.

Lemma revolution_head_range ts c e rest :
  0 <= c < MAX_TASKS -> revolution ts c = e :: rest -> 0 <= e < MAX_TASKS.
Proof.
  intros Hc Hrev. apply (scan_order_range c e Hc).
  assert (In e (revolution ts c)) as Hin by (rewrite Hrev; left; reflexivity).
  unfold revolution in Hin. apply filter_In in Hin. tauto.
Qed.

(** After the head of a revolution has been selected, the next revolution
    is the same cycle with that head moved to the end. *)
Lemma revolution_rotate ts c e rest :
  0 <= c < MAX_TASKS ->
  revolution ts c = e :: rest ->
  revolution ts e = rest ++ [e].
Proof.
  intros Hc Hrev. unfold revolution in *.
  destruct (filter_head_split _ _ _ _ Hrev)
    as (pre & post & Hscan & Hpre & He & Hpost).
  rewrite (scan_order_rotate c pre e post Hc Hscan).
  rewrite !List.filter_app, Hpre, Hpost. simpl. rewrite He. reflexivity.
Qed.

Lemma next_task_head ts c e rest :
  revolution ts c = e :: rest -> next_task ts c = e.
Proof. intros Hrev. unfold next_task. rewrite Hrev. reflexivity. Qed.

Lemma next_task_range ts c :
  0 <= c < MAX_TASKS -> 0 <= next_task ts c < MAX_TASKS.
Proof.
  intros Hc. unfold next_task.
  destruct (revolution ts c) as [| e rest] eqn:Hrev.
  - destruct (_ =? _); [unfold MAX_TASKS; lia | exact Hc].
  - exact (revolution_head_range ts c e rest Hc Hrev).
Qed.

Lemma rotate_lookup (e : Z) rest (i : nat) :
  (i <= length rest)%nat ->
  (rest ++ [e]) !!! i = (e :: rest) !!! (S i mod S (length rest))%nat.
Proof.
  intros Hi. destruct (decide (i = length rest)) as [-> | Hne].
  - rewrite Nat.Div0.mod_same. simpl.
    apply list_lookup_total_middle. reflexivity.
  - rewrite Nat.mod_small by lia. simpl.
    apply lookup_total_app_l. lia.
Qed.

(** Repeated selection on an unchanged table walks through the revolution
    and starts over. *)
Lemma iter_next_task ts (k : nat) : forall c rev,
  0 <= c < MAX_TASKS ->
  revolution ts c = rev ->
  rev <> [] ->
  Nat.iter (S k) (next_task ts) c = rev !!! (k mod length rev)%nat.
Proof.
  induction k as [| k IH]; intros c rev Hc Hrev Hne;
    destruct rev as [| e rest]; try congruence.
  - rewrite Nat.Div0.mod_0_l. cbn [Nat.iter nat_rect].
    change ((e :: rest) !!! 0%nat) with e.
    apply next_task_head with rest. exact Hrev.
  - rewrite Nat.iter_succ_r, (next_task_head ts c e rest Hrev).
    rewrite (IH e (rest ++ [e])).
    + rewrite length_app. simpl length.
      replace (length rest + 1)%nat with (S (length rest)) by lia.
      rewrite rotate_lookup.
      * f_equal. change (S (k mod S (length rest)))
          with (1 + k mod S (length rest))%nat.
        rewrite Nat.Div0.add_mod_idemp_r. reflexivity.
      * pose proof (Nat.mod_upper_bound k (S (length rest))). lia.
    + exact (revolution_head_range ts c e rest Hc Hrev).
    + exact (revolution_rotate ts c e rest Hc Hrev).
    + destruct rest; discriminate.
Qed.

(** Ticks that wake nobody leave the table as it is. *)
Lemma unblock_tcb_fixed g t :
  (current_state t <> TASK_READY_STATE -> block_count t <> g) ->
  unblock_tcb g t = t.
Proof.
  intros Hq. unfold unblock_tcb.
  destruct (Z.eqb_spec (current_state t) TASK_READY_STATE) as [| Hnr];
    [reflexivity |].
  destruct (Z.eqb_spec (block_count t) g) as [Heq | ]; [| reflexivity].
  destruct (Hq Hnr Heq).
Qed.

Lemma iter_tick_then_select m (n : nat) :
  table_ok m -> index_ok m -> is_u32 (g_tick_count m) -> no_wakeup m n ->
  forall k : nat, (k <= n)%nat ->
    user_tasks (Nat.iter k tick_then_select m) = user_tasks m /\
    g_tick_count (Nat.iter k tick_then_select m)
      = to_u32 (g_tick_count m + Z.of_nat k) /\
    current_task (Nat.iter k tick_then_select m)
      = Nat.iter k (next_task (user_tasks m)) (current_task m) /\
    index_ok (Nat.iter k tick_then_select m).
Proof.
  intros Hlen Hc Hg Hquiet k. induction k as [| k IH]; intros Hk.
  - simpl. rewrite Z.add_0_r, (to_u32_small _ Hg). auto.
  - destruct IH as (Hts & Hgk & Hck & Hidx); [lia |].
    rewrite !Nat.iter_succ.
    set (mk := Nat.iter k tick_then_select m) in *.
    assert (table_ok mk) as Hlenk by (unfold table_ok; rewrite Hts; exact Hlen).
    unfold tick_then_select.
    assert (SysTick_Handler mk
            = mkMachine (user_tasks m) (to_u32 (g_tick_count m + Z.of_nat (S k)))
                (current_task mk) (Z.lor (ICSR mk) (Z.shiftl 1 PENDSVSET_BIT))
                (PRIMASK mk) (GPIOD_ODR mk) (sram mk)) as Htick.
    { rewrite SysTick_Handler_spec by exact Hlenk.
      rewrite Hgk, to_u32_succ, Hts.
      replace (g_tick_count m + Z.of_nat k + 1)
        with (g_tick_count m + Z.of_nat (S k)) by lia.
      f_equal. apply list_eq. intros j. rewrite list_lookup_fmap.
      destruct (user_tasks m !! j) as [t |] eqn:Ht; [| reflexivity].
      simpl. f_equal. apply unblock_tcb_fixed. intros Hnr.
      apply (Hquiet j t (S k) Ht Hnr). lia. }
    rewrite Htick, update_current_task_spec by exact Hidx.
    cbn [user_tasks g_tick_count current_task with_current_task].
    rewrite Hck. repeat split; try reflexivity.
    all: apply next_task_range; rewrite <- Hck; exact Hidx.
Qed.

Lemma eligible_iff ts j :
  eligible ts j = true
  <-> current_state (tcb_at ts j) = TASK_READY_STATE /\ j <> 0.
Proof.
  unfold eligible. rewrite andb_true_iff, Z.eqb_eq, negb_true_iff, Z.eqb_neq.
  reflexivity.
Qed.

(** C1.  From a valid current index [c], [update_current_task] scans
    [c+1], [c+2], ... modulo [MAX_TASKS] for one revolution and makes
    current the first index it meets that is READY and not the idle index;
    nothing else changes.  Hence, as long as ticks wake no task and no task
    blocks, the successive selections run through the READY user tasks in
    that circular order, each of them exactly once per revolution, and then
    start over. *)
Theorem round_robin_selection (m : machine) (n : nat) :
  table_ok m ->
  index_ok m ->
  is_u32 (g_tick_count m) ->
  no_wakeup m n ->
  let ts := user_tasks m in
  let c := current_task m in
  scan_order c
    = [(c + 1) mod MAX_TASKS; (c + 2) mod MAX_TASKS; (c + 3) mod MAX_TASKS;
       (c + 4) mod MAX_TASKS; (c + 5) mod MAX_TASKS] /\
  (forall pre j post,
     scan_order c = pre ++ j :: post ->
     (forall i, In i pre -> ~ (state_of m i = TASK_READY_STATE /\ i <> 0)) ->
     state_of m j = TASK_READY_STATE -> j <> 0 ->
     update_current_task m = with_current_task j m) /\
  NoDup (revolution ts c) /\
  (forall j, In j (revolution ts c)
             <-> 1 <= j < MAX_TASKS /\ state_of m j = TASK_READY_STATE) /\
  (forall k : nat, (k < n)%nat -> revolution ts c <> [] ->
     current_task (Nat.iter (S k) tick_then_select m)
       = revolution ts c !!! (k mod length (revolution ts c))%nat).
Proof.
  intros Hlen Hc Hg Hquiet ts c. subst ts c.
  split; [reflexivity |].
  split.
  { intros pre j post Hscan Hpre Hst Hnz.
    rewrite update_current_task_spec by exact Hc. f_equal.
    apply next_task_head
      with (List.filter (eligible (user_tasks m)) post).
    unfold revolution. rewrite Hscan, List.filter_app.
    rewrite filter_none.
    - cbn [List.filter app].
      rewrite (proj2 (eligible_iff (user_tasks m) j)); [reflexivity |].
      split; assumption.
    - intros i Hi.
      destruct (eligible (user_tasks m) i) eqn:Hel; [| reflexivity].
      apply eligible_iff in Hel. destruct (Hpre i Hi Hel). }
  split.
  { apply NoDup_ListNoDup, List.NoDup_filter, NoDup_ListNoDup.
    apply scan_order_NoDup. exact Hc. }
  split.
  { intros j. unfold revolution. rewrite filter_In, eligible_iff.
    rewrite (scan_order_range (current_task m) j Hc).
    unfold state_of, MAX_TASKS. lia. }
  intros k Hk Hne.
  destruct (iter_tick_then_select m n Hlen Hc Hg Hquiet (S k))
    as (_ & _ & -> & _); [lia |].
  apply iter_next_task; [exact Hc | reflexivity | exact Hne].
Qed.

(** ** Stack frame initialiser *)

Lemma push_zeros_spec n : forall p mem,
  fst (push_zeros n p mem) = p - 4 * Z.of_nat n /\
  (forall k, 1 <= k <= Z.of_nat n ->
     snd (push_zeros n p mem) !! (p - 4 * k) = Some 0) /\
  (forall a, a < p - 4 * Z.of_nat n \/ p <= a ->
     snd (push_zeros n p mem) !! a = mem !! a).
Proof.
  induction n as [| n IH]; intros p mem.
  - cbn [push_zeros fst snd]. split; [lia |]. split; [intros; lia | reflexivity].
  - cbn [push_zeros].
    destruct (IH (p - 4) (store32 (p - 4) 0 mem)) as (Hp & Hin & Hout).
    split; [rewrite Hp; lia |]. split.
    + intros k Hk. destruct (Z.eq_dec k 1) as [-> | Hk1].
      * rewrite Hout by lia. unfold store32.
        replace (p - 4 * 1) with (p - 4) by lia. apply lookup_insert_eq.
      * replace (p - 4 * k) with (p - 4 - 4 * (k - 1)) by lia.
        apply Hin. lia.
    + intros a Ha. rewrite Hout by lia. unfold store32.
      apply lookup_insert_ne. lia.
Qed.

(** The initial stack tops are a full task stack apart. *)
Lemma stack_tops_apart (i j : nat) p q :
  PSP_INIT_ADDRS !! i = Some p -> PSP_INIT_ADDRS !! j = Some q -> i <> j ->
  p + SIZE_TASK_STACK <= q \/ q + SIZE_TASK_STACK <= p.
Proof.
  intros Hi Hj Hne.
  destruct i as [| [| [| [| [| i]]]]]; try discriminate;
    destruct j as [| [| [| [| [| j]]]]]; try discriminate;
    try congruence;
    vm_compute in Hi, Hj; simplify_eq; vm_compute; intuition discriminate.
Qed.

Lemma stack_top_range (i : nat) p :
  PSP_INIT_ADDRS !! i = Some p -> 64 <= p < 2 ^ 32.
Proof.
  intros Hi.
  destruct i as [| [| [| [| [| i]]]]]; try discriminate;
    vm_compute in Hi; simplify_eq; lia.
Qed.

Lemma stack_top_exists (i : nat) :
  (i < 5)%nat -> exists p, PSP_INIT_ADDRS !! i = Some p.
Proof. intros Hi. apply lookup_lt_is_Some_2. simpl. exact Hi. Qed.

Lemma install_handlers_lookup (ts : list TCB_t) (j : nat) :
  (j < 5)%nat ->
  tcb_upd (set_task_handler (Some task4_handler)) 4
    (tcb_upd (set_task_handler (Some task3_handler)) 3
       (tcb_upd (set_task_handler (Some task2_handler)) 2
          (tcb_upd (set_task_handler (Some task1_handler)) 1
             (tcb_upd (set_task_handler (Some idle_handler)) 0 ts)))) !! j
  = set_task_handler (entry_point j) <$> ts !! j.
Proof.
  intros Hj. rewrite !lookup_tcb_upd.
  destruct j as [| [| [| [| [| j]]]]]; [| | | | | lia];
    repeat case_decide; try (exfalso; lia); reflexivity.
Qed.

(** The frames are built from the addresses of the five handlers; on this
    target a function pointer is a 32-bit address. *)
Section Init.

Variable fn_addr : handler -> Z.
Hypothesis fn_addr_u32 : forall f, is_u32 (fn_addr f).

Lemma init_task_frame_spec (i : nat) m t p :
  user_tasks m !! i = Some t ->
  PSP_INIT_ADDRS !! i = Some p ->
  init_task_frame fn_addr (Z.of_nat i) m
    = with_sram (sram (init_task_frame fn_addr (Z.of_nat i) m))
        (with_user_tasks
           (<[i := mkTCB (to_u32 (p - 64)) (block_count t) TASK_READY_STATE
                     (task_handler t)]> (user_tasks m)) m) /\
  (forall k, 1 <= k <= 16 ->
     sram (init_task_frame fn_addr (Z.of_nat i) m) !! (p - 4 * k)
     = Some (frame_word fn_addr (task_handler t) k)) /\
  (forall a, a < p - 64 \/ p <= a ->
     sram (init_task_frame fn_addr (Z.of_nat i) m) !! a = sram m !! a).
Proof.
  intros Ht Hp. unfold init_task_frame.
  rewrite Nat2Z.id.
  rewrite (list_lookup_total_correct _ _ _ Hp).
  set (ts2 := tcb_upd (set_psp_value p) (Z.of_nat i)
                (tcb_upd (set_current_state TASK_READY_STATE) (Z.of_nat i)
                   (user_tasks m))).
  assert (ts2 !! i = Some (mkTCB p (block_count t) TASK_READY_STATE
                             (task_handler t))) as Ht2.
  { subst ts2. rewrite !lookup_tcb_upd, Nat2Z.id, Ht.
    case_decide; [reflexivity | congruence]. }
  rewrite (tcb_at_lookup ts2 (Z.of_nat i) _) by (rewrite Nat2Z.id; exact Ht2).
  cbn [psp_value task_handler].
  set (mem3 := store32 (p - 4 - 4 - 4) EXC_RETURN_THREAD_PSP
                 (store32 (p - 4 - 4)
                    (handler_word fn_addr (task_handler t))
                    (store32 (p - 4) DUMMY_XPSR (sram m)))).
  destruct (push_zeros_spec 5 (p - 4 - 4 - 4) mem3) as (Hp4 & Hin4 & Hout4).
  destruct (push_zeros 5 (p - 4 - 4 - 4) mem3) as [p4 mem4].
  cbn [fst snd] in Hp4, Hin4, Hout4.
  destruct (push_zeros_spec 8 p4 mem4) as (Hp5 & Hin5 & Hout5).
  destruct (push_zeros 8 p4 mem4) as [p5 mem5].
  cbn [fst snd] in Hp5, Hin5, Hout5.
  cbn [sram with_sram with_user_tasks].
  assert (p5 = p - 64) as -> by lia.
  split; [| split].
  - f_equal. f_equal. subst ts2. apply list_eq. intros j.
    rewrite !lookup_tcb_upd, Nat2Z.id.
    destruct (decide (i = j)) as [<- | Hne].
    + rewrite list_lookup_insert_eq by (apply lookup_lt_Some in Ht; exact Ht).
      rewrite Ht. reflexivity.
    + rewrite list_lookup_insert_ne by exact Hne. reflexivity.
  - intros k Hk. unfold frame_word.
    destruct (Z_le_gt_dec 9 k) as [Hk9 | Hk9];
      [| destruct (Z_le_gt_dec 4 k) as [Hk4 | Hk4]].
    + replace (p - 4 * k) with (p4 - 4 * (k - 8)) by lia.
      rewrite Hin5 by lia.
      destruct (Z.eqb_spec k 1); [lia |]. destruct (Z.eqb_spec k 2); [lia |].
      destruct (Z.eqb_spec k 3); [lia | reflexivity].
    + rewrite Hout5 by lia.
      replace (p - 4 * k) with (p - 4 - 4 - 4 - 4 * (k - 3)) by lia.
      rewrite Hin4 by lia.
      destruct (Z.eqb_spec k 1); [lia |]. destruct (Z.eqb_spec k 2); [lia |].
      destruct (Z.eqb_spec k 3); [lia | reflexivity].
    + rewrite Hout5, Hout4 by lia. subst mem3. unfold store32.
      assert (k = 1 \/ k = 2 \/ k = 3) as [-> | [-> | ->]] by lia;
        cbn [Z.eqb Pos.eqb].
      * replace (p - 4 * 1) with (p - 4) by lia.
        rewrite !lookup_insert_ne by lia. apply lookup_insert_eq.
      * replace (p - 4 * 2) with (p - 4 - 4) by lia.
        rewrite lookup_insert_ne by lia. apply lookup_insert_eq.
      * replace (p - 4 * 3) with (p - 4 - 4 - 4) by lia.
        apply lookup_insert_eq.
  - intros a Ha. rewrite Hout5, Hout4 by lia. subst mem3. unfold store32.
    rewrite !lookup_insert_ne by lia. reflexivity.
Qed.

(** The loop of [init_tasks_stack], from task [i] on for [n] tasks: these
    tasks get their frame and their stack pointer, the others and the memory
    outside the frames are left alone. *)
Lemma init_loop_spec n : forall (i : nat) m,
  (i + n <= 5)%nat ->
  table_ok m ->
  let m' := for_range n (Z.of_nat i) (init_task_frame fn_addr) m in
  (forall j t p,
     (i <= j < i + n)%nat ->
     user_tasks m !! j = Some t -> PSP_INIT_ADDRS !! j = Some p ->
     user_tasks m' !! j
       = Some (mkTCB (to_u32 (p - 64)) (block_count t) TASK_READY_STATE
                 (task_handler t)) /\
     forall k, 1 <= k <= 16 ->
       sram m' !! (p - 4 * k) = Some (frame_word fn_addr (task_handler t) k)) /\
  (forall j, ~ (i <= j < i + n)%nat -> user_tasks m' !! j = user_tasks m !! j) /\
  (forall a,
     (forall j p, (i <= j < i + n)%nat -> PSP_INIT_ADDRS !! j = Some p ->
                  a < p - 64 \/ p <= a) ->
     sram m' !! a = sram m !! a) /\
  table_ok m' /\
  g_tick_count m' = g_tick_count m /\ current_task m' = current_task m /\
  ICSR m' = ICSR m /\ PRIMASK m' = PRIMASK m /\ GPIOD_ODR m' = GPIOD_ODR m.
Proof.
  induction n as [| n IH]; intros i m Hin Hlen; cbn zeta.
  - cbn [for_range]. split; [intros j t p Hj; lia |].
    repeat split; try reflexivity. exact Hlen.
  - cbn [for_range]. replace (Z.of_nat i + 1) with (Z.of_nat (S i)) by lia.
    destruct (lookup_lt_is_Some_2 (user_tasks m) i) as [ti Hti];
      [unfold table_ok, MAX_TASKS in Hlen; lia |].
    destruct (stack_top_exists i) as [pi Hpi]; [lia |].
    destruct (init_task_frame_spec i m ti pi Hti Hpi)
      as (Hm1 & Hframe & Hout).
    set (m1 := init_task_frame fn_addr (Z.of_nat i) m) in *.
    assert (user_tasks m1
            = <[i := mkTCB (to_u32 (pi - 64)) (block_count ti)
                       TASK_READY_STATE (task_handler ti)]> (user_tasks m))
      as Hts1 by (rewrite Hm1; reflexivity).
    assert (table_ok m1) as Hlen1
      by (unfold table_ok; rewrite Hts1, length_insert; exact Hlen).
    destruct (IH (S i) m1 ltac:(lia) Hlen1)
      as (Hin' & Hother' & Hmem' & Hlen' & Hg' & Hc' & Hicsr' & Hpm' & Hodr').
    set (m' := for_range n (Z.of_nat (S i)) (init_task_frame fn_addr) m1) in *.
    split; [| split; [| split]].
    + intros j t p Hj Ht Hp. destruct (decide (j = i)) as [-> | Hne].
      * assert (t = ti) as -> by congruence.
        assert (p = pi) as -> by congruence.
        split.
        -- rewrite Hother' by lia. rewrite Hts1.
           apply list_lookup_insert_eq. apply lookup_lt_Some in Hti. exact Hti.
        -- intros k Hk. rewrite Hmem'; [apply Hframe; exact Hk |].
           intros j' p' Hj' Hp'.
           destruct (stack_tops_apart i j' pi p' Hpi Hp' ltac:(lia));
             unfold SIZE_TASK_STACK in *; lia.
      * apply Hin'; [lia | | exact Hp].
        rewrite Hts1, list_lookup_insert_ne by congruence. exact Ht.
    + intros j Hj. rewrite Hother' by lia.
      rewrite Hts1. apply list_lookup_insert_ne. lia.
    + intros a Ha. rewrite Hmem'.
      * apply Hout. apply (Ha i pi); [lia | exact Hpi].
      * intros j p Hj Hp. apply (Ha j p); [lia | exact Hp].
    + rewrite Hg', Hc', Hicsr', Hpm', Hodr', Hm1.
      repeat split; try reflexivity. exact Hlen'.
Qed.

Lemma init_tasks_stack_spec m (i : nat) t p :
  table_ok m ->
  user_tasks m !! i = Some t ->
  PSP_INIT_ADDRS !! i = Some p ->
  user_tasks (init_tasks_stack fn_addr m) !! i
    = Some (mkTCB (p - 64) (block_count t) TASK_READY_STATE (entry_point i)) /\
  (forall k, 1 <= k <= 16 ->
     sram (init_tasks_stack fn_addr m) !! (p - 4 * k)
     = Some (frame_word fn_addr (entry_point i) k)) /\
  table_ok (init_tasks_stack fn_addr m) /\
  g_tick_count (init_tasks_stack fn_addr m) = g_tick_count m /\
  current_task (init_tasks_stack fn_addr m) = current_task m.
Proof.
  intros Hlen Ht Hp. unfold init_tasks_stack.
  set (ts4 := tcb_upd _ 4 _).
  assert (i < 5)%nat as Hi by (apply lookup_lt_Some in Hp; exact Hp).
  assert (table_ok (with_user_tasks ts4 m)) as Hlen4.
  { unfold table_ok in *. subst ts4. cbn [user_tasks with_user_tasks].
    rewrite !length_tcb_upd. exact Hlen. }
  destruct (init_loop_spec (Z.to_nat MAX_TASKS) 0 (with_user_tasks ts4 m)
              ltac:(unfold MAX_TASKS; lia) Hlen4)
    as (Hin & _ & _ & Hlen' & Hg' & Hc' & _).
  change (Z.of_nat 0) with 0 in *.
  destruct (Hin i (set_task_handler (entry_point i) t) p) as [Htcb Hmem].
  - change (Z.to_nat MAX_TASKS) with 5%nat. lia.
  - cbn [user_tasks with_user_tasks]. subst ts4.
    rewrite install_handlers_lookup by exact Hi. rewrite Ht. reflexivity.
  - exact Hp.
  - cbn [block_count task_handler set_task_handler] in Htcb, Hmem.
    rewrite to_u32_small in Htcb
      by (pose proof (stack_top_range i p Hp); unfold is_u32; lia).
    repeat split; assumption.
Qed.

(** C8.  For every task [i], with [p] its initial stack top and [h] its
    entry function, [init_tasks_stack] leaves in the sixteen words below
    [p]: the status word [0x01000000] (Thumb bit 24 set), the address of
    [h] in the PC slot, the return link [0xFFFFFFFD], five zero words for
    R12 and R3-R0 and eight zero words for R4-R11; the saved stack pointer
    of the TCB then is [p] minus sixteen words, the address of the last
    word written, and the task is READY. *)
Theorem initial_frame_layout (m : machine) (i : nat) (p : Z) (h : handler) :
  table_ok m ->
  PSP_INIT_ADDRS !! i = Some p ->
  entry_point i = Some h ->
  let m' := init_tasks_stack fn_addr m in
  sram m' !! (p - 4) = Some 0x01000000 /\
  Z.testbit 0x01000000 24 = true /\
  sram m' !! (p - 8) = Some (fn_addr h) /\
  sram m' !! (p - 12) = Some 0xFFFFFFFD /\
  (forall k, 4 <= k <= 8 -> sram m' !! (p - 4 * k) = Some 0) /\
  (forall k, 9 <= k <= 16 -> sram m' !! (p - 4 * k) = Some 0) /\
  exists t',
    user_tasks m' !! i = Some t' /\
    psp_value t' = p - 4 * 16 /\
    current_state t' = TASK_READY_STATE /\
    task_handler t' = Some h.
Proof.
  intros Hlen Hp Hh m'.
  destruct (lookup_lt_is_Some_2 (user_tasks m) i) as [t Ht].
  { apply lookup_lt_Some in Hp. unfold table_ok, MAX_TASKS in Hlen.
    simpl in Hp. lia. }
  destruct (init_tasks_stack_spec m i t p Hlen Ht Hp) as (Htcb & Hmem & _).
  fold m' in Htcb, Hmem. rewrite Hh in Htcb, Hmem.
  split; [replace (p - 4) with (p - 4 * 1) by lia; apply Hmem; lia |].
  split; [reflexivity |].
  split.
  { replace (p - 8) with (p - 4 * 2) by lia. rewrite Hmem by lia.
    unfold frame_word, handler_word. simpl. f_equal.
    apply to_u32_small, fn_addr_u32. }
  split; [replace (p - 12) with (p - 4 * 3) by lia; apply Hmem; lia |].
  split; [| split].
  - intros k Hk. rewrite Hmem by lia. unfold frame_word.
    destruct (Z.eqb_spec k 1); [lia |]. destruct (Z.eqb_spec k 2); [lia |].
    destruct (Z.eqb_spec k 3); [lia | reflexivity].
  - intros k Hk. rewrite Hmem by lia. unfold frame_word.
    destruct (Z.eqb_spec k 1); [lia |]. destruct (Z.eqb_spec k 2); [lia |].
    destruct (Z.eqb_spec k 3); [lia | reflexivity].
  - eexists. split; [exact Htcb |]. simpl. repeat split; lia.
Qed.

End Init.

(** ** The idle task never blocks *)

Lemma state_of_lookup m (i : Z) t :
  user_tasks m !! Z.to_nat i = Some t -> state_of m i = current_state t.
Proof.
  intros Ht. unfold state_of. rewrite (tcb_at_lookup _ _ t Ht). reflexivity.
Qed.

Lemma table_ok_lookup m (i : nat) :
  table_ok m -> (i < 5)%nat -> exists t, user_tasks m !! i = Some t.
Proof.
  intros Hlen Hi. apply lookup_lt_is_Some_2.
  unfold table_ok, MAX_TASKS in Hlen. lia.
Qed.

Lemma sched_inv_init fn_addr m0 :
  boot_globals m0 -> sched_inv (init_tasks_stack fn_addr m0).
Proof.
  intros (Hts & _ & Hc).
  assert (table_ok m0) as Hlen
    by (unfold table_ok; rewrite Hts; apply length_replicate).
  assert (forall i : nat, (i < 5)%nat ->
            exists t p, user_tasks m0 !! i = Some t /\
                        PSP_INIT_ADDRS !! i = Some p) as Hrow.
  { intros i Hi. destruct (table_ok_lookup m0 i Hlen Hi) as [t Ht].
    destruct (stack_top_exists i Hi) as [p Hp]. eauto. }
  destruct (Hrow 0%nat ltac:(lia)) as (t0 & p0 & Ht0 & Hp0).
  destruct (init_tasks_stack_spec fn_addr m0 0 t0 p0 Hlen Ht0 Hp0)
    as (Htcb0 & _ & Hlen' & _ & Hc').
  repeat split.
  - exact Hlen'.
  - rewrite Hc', Hc. lia.
  - rewrite Hc', Hc. unfold MAX_TASKS. lia.
  - intros i t Hi.
    assert (i < 5)%nat as Hlt.
    { apply lookup_lt_Some in Hi. unfold table_ok, MAX_TASKS in Hlen'. lia. }
    destruct (Hrow i Hlt) as (ti & pi & Hti & Hpi).
    destruct (init_tasks_stack_spec fn_addr m0 i ti pi Hlen Hti Hpi)
      as (Htcb & _).
    rewrite Htcb in Hi. injection Hi as <-. reflexivity.
  - rewrite (state_of_lookup _ 0 _ Htcb0). reflexivity.
Qed.

Lemma sched_inv_tick m : sched_inv m -> sched_inv (SysTick_Handler m).
Proof.
  intros (Hlen & Hc & Hh & Hidle).
  split; [apply SysTick_Handler_table_ok; exact Hlen |].
  rewrite SysTick_Handler_spec by exact Hlen.
  split; [exact Hc |]. split.
  - intros i t. cbn [user_tasks]. rewrite list_lookup_fmap.
    destruct (user_tasks m !! i) as [t0 |] eqn:Ht0; [| discriminate].
    intros [= <-]. rewrite <- (Hh i t0 Ht0).
    unfold unblock_tcb. destruct (_ && _); reflexivity.
  - destruct (table_ok_lookup m 0 Hlen ltac:(lia)) as [t0 Ht0].
    rewrite (state_of_lookup _ 0 _ Ht0) in Hidle.
    rewrite (state_of_lookup _ 0 (unblock_tcb _ t0))
      by (change (Z.to_nat 0) with 0%nat; cbn [user_tasks];
          rewrite list_lookup_fmap, Ht0; reflexivity).
    unfold unblock_tcb. rewrite Hidle, Z.eqb_refl. exact Hidle.
Qed.

Lemma sched_inv_switch p m : sched_inv m -> sched_inv (context_switch p m).
Proof.
  intros (Hlen & Hc & Hh & Hidle). unfold context_switch.
  rewrite update_current_task_spec by exact Hc.
  unfold sched_inv, table_ok, index_ok, handlers_installed, state_of.
  cbn [user_tasks current_task with_current_task save_psp_value
       with_user_tasks].
  split; [rewrite length_tcb_upd; exact Hlen |].
  split; [apply next_task_range; exact Hc |].
  split.
  - intros i t. rewrite lookup_tcb_upd. case_decide; [| apply Hh].
    destruct (user_tasks m !! i) as [t0 |] eqn:Ht0; [| discriminate].
    intros [= <-]. exact (Hh i t0 Ht0).
  - destruct (table_ok_lookup m 0 Hlen ltac:(lia)) as [t0 Ht0].
    rewrite (state_of_lookup _ 0 _ Ht0) in Hidle.
    rewrite (tcb_at_lookup _ 0
               (if decide (Z.to_nat (current_task m) = 0%nat)
                then set_psp_value p t0 else t0)).
    + case_decide; exact Hidle.
    + rewrite lookup_tcb_upd. change (Z.to_nat 0) with 0%nat. rewrite Ht0.
      case_decide; reflexivity.
Qed.

(** Only the user tasks call [task_delay]: the body of [idle_handler] is a
    lone [wfi]. *)
Lemma delay_caller_not_idle m h d :
  sched_inv m ->
  task_handler (tcb_at (user_tasks m) (current_task m)) = Some h ->
  call_task_delay d ∈ handler_body h ->
  current_task m <> 0.
Proof.
  intros (Hlen & _ & Hh & _) Hcur Hcall Hzero.
  destruct (table_ok_lookup m 0 Hlen ltac:(lia)) as [t0 Ht0].
  rewrite Hzero, (tcb_at_lookup _ 0 t0 Ht0), (Hh 0%nat t0 Ht0) in Hcur.
  injection Hcur as <-. simpl in Hcall.
  apply list_elem_of_singleton in Hcall. discriminate.
Qed.

Lemma sched_inv_delay d m :
  sched_inv m -> current_task m <> 0 -> sched_inv (task_delay d m).
Proof.
  intros (Hlen & Hc & Hh & Hidle) Hnz.
  split; [apply task_delay_table_ok; exact Hlen |].
  split; [exact Hc |]. split.
  - intros i t. rewrite task_delay_lookup. case_decide; [| apply Hh].
    destruct (user_tasks m !! i) as [t0 |] eqn:Ht0; [| discriminate].
    intros [= <-]. exact (Hh i t0 Ht0).
  - destruct (table_ok_lookup m 0 Hlen ltac:(lia)) as [t0 Ht0].
    rewrite (state_of_lookup _ 0 _ Ht0) in Hidle.
    rewrite (state_of_lookup _ 0 t0); [exact Hidle |].
    change (Z.to_nat 0) with 0%nat.
    rewrite task_delay_lookup. case_decide; [| exact Ht0].
    unfold index_ok in Hc. lia.
Qed.

Lemma sched_inv_step m m' : sched_inv m -> step m m' -> sched_inv m'.
Proof.
  intros Hinv Hstep. destruct Hstep as [m | m p | m h c Hcur Hcall].
  - apply sched_inv_tick. exact Hinv.
  - apply sched_inv_switch. exact Hinv.
  - destruct c as [n | n | d |]; cbn [exec_call].
    + exact Hinv.
    + exact Hinv.
    + apply sched_inv_delay; [exact Hinv |].
      exact (delay_caller_not_idle m h d Hinv Hcur Hcall).
    + exact Hinv.
Qed.

Lemma reachable_sched_inv fn_addr m : reachable fn_addr m -> sched_inv m.
Proof.
  induction 1 as [m0 Hboot | m m' _ IH Hstep].
  - apply sched_inv_init. exact Hboot.
  - exact (sched_inv_step m m' IH Hstep).
Qed.

(** C7.  In every machine reachable from [init_tasks_stack] by tick
    firings, context switches and the calls the handlers make, the TCB of
    the idle task (index 0) is READY; in particular no step from a reachable
    machine leaves it BLOCKED. *)
Theorem idle_always_ready (fn_addr : handler -> Z) (m : machine) :
  reachable fn_addr m ->
  state_of m 0 = TASK_READY_STATE /\
  (forall m', step m m' ->
     state_of m' 0 = TASK_READY_STATE /\
     state_of m' 0 <> TASK_BLOCKED_STATE).
Proof.
  intros Hreach. pose proof (reachable_sched_inv fn_addr m Hreach) as Hinv.
  split; [apply Hinv |].
  intros m' Hstep.
  destruct (sched_inv_step m m' Hinv Hstep) as (_ & _ & _ & Hidle).
  split; [exact Hidle |]. rewrite Hidle. discriminate.
Qed.

(** ** Sleeping through a delay *)

Lemma asleep_app i tr1 : forall tr2 m,
  asleep i (tr1 ++ tr2) m <-> asleep i tr1 m /\ asleep i tr2 (run tr1 m).
Proof.
  induction tr1 as [| e tr1 IH]; intros tr2 m; simpl; [tauto |].
  rewrite IH. tauto.
Qed.

Lemma ticks_cons e tr :
  ticks (e :: tr) = ((if is_tick e then 1 else 0) + ticks tr)%nat.
Proof. unfold ticks. simpl. destruct (is_tick e); reflexivity. Qed.

Lemma switches_cons e tr :
  switches (e :: tr) = ((if is_switch e then 1 else 0) + switches tr)%nat.
Proof. unfold switches. simpl. destruct (is_switch e); reflexivity. Qed.

Lemma wake_after_range d : is_u32 d -> 0 < wake_after d <= 2 ^ 32.
Proof.
  unfold is_u32, wake_after. intros Hd.
  destruct (Z.eqb_spec d 0); lia.
Qed.

(** The wake tick is met at the [wake_after d]-th firing and at no earlier
    one. *)
Lemma wake_tick_met t0 d : is_u32 d ->
  to_u32 (t0 + d) = to_u32 (t0 + wake_after d).
Proof.
  intros Hd. unfold wake_after. destruct (Z.eqb_spec d 0) as [-> | _];
    [| reflexivity].
  rewrite Z.add_0_r, to_u32_period. reflexivity.
Qed.

Lemma wake_tick_not_met t0 d n : is_u32 d ->
  0 < n < wake_after d -> to_u32 (t0 + d) <> to_u32 (t0 + n).
Proof.
  intros Hd Hn. unfold is_u32, wake_after in *.
  destruct (Z.eqb_spec d 0) as [-> | Hnz].
  - rewrite Z.add_0_r. apply to_u32_apart. lia.
  - apply not_eq_sym, to_u32_apart. lia.
Qed.

Lemma sleeping_tick i t0 d n m :
  is_u32 d -> 0 <= n ->
  sleeping i t0 d n m -> sleeping i t0 d (n + 1) (SysTick_Handler m).
Proof.
  intros Hd Hn (Hlen & Hc & Hg & t & Ht & Hbc & Hst).
  split; [apply SysTick_Handler_table_ok; exact Hlen |].
  rewrite SysTick_Handler_spec by exact Hlen.
  unfold sleeping, index_ok. cbn [user_tasks g_tick_count current_task].
  split; [exact Hc |].
  assert (to_u32 (g_tick_count m + 1) = to_u32 (t0 + (n + 1))) as Hg'
    by (rewrite Hg, to_u32_succ; f_equal; lia).
  split; [exact Hg' |].
  exists (unblock_tcb (to_u32 (g_tick_count m + 1)) t).
  rewrite list_lookup_fmap, Ht. split; [reflexivity |].
  pose proof (wake_after_range d Hd) as Hk.
  unfold unblock_tcb. rewrite Hg', Hbc.
  destruct (Z.ltb_spec n (wake_after d)) as [Hlt | Hge];
    rewrite Hst; cbn [negb andb Z.eqb TASK_BLOCKED_STATE TASK_READY_STATE].
  - destruct (Z.eqb_spec (to_u32 (t0 + d)) (to_u32 (t0 + (n + 1))))
      as [Heq | Hneq].
    + cbn [block_count current_state set_current_state].
      split; [exact Hbc |].
      destruct (Z.ltb_spec (n + 1) (wake_after d)) as [Hlt' | _];
        [| reflexivity].
      exfalso. revert Heq. apply wake_tick_not_met; [exact Hd | lia].
    + split; [exact Hbc |]. rewrite Hst.
      destruct (Z.ltb_spec (n + 1) (wake_after d)) as [_ | Hge'];
        [reflexivity |].
      exfalso. apply Hneq. replace (n + 1) with (wake_after d) by lia.
      apply wake_tick_met. exact Hd.
  - split; [exact Hbc |]. rewrite Hst.
    destruct (Z.ltb_spec (n + 1) (wake_after d)); [lia | reflexivity].
Qed.

Lemma sleeping_switch i t0 d n p m :
  sleeping i t0 d n m -> sleeping i t0 d n (context_switch p m).
Proof.
  intros (Hlen & Hc & Hg & t & Ht & Hbc & Hst). unfold context_switch.
  rewrite update_current_task_spec by exact Hc.
  unfold sleeping, table_ok, index_ok.
  cbn [user_tasks g_tick_count current_task with_current_task save_psp_value
       with_user_tasks].
  split; [rewrite length_tcb_upd; exact Hlen |].
  split; [apply next_task_range; exact Hc |].
  split; [exact Hg |].
  rewrite lookup_tcb_upd, Ht.
  case_decide; eexists; (split; [reflexivity |]); split; assumption.
Qed.

Lemma sleeping_delay i t0 d n d' m :
  0 <= i ->
  sleeping i t0 d n m -> current_task m <> i ->
  sleeping i t0 d n (task_delay d' m).
Proof.
  intros Hi (Hlen & Hc & Hg & t & Ht & Hbc & Hst) Hne.
  split; [apply task_delay_table_ok; exact Hlen |].
  split; [exact Hc |]. split; [exact Hg |].
  exists t. rewrite task_delay_lookup.
  case_decide; [unfold index_ok in Hc; lia |]. auto.
Qed.

Lemma sleeping_run i t0 d tr : forall n m,
  0 <= i -> is_u32 d -> 0 <= n ->
  sleeping i t0 d n m -> asleep i tr m ->
  sleeping i t0 d (n + Z.of_nat (ticks tr)) (run tr m).
Proof.
  induction tr as [| e tr IH]; intros n m Hi Hd Hn Hs Hq.
  - simpl. rewrite Z.add_0_r. exact Hs.
  - destruct Hq as [He Hq]. rewrite ticks_cons. cbn [run].
    destruct e as [| p | d']; cbn [is_tick exec_event] in *.
    + replace (n + Z.of_nat (1 + ticks tr))
        with (n + 1 + Z.of_nat (ticks tr)) by lia.
      apply IH; try assumption; [lia |].
      apply sleeping_tick; assumption.
    + apply IH; try assumption. apply sleeping_switch. exact Hs.
    + apply IH; try assumption.
      apply sleeping_delay; [exact Hi | exact Hs | apply He].
Qed.

Lemma sleeping_start m d :
  table_ok m -> index_ok m -> is_u32 (g_tick_count m) -> is_u32 d ->
  sleeping (current_task m) (g_tick_count m) d 0 (task_delay d m).
Proof.
  intros Hlen Hc Hg Hd.
  split; [apply task_delay_table_ok; exact Hlen |].
  split; [exact Hc |].
  split; [rewrite Z.add_0_r; symmetry; apply to_u32_small; exact Hg |].
  destruct (lookup_lt_is_Some_2 (user_tasks m) (Z.to_nat (current_task m)))
    as [t Ht].
  { unfold table_ok, index_ok, MAX_TASKS in *. lia. }
  eexists. rewrite task_delay_lookup, Ht.
  case_decide; [| congruence]. split; [reflexivity |].
  cbn [block_count current_state]. split; [reflexivity |].
  pose proof (wake_after_range d Hd).
  destruct (Z.ltb_spec 0 (wake_after d)); [reflexivity | lia].
Qed.

Lemma sleeping_state i t0 d n m :
  sleeping i t0 d n m ->
  state_of m i
  = if n <? wake_after d then TASK_BLOCKED_STATE else TASK_READY_STATE.
Proof.
  intros (_ & _ & _ & t & Ht & _ & Hst).
  rewrite (state_of_lookup m i t Ht). exact Hst.
Qed.

(** C5.  Let a task call [task_delay D] with [0 < D < 2^32] when the tick
    counter reads [T], and let ticks, context switches and [task_delay]
    calls of other tasks follow in any order.  As long as fewer than [D]
    ticks have fired the task is BLOCKED; the [D]-th firing, which brings
    the counter to [T + D] (modulo [2^32], and literally when [T + D] fits
    in 32 bits), makes it READY; and it stays READY afterwards. *)
Theorem delay_wakes_at_exact_tick (m : machine) (D : Z) (tr : list event) :
  table_ok m ->
  index_ok m ->
  is_u32 (g_tick_count m) ->
  0 < D < 2 ^ 32 ->
  asleep (current_task m) tr (task_delay D m) ->
  let i := current_task m in
  let T := g_tick_count m in
  let m' := run tr (task_delay D m) in
  g_tick_count m' = to_u32 (T + Z.of_nat (ticks tr)) /\
  (Z.of_nat (ticks tr) < D -> state_of m' i = TASK_BLOCKED_STATE) /\
  (Z.of_nat (ticks tr) = D - 1 ->
     state_of (SysTick_Handler m') i = TASK_READY_STATE /\
     g_tick_count (SysTick_Handler m') = to_u32 (T + D) /\
     (T + D < 2 ^ 32 -> g_tick_count (SysTick_Handler m') = T + D)) /\
  (D <= Z.of_nat (ticks tr) -> state_of m' i = TASK_READY_STATE).
Proof.
  intros Hlen Hc Hg HD Hq i T m'.
  assert (is_u32 D) as Hd by (unfold is_u32; lia).
  assert (wake_after D = D) as Hwake.
  { unfold wake_after. destruct (Z.eqb_spec D 0); [lia | reflexivity]. }
  pose proof (sleeping_start m D Hlen Hc Hg Hd) as Hs0.
  pose proof (sleeping_run i T D tr 0 (task_delay D m)
                ltac:(unfold index_ok in Hc; subst i; lia) Hd ltac:(lia)
                Hs0 Hq) as Hs.
  rewrite Z.add_0_l in Hs. fold m' in Hs.
  pose proof (sleeping_state _ _ _ _ _ Hs) as Hst. rewrite Hwake in Hst.
  split; [apply Hs |]. split; [| split].
  - intros Hlt. rewrite Hst.
    destruct (Z.ltb_spec (Z.of_nat (ticks tr)) D); [reflexivity | lia].
  - intros Hlast.
    pose proof (sleeping_tick i T D (Z.of_nat (ticks tr)) m' Hd
                  ltac:(lia) Hs) as Hs'.
    pose proof (sleeping_state _ _ _ _ _ Hs') as Hst'. rewrite Hwake in Hst'.
    destruct Hs' as (_ & _ & Hg' & _).
    replace (Z.of_nat (ticks tr) + 1) with D in * by lia.
    split; [| split].
    + rewrite Hst'. destruct (Z.ltb_spec D D); [lia | reflexivity].
    + exact Hg'.
    + intros Hfit. rewrite Hg'. apply to_u32_small.
      unfold is_u32 in *. subst T. lia.
  - intros Hge. rewrite Hst.
    destruct (Z.ltb_spec (Z.of_nat (ticks tr)) D); [lia | reflexivity].
Qed.

(** ** A woken task is selected within one revolution *)

Lemma ring_distance_range c i : 1 <= ring_distance c i <= MAX_TASKS.
Proof.
  unfold ring_distance, MAX_TASKS.
  pose proof (Z.mod_pos_bound (i - c - 1) 5). lia.
Qed.

(** Each selection either picks the eligible task [i] or moves the current
    index closer to it on the ring. *)
Lemma select_progress ts c i :
  0 <= c < MAX_TASKS -> 1 <= i < MAX_TASKS ->
  eligible ts i = true ->
  next_task ts c = i \/
  ring_distance (next_task ts c) i < ring_distance c i.
Proof.
  intros Hc Hi Hel.
  assert (i = 1 \/ i = 2 \/ i = 3 \/ i = 4) as His
    by (unfold MAX_TASKS in Hi; lia).
  unfold next_task, revolution.
  index_cases c;
    vm_compute (scan_order _);
    destruct His as [-> | [-> | [-> | ->]]];
    cbn [List.filter]; rewrite ?Hel;
    repeat match goal with
           | |- context [eligible ts ?x] => destruct (eligible ts x)
           end;
    first [left; reflexivity | right; reflexivity].
Qed.

Lemma selected_in_cons i e tr m :
  selected_in i tr (exec_event e m) -> selected_in i (e :: tr) m.
Proof.
  intros (pre & p & post & -> & Hcur & Hst).
  exists (e :: pre), p, post. auto.
Qed.

Lemma selected_within i t0 d tr : forall n m,
  1 <= i < MAX_TASKS -> is_u32 d -> wake_after d <= n ->
  sleeping i t0 d n m -> asleep i tr m ->
  ring_distance (current_task m) i <= Z.of_nat (switches tr) ->
  selected_in i tr m.
Proof.
  induction tr as [| e tr IH]; intros n m Hi Hd Hn Hs Hq Hdist.
  - pose proof (ring_distance_range (current_task m) i).
    unfold switches in Hdist. simpl in Hdist. lia.
  - pose proof (wake_after_range d Hd) as Hk.
    destruct Hq as [He Hq]. rewrite switches_cons in Hdist.
    destruct e as [| p | d']; cbn [is_switch exec_event] in *.
    + apply selected_in_cons. cbn [exec_event].
      apply (IH (n + 1)); try assumption; [lia | |].
      * apply sleeping_tick; [exact Hd | lia | exact Hs].
      * rewrite SysTick_Handler_spec by apply Hs. exact Hdist.
    + pose proof (sleeping_switch i t0 d n p m Hs) as Hs'.
      pose proof (sleeping_state _ _ _ _ _ Hs') as Hst.
      destruct (Z.ltb_spec n (wake_after d)) as [? | _]; [lia |].
      destruct Hs as (Hlen & Hc & _).
      assert (context_switch p m
              = with_current_task
                  (next_task (user_tasks (save_psp_value p m)) (current_task m))
                  (save_psp_value p m)) as Hsw
        by (unfold context_switch; rewrite update_current_task_spec by exact Hc;
            reflexivity).
      assert (eligible (user_tasks (save_psp_value p m)) i = true) as Hel.
      { apply eligible_iff. split; [| lia]. rewrite Hsw in Hst. exact Hst. }
      destruct (select_progress (user_tasks (save_psp_value p m))
                  (current_task m) i Hc Hi Hel) as [Hsel | Hcloser].
      * exists [], p, tr. cbn [app run exec_event].
        split; [reflexivity |]. split; [| exact Hst].
        rewrite Hsw. exact Hsel.
      * apply selected_in_cons. cbn [exec_event].
        apply (IH n); try assumption.
        rewrite Hsw at 1. cbn [current_task with_current_task]. lia.
    + apply selected_in_cons. cbn [exec_event].
      apply (IH n); try assumption.
      apply sleeping_delay; [lia | exact Hs | apply He].
Qed.

(** ** A sleeping task is passed over *)

Lemma run_snoc pre e : forall m,
  run (pre ++ [e]) m = exec_event e (run pre m).
Proof.
  induction pre as [| e' pre IH]; intros m; [reflexivity |].
  cbn [app run]. apply IH.
Qed.

(** The selection never returns the index of a BLOCKED user task. *)
Lemma blocked_not_next ts c i :
  i <> 0 -> current_state (tcb_at ts i) = TASK_BLOCKED_STATE ->
  next_task ts c <> i.
Proof.
  intros Hi Hb. unfold next_task.
  destruct (revolution ts c) as [| e rest] eqn:Hrev.
  - destruct (Z.eqb_spec (current_state (tcb_at ts c)) TASK_BLOCKED_STATE)
      as [_ | Hnb]; [congruence |].
    intros ->. exact (Hnb Hb).
  - assert (In e (revolution ts c)) as Hin
      by (rewrite Hrev; left; reflexivity).
    unfold revolution in Hin. apply filter_In in Hin as [_ Hel].
    apply eligible_iff in Hel as [Hready _].
    intros ->. rewrite Hb in Hready. discriminate.
Qed.

(** While task [i] sleeps, every context switch makes another index
    current. *)
Lemma sleeper_not_selected i t0 d pre p n m :
  i <> 0 -> 0 <= i -> is_u32 d -> 0 <= n ->
  sleeping i t0 d n m -> asleep i pre m ->
  n + Z.of_nat (ticks pre) < wake_after d ->
  current_task (run (pre ++ [E_switch p]) m) <> i /\
  0 <= current_task (run (pre ++ [E_switch p]) m) < MAX_TASKS.
Proof.
  intros Hnz Hi Hd Hn Hs Hq Hlt.
  rewrite run_snoc. cbn [exec_event].
  pose proof (sleeping_run i t0 d pre n m Hi Hd Hn Hs Hq) as Hs1.
  set (m1 := run pre m) in *.
  pose proof (sleeping_switch i t0 d _ p m1 Hs1) as Hs2.
  pose proof (sleeping_state _ _ _ _ _ Hs2) as Hst.
  destruct (Z.ltb_spec (n + Z.of_nat (ticks pre)) (wake_after d))
    as [_ | ?]; [| lia].
  destruct Hs1 as (_ & Hc & _).
  assert (context_switch p m1
          = with_current_task
              (next_task (user_tasks (save_psp_value p m1)) (current_task m1))
              (save_psp_value p m1)) as Hsw
    by (unfold context_switch; rewrite update_current_task_spec by exact Hc;
        reflexivity).
  rewrite Hsw in Hst |- *. cbn [current_task with_current_task].
  split.
  - apply blocked_not_next; [exact Hnz | exact Hst].
  - apply next_task_range. exact Hc.
Qed.

(** C2, as the code has it.  [task_delay 0] is not a yield.  It records the
    present tick as the wake tick, and the unblock scan compares after the
    increment: whatever ticks, context switches and calls of the other tasks
    follow, the caller stays BLOCKED and every context switch makes another
    index current until [2^32] ticks have fired.  The scheduler itself goes
    on: each switch returns a valid index.  Only from the [2^32]-th firing
    on, when the counter has come round to the wake tick, is the caller
    READY, and it is then selected by one of the next five context
    switches. *)
Theorem delay_zero_blocks_until_wrap (m : machine) (tr : list event) :
  table_ok m ->
  index_ok m ->
  is_u32 (g_tick_count m) ->
  current_task m <> 0 ->
  asleep (current_task m) tr (task_delay 0 m) ->
  let i := current_task m in
  let m1 := task_delay 0 m in
  block_count (tcb_at (user_tasks m1) i) = g_tick_count m /\
  (forall pre post,
     tr = pre ++ post -> Z.of_nat (ticks pre) < 2 ^ 32 ->
     state_of (run pre m1) i = TASK_BLOCKED_STATE) /\
  (forall pre p post,
     tr = pre ++ E_switch p :: post -> Z.of_nat (ticks pre) < 2 ^ 32 ->
     current_task (run (pre ++ [E_switch p]) m1) <> i /\
     0 <= current_task (run (pre ++ [E_switch p]) m1) < MAX_TASKS) /\
  (forall pre post,
     tr = pre ++ post -> 2 ^ 32 <= Z.of_nat (ticks pre) ->
     state_of (run pre m1) i = TASK_READY_STATE /\
     ((5 <= switches post)%nat -> selected_in i post (run pre m1))).
Proof.
  intros Hlen Hc Hg Hnz Hq i m1.
  assert (is_u32 0) as Hd by (unfold is_u32; lia).
  assert (1 <= i < MAX_TASKS) as Hi by (unfold index_ok in Hc; subst i; lia).
  pose proof (sleeping_start m 0 Hlen Hc Hg Hd) as Hs0. fold i m1 in Hs0.
  assert (forall pre, asleep i pre m1 ->
            sleeping i (g_tick_count m) 0 (Z.of_nat (ticks pre)) (run pre m1))
    as Hrun.
  { intros pre Hpre.
    apply (sleeping_run i _ 0 pre 0 m1); try assumption; lia. }
  split; [| split; [| split]].
  - destruct Hs0 as (_ & _ & _ & t & Ht & Hbc & _).
    rewrite (tcb_at_lookup _ i t Ht), Hbc, Z.add_0_r.
    apply to_u32_small. exact Hg.
  - intros pre post Heq Hlt. rewrite Heq in Hq.
    apply asleep_app in Hq as [Hpre _].
    rewrite (sleeping_state _ _ _ _ _ (Hrun pre Hpre)).
    change (wake_after 0) with (2 ^ 32).
    destruct (Z.ltb_spec (Z.of_nat (ticks pre)) (2 ^ 32)); [reflexivity | lia].
  - intros pre p post Heq Hlt. rewrite Heq in Hq.
    apply asleep_app in Hq as [Hpre _].
    apply (sleeper_not_selected i (g_tick_count m) 0 pre p 0 m1);
      try assumption; try lia;
      change (wake_after 0) with (2 ^ 32); lia.
  - intros pre post Heq Hge. rewrite Heq in Hq.
    apply asleep_app in Hq as [Hpre Hpost].
    split.
    + rewrite (sleeping_state _ _ _ _ _ (Hrun pre Hpre)).
      change (wake_after 0) with (2 ^ 32).
      destruct (Z.ltb_spec (Z.of_nat (ticks pre)) (2 ^ 32));
        [lia | reflexivity].
    + intros Hsw.
      refine (selected_within i (g_tick_count m) 0 post (Z.of_nat (ticks pre))
                _ Hi Hd _ (Hrun pre Hpre) Hpost _).
      * change (wake_after 0) with (2 ^ 32). exact Hge.
      * pose proof (ring_distance_range (current_task (run pre m1)) i) as Hr.
        unfold MAX_TASKS in Hr. lia.
Qed.

(** * The theorems at sample configurations *)

Lemma sample_fn_addr_u32 f : is_u32 (sample_fn_addr f).
Proof. destruct f; unfold is_u32; simpl; lia. Qed.

Lemma all_blocked_machine_blocked j :
  1 <= j < MAX_TASKS -> state_of all_blocked_machine j = TASK_BLOCKED_STATE.
Proof.
  unfold MAX_TASKS. intros Hj.
  assert (j = 1 \/ j = 2 \/ j = 3 \/ j = 4) as [-> | [-> | [-> | ->]]] by lia;
    reflexivity.
Qed.

Lemma mixed_machine_no_wakeup : no_wakeup mixed_machine 4.
Proof.
  intros j t k Ht Hst Hk.
  destruct j as [| [| [| [| [| j]]]]]; simpl in Ht; try discriminate;
    injection Ht as <-; simpl in *;
    try (exfalso; apply Hst; reflexivity);
    unfold to_u32; rewrite Z.mod_small by lia; lia.
Qed.

Lemma asleep_without_delay i tr : forall m,
  Forall (fun e => match e with E_delay _ => False | _ => True end) tr ->
  asleep i tr m.
Proof.
  induction tr as [| e tr IH]; intros m Hall; simpl; [exact I |].
  apply Forall_cons in Hall as [He Hall].
  split; [destruct e; [exact I | exact I | destruct He] | apply IH, Hall].
Qed.

Lemma ticks_replicate_tick n : ticks (replicate n E_tick) = n.
Proof.
  unfold ticks. induction n as [| n IH]; simpl; [reflexivity |].
  f_equal. exact IH.
Qed.

Lemma led_on_off_frame_witness :
  (0 <= LED_GREEN < 32 /\ is_u32 0) /\
  Z.testbit (Led.led_on LED_GREEN 0) LED_GREEN = true /\
  Z.testbit (Led.led_off LED_GREEN 0) LED_GREEN = false /\
  (forall k, k <> LED_GREEN ->
     Z.testbit (Led.led_on LED_GREEN 0) k = Z.testbit 0 k) /\
  (forall k, k <> LED_GREEN ->
     Z.testbit (Led.led_off LED_GREEN 0) k = Z.testbit 0 k) /\
  Led.led_off LED_GREEN (Led.led_on LED_GREEN 0) = Led.led_off LED_GREEN 0 /\
  (Z.testbit 0 LED_GREEN = false ->
     Led.led_off LED_GREEN (Led.led_on LED_GREEN 0) = 0).
Proof.
  assert (0 <= LED_GREEN < 32) as Hn by (unfold LED_GREEN; lia).
  assert (is_u32 0) as Hodr by (unfold is_u32; lia).
  split; [split; assumption |].
  exact (led_on_off_frame LED_GREEN 0 Hn Hodr).
Defined.

Lemma unblock_exact_equality_witness :
  let m := all_blocked_machine in
  let t := mkTCB (T4_STACK_START - 64) 125 TASK_BLOCKED_STATE
             (Some task4_handler) in
  (table_ok m /\ user_tasks m !! 4%nat = Some t) /\
  exists t',
    user_tasks (SysTick_Handler m) !! 4%nat = Some t' /\
    user_tasks (unblock_tasks (update_global_tick_count m)) !! 4%nat = Some t' /\
    g_tick_count (SysTick_Handler m) = to_u32 (g_tick_count m + 1) /\
    (current_state t = TASK_BLOCKED_STATE ->
       (current_state t' = TASK_READY_STATE
        <-> block_count t = g_tick_count (SysTick_Handler m))) /\
    (current_state t = TASK_BLOCKED_STATE ->
       block_count t <> g_tick_count (SysTick_Handler m) -> t' = t) /\
    (current_state t = TASK_READY_STATE -> t' = t) /\
    psp_value t' = psp_value t /\
    block_count t' = block_count t /\
    task_handler t' = task_handler t.
Proof.
  intros m t.
  assert (table_ok m) as Hlen by reflexivity.
  assert (user_tasks m !! 4%nat = Some t) as Ht by reflexivity.
  split; [split; assumption |].
  exact (unblock_exact_equality m 4 t Hlen Ht).
Defined.

Lemma tick_counts_every_firing_once_witness :
  let m := started_machine in
  let N := 3%nat in
  (table_ok m /\ is_u32 (g_tick_count m)) /\
  g_tick_count (Nat.iter N SysTick_Handler m)
    = to_u32 (g_tick_count m + Z.of_nat N) /\
  (g_tick_count m + Z.of_nat N < 2 ^ 32 ->
     g_tick_count (Nat.iter N SysTick_Handler m)
       = g_tick_count m + Z.of_nat N) /\
  g_tick_count (update_global_tick_count m) = to_u32 (g_tick_count m + 1) /\
  user_tasks (update_global_tick_count m) = user_tasks m /\
  unblock_tasks (update_global_tick_count m)
    = with_user_tasks
        (unblock_tcb (to_u32 (g_tick_count m + 1)) <$> user_tasks m)
        (update_global_tick_count m) /\
  SysTick_Handler m = schedule (unblock_tasks (update_global_tick_count m)) /\
  ICSR (unblock_tasks (update_global_tick_count m)) = ICSR m /\
  Z.testbit (ICSR (SysTick_Handler m)) PENDSVSET_BIT = true /\
  g_tick_count (SysTick_Handler m) = to_u32 (g_tick_count m + 1) /\
  current_task (SysTick_Handler m) = current_task m.
Proof.
  intros m N.
  assert (table_ok m) as Hlen by reflexivity.
  assert (is_u32 (g_tick_count m)) as Hg by (unfold is_u32; simpl; lia).
  split; [split; assumption |].
  exact (tick_counts_every_firing_once m N Hlen Hg).
Defined.

Lemma task_delay_effect_witness :
  let m := with_g_tick_count 7 started_machine in
  let d := LED_GREEN_FREQ in
  (table_ok m /\ index_ok m) /\
  let c := current_task m in
  let m' := task_delay d m in
  block_count (tcb_at (user_tasks m') c) = to_u32 (g_tick_count m + d) /\
  (is_u32 (g_tick_count m + d) ->
     block_count (tcb_at (user_tasks m') c) = g_tick_count m + d) /\
  current_state (tcb_at (user_tasks m') c) = TASK_BLOCKED_STATE /\
  Z.testbit (ICSR m') PENDSVSET_BIT = true /\
  psp_value (tcb_at (user_tasks m') c) = psp_value (tcb_at (user_tasks m) c) /\
  task_handler (tcb_at (user_tasks m') c)
    = task_handler (tcb_at (user_tasks m) c) /\
  (forall j : nat, j <> Z.to_nat c -> user_tasks m' !! j = user_tasks m !! j) /\
  length (user_tasks m') = length (user_tasks m) /\
  g_tick_count m' = g_tick_count m /\
  current_task m' = current_task m /\
  GPIOD_ODR m' = GPIOD_ODR m /\
  sram m' = sram m.
Proof.
  intros m d.
  assert (table_ok m) as Hlen by reflexivity.
  assert (index_ok m) as Hc by (unfold index_ok, MAX_TASKS; simpl; lia).
  split; [split; assumption |].
  exact (task_delay_effect m d Hlen Hc).
Defined.

Lemma idle_selected_when_all_blocked_witness :
  let m := with_current_task 3 all_blocked_machine in
  (table_ok m /\
   forall j, 1 <= j < MAX_TASKS -> state_of m j = TASK_BLOCKED_STATE) /\
  current_task (update_current_task m) = 0 /\
  update_current_task m = with_current_task 0 m.
Proof.
  intros m.
  assert (table_ok m) as Hlen by reflexivity.
  assert (forall j, 1 <= j < MAX_TASKS -> state_of m j = TASK_BLOCKED_STATE)
    as Hblocked by exact all_blocked_machine_blocked.
  split; [split; assumption |].
  exact (idle_selected_when_all_blocked m Hlen Hblocked).
Defined.

Lemma round_robin_selection_witness :
  let m := mixed_machine in
  let n := 4%nat in
  (table_ok m /\ index_ok m /\ is_u32 (g_tick_count m) /\ no_wakeup m n) /\
  let ts := user_tasks m in
  let c := current_task m in
  scan_order c
    = [(c + 1) mod MAX_TASKS; (c + 2) mod MAX_TASKS; (c + 3) mod MAX_TASKS;
       (c + 4) mod MAX_TASKS; (c + 5) mod MAX_TASKS] /\
  (forall pre j post,
     scan_order c = pre ++ j :: post ->
     (forall i, In i pre -> ~ (state_of m i = TASK_READY_STATE /\ i <> 0)) ->
     state_of m j = TASK_READY_STATE -> j <> 0 ->
     update_current_task m = with_current_task j m) /\
  NoDup (revolution ts c) /\
  (forall j, In j (revolution ts c)
             <-> 1 <= j < MAX_TASKS /\ state_of m j = TASK_READY_STATE) /\
  (forall k : nat, (k < n)%nat -> revolution ts c <> [] ->
     current_task (Nat.iter (S k) tick_then_select m)
       = revolution ts c !!! (k mod length (revolution ts c))%nat).
Proof.
  intros m n.
  assert (table_ok m) as Hlen by reflexivity.
  assert (index_ok m) as Hc by (unfold index_ok, MAX_TASKS; simpl; lia).
  assert (is_u32 (g_tick_count m)) as Hg by (unfold is_u32; simpl; lia).
  assert (no_wakeup m n) as Hquiet by exact mixed_machine_no_wakeup.
  split; [exact (conj Hlen (conj Hc (conj Hg Hquiet))) |].
  exact (round_robin_selection m n Hlen Hc Hg Hquiet).
Defined.

Lemma initial_frame_layout_witness :
  let p := T1_STACK_START in
  let h := task1_handler in
  (table_ok boot_machine /\ (forall f, is_u32 (sample_fn_addr f)) /\
   PSP_INIT_ADDRS !! 1%nat = Some p /\ entry_point 1 = Some h) /\
  let m' := init_tasks_stack sample_fn_addr boot_machine in
  sram m' !! (p - 4) = Some 0x01000000 /\
  Z.testbit 0x01000000 24 = true /\
  sram m' !! (p - 8) = Some (sample_fn_addr h) /\
  sram m' !! (p - 12) = Some 0xFFFFFFFD /\
  (forall k, 4 <= k <= 8 -> sram m' !! (p - 4 * k) = Some 0) /\
  (forall k, 9 <= k <= 16 -> sram m' !! (p - 4 * k) = Some 0) /\
  exists t',
    user_tasks m' !! 1%nat = Some t' /\
    psp_value t' = p - 4 * 16 /\
    current_state t' = TASK_READY_STATE /\
    task_handler t' = Some h.
Proof.
  intros p h.
  assert (table_ok boot_machine) as Hlen by reflexivity.
  assert (PSP_INIT_ADDRS !! 1%nat = Some p) as Hp by reflexivity.
  assert (entry_point 1 = Some h) as Hh by reflexivity.
  split; [exact (conj Hlen (conj sample_fn_addr_u32 (conj Hp Hh))) |].
  exact (initial_frame_layout sample_fn_addr sample_fn_addr_u32 boot_machine
           1 p h Hlen Hp Hh).
Defined.

Lemma idle_always_ready_witness :
  let m := SysTick_Handler (init_tasks_stack sample_fn_addr boot_machine) in
  reachable sample_fn_addr m /\
  state_of m 0 = TASK_READY_STATE /\
  (forall m', step m m' ->
     state_of m' 0 = TASK_READY_STATE /\
     state_of m' 0 <> TASK_BLOCKED_STATE).
Proof.
  intros m.
  assert (boot_globals boot_machine) as Hboot by (repeat split; reflexivity).
  assert (reachable sample_fn_addr m) as Hreach.
  { apply reach_step with (init_tasks_stack sample_fn_addr boot_machine).
    - apply reach_init. exact Hboot.
    - apply step_tick. }
  split; [exact Hreach |].
  exact (idle_always_ready sample_fn_addr m Hreach).
Defined.

Lemma delay_wakes_at_exact_tick_witness :
  let m := with_g_tick_count 7 started_machine in
  let D := 2 in
  let tr := [E_switch (T1_STACK_START - 96); E_tick] in
  (table_ok m /\ index_ok m /\ is_u32 (g_tick_count m) /\ 0 < D < 2 ^ 32 /\
   asleep (current_task m) tr (task_delay D m)) /\
  let i := current_task m in
  let T := g_tick_count m in
  let m' := run tr (task_delay D m) in
  g_tick_count m' = to_u32 (T + Z.of_nat (ticks tr)) /\
  (Z.of_nat (ticks tr) < D -> state_of m' i = TASK_BLOCKED_STATE) /\
  (Z.of_nat (ticks tr) = D - 1 ->
     state_of (SysTick_Handler m') i = TASK_READY_STATE /\
     g_tick_count (SysTick_Handler m') = to_u32 (T + D) /\
     (T + D < 2 ^ 32 -> g_tick_count (SysTick_Handler m') = T + D)) /\
  (D <= Z.of_nat (ticks tr) -> state_of m' i = TASK_READY_STATE).
Proof.
  intros m D tr.
  assert (table_ok m) as Hlen by reflexivity.
  assert (index_ok m) as Hc by (unfold index_ok, MAX_TASKS; simpl; lia).
  assert (is_u32 (g_tick_count m)) as Hg by (unfold is_u32; simpl; lia).
  assert (0 < D < 2 ^ 32) as HD by (subst D; lia).
  assert (asleep (current_task m) tr (task_delay D m)) as Hq
    by (simpl; tauto).
  split; [exact (conj Hlen (conj Hc (conj Hg (conj HD Hq)))) |].
  exact (delay_wakes_at_exact_tick m D tr Hlen Hc Hg HD Hq).
Defined.

Lemma delay_zero_blocks_until_wrap_witness :
  let m := started_machine in
  let tr := replicate (Z.to_nat (2 ^ 32)) E_tick ++ replicate 5 (E_switch 0) in
  (table_ok m /\ index_ok m /\ is_u32 (g_tick_count m) /\
   current_task m <> 0 /\
   asleep (current_task m) tr (task_delay 0 m)) /\
  let i := current_task m in
  let m1 := task_delay 0 m in
  block_count (tcb_at (user_tasks m1) i) = g_tick_count m /\
  (forall pre post,
     tr = pre ++ post -> Z.of_nat (ticks pre) < 2 ^ 32 ->
     state_of (run pre m1) i = TASK_BLOCKED_STATE) /\
  (forall pre p post,
     tr = pre ++ E_switch p :: post -> Z.of_nat (ticks pre) < 2 ^ 32 ->
     current_task (run (pre ++ [E_switch p]) m1) <> i /\
     0 <= current_task (run (pre ++ [E_switch p]) m1) < MAX_TASKS) /\
  (forall pre post,
     tr = pre ++ post -> 2 ^ 32 <= Z.of_nat (ticks pre) ->
     state_of (run pre m1) i = TASK_READY_STATE /\
     ((5 <= switches post)%nat -> selected_in i post (run pre m1))).
Proof.
  intros m tr.
  assert (table_ok m) as Hlen by reflexivity.
  assert (index_ok m) as Hc by (unfold index_ok, MAX_TASKS; simpl; lia).
  assert (is_u32 (g_tick_count m)) as Hg by (unfold is_u32; simpl; lia).
  assert (current_task m <> 0) as Hnz by (simpl; lia).
  assert (asleep (current_task m) tr (task_delay 0 m)) as Hq.
  { apply asleep_without_delay, Forall_app. split.
    - apply Forall_replicate. exact I.
    - apply Forall_replicate. exact I. }
  split; [exact (conj Hlen (conj Hc (conj Hg (conj Hnz Hq)))) |].
  exact (delay_zero_blocks_until_wrap m tr Hlen Hc Hg Hnz Hq).
Defined.

(** C2 as worded fails: after [task_delay 0] at tick 0 by task 1, with all
    tasks READY, no run of fewer than [2^32] ticks has task 1 READY or
    selected again, whereas after [task_delay 1] the same task is selected
    again by the fourth switch after the next tick. *)
Lemma delay_zero_not_a_yield :
  (forall tr,
     asleep 1 tr (task_delay 0 started_machine) ->
     Z.of_nat (ticks tr) < 2 ^ 32 ->
     state_of (run tr (task_delay 0 started_machine)) 1 = TASK_BLOCKED_STATE /\
     ~ selected_in 1 tr (task_delay 0 started_machine)) /\
  selected_in 1
    [E_switch (T1_STACK_START - 96); E_tick; E_switch (T2_STACK_START - 96);
     E_switch (T3_STACK_START - 96); E_switch (T4_STACK_START - 96)]
    (task_delay 1 started_machine).
Proof.
  assert (table_ok started_machine) as Hlen by reflexivity.
  assert (index_ok started_machine) as Hc
    by (unfold index_ok, MAX_TASKS; simpl; lia).
  assert (is_u32 (g_tick_count started_machine)) as Hg
    by (unfold is_u32; simpl; lia).
  assert (is_u32 0) as Hd by (unfold is_u32; lia).
  pose proof (sleeping_start started_machine 0 Hlen Hc Hg Hd) as Hs0.
  change (current_task started_machine) with 1 in Hs0.
  split.
  - intros tr Hq Hlt. split.
    + pose proof (sleeping_run 1 _ 0 tr 0 _ ltac:(lia) Hd ltac:(lia) Hs0 Hq)
        as Hs.
      rewrite (sleeping_state _ _ _ _ _ Hs).
      change (wake_after 0) with (2 ^ 32).
      destruct (Z.ltb_spec (0 + Z.of_nat (ticks tr)) (2 ^ 32));
        [reflexivity | lia].
    + intros (pre & p & post & -> & Hcur & _).
      apply asleep_app in Hq as [Hpre _].
      assert (Z.of_nat (ticks pre) <= Z.of_nat (ticks (pre ++ E_switch p :: post)))
        as Hle.
      { unfold ticks. rewrite List.filter_app, length_app. lia. }
      destruct (sleeper_not_selected 1 _ 0 pre p 0 _ ltac:(lia) ltac:(lia) Hd
                  ltac:(lia) Hs0 Hpre) as [Hne _].
      { change (wake_after 0) with (2 ^ 32). lia. }
      exact (Hne Hcur).
  - exists [E_switch (T1_STACK_START - 96); E_tick;
            E_switch (T2_STACK_START - 96); E_switch (T3_STACK_START - 96)],
      (T4_STACK_START - 96), [].
    split; [reflexivity |]. split; vm_compute; reflexivity.
Qed.

(** * Further properties of the scheduler *)

(** ** What the selection can return *)

Lemma revolution_head_eligible ts c e rest :
  revolution ts c = e :: rest -> eligible ts e = true.
Proof.
  intros Hrev.
  assert (In e (revolution ts c)) as Hin by (rewrite Hrev; left; reflexivity).
  unfold revolution in Hin. apply filter_In in Hin. tauto.
Qed.

Lemma revolution_nil_not_ready ts c j :
  0 <= c < MAX_TASKS -> revolution ts c = [] ->
  1 <= j < MAX_TASKS -> current_state (tcb_at ts j) <> TASK_READY_STATE.
Proof.
  intros Hc Hrev Hj Hready.
  assert (In j (revolution ts c)) as Hin; [| rewrite Hrev in Hin; destruct Hin].
  unfold revolution. apply filter_In. split.
  - apply scan_order_range; [exact Hc | lia].
  - apply eligible_iff. split; [exact Hready | lia].
Qed.

Lemma states_ok_state_of m j :
  table_ok m -> states_ok m -> 0 <= j < MAX_TASKS ->
  state_of m j = TASK_READY_STATE \/ state_of m j = TASK_BLOCKED_STATE.
Proof.
  intros Hlen Hst Hj.
  destruct (lookup_lt_is_Some_2 (user_tasks m) (Z.to_nat j)) as [t Ht];
    [unfold table_ok, MAX_TASKS in *; lia |].
  rewrite (state_of_lookup m j t Ht). exact (Hst _ t Ht).
Qed.

Lemma selection_cases (m : machine) :
  table_ok m -> index_ok m -> states_ok m ->
  let r := current_task (update_current_task m) in
  0 <= r < MAX_TASKS /\
  (r <> 0 -> state_of m r = TASK_READY_STATE) /\
  (r = 0 <->
   forall j, 1 <= j < MAX_TASKS -> state_of m j = TASK_BLOCKED_STATE).
Proof.
  intros Hlen Hc Hst r. subst r.
  rewrite update_current_task_spec by exact Hc.
  cbn [current_task with_current_task].
  split; [apply next_task_range; exact Hc |].
  unfold next_task.
  destruct (revolution (user_tasks m) (current_task m)) as [| e rest] eqn:Hrev.
  - assert (forall j, 1 <= j < MAX_TASKS ->
              state_of m j = TASK_BLOCKED_STATE) as Hall.
    { intros j Hj.
      destruct (states_ok_state_of m j Hlen Hst ltac:(lia)) as [Hr | Hb];
        [| exact Hb].
      destruct (revolution_nil_not_ready _ _ j Hc Hrev Hj Hr). }
    destruct (Z.eq_dec (current_task m) 0) as [Hz | Hnz].
    + rewrite Hz. destruct (_ =? TASK_BLOCKED_STATE); tauto.
    + fold (state_of m (current_task m)).
      rewrite Hall by (unfold index_ok in Hc; lia).
      rewrite Z.eqb_refl. tauto.
  - pose proof (revolution_head_eligible _ _ _ _ Hrev) as Hel.
    apply eligible_iff in Hel as [Hready Hnz].
    pose proof (revolution_head_range _ _ _ _ Hc Hrev) as Hrange.
    split; [intros _; exact Hready |].
    split; [tauto |].
    intros Hall. exfalso. unfold state_of in Hall.
    rewrite Hall in Hready by lia. discriminate.
Qed.

(** X1.  On a table whose states are READY or BLOCKED,
    [update_current_task] returns a valid index; a user task it selects is
    READY, and it falls back on the idle task exactly when every user task
    is BLOCKED. *)
Theorem selection_sound (m : machine) :
  table_ok m -> index_ok m -> states_ok m ->
  let r := current_task (update_current_task m) in
  0 <= r < MAX_TASKS /\
  (r <> 0 -> state_of m r = TASK_READY_STATE) /\
  (r = 0 <->
   forall j, 1 <= j < MAX_TASKS -> state_of m j = TASK_BLOCKED_STATE).
Proof. exact (selection_cases m). Qed.

(** ** What every reachable machine satisfies *)

Lemma states_ok_init fn_addr m0 :
  boot_globals m0 -> states_ok (init_tasks_stack fn_addr m0).
Proof.
  intros Hboot j t Hj.
  pose proof (sched_inv_init fn_addr m0 Hboot) as (Hlen' & _).
  destruct Hboot as (Hts & _).
  assert (table_ok m0) as Hlen
    by (unfold table_ok; rewrite Hts; apply length_replicate).
  assert (j < 5)%nat as Hlt.
  { apply lookup_lt_Some in Hj. unfold table_ok, MAX_TASKS in Hlen'. lia. }
  destruct (table_ok_lookup m0 j Hlen Hlt) as [tj Htj].
  destruct (stack_top_exists j Hlt) as [pj Hpj].
  destruct (init_tasks_stack_spec fn_addr m0 j tj pj Hlen Htj Hpj) as (Htcb & _).
  rewrite Htcb in Hj. injection Hj as <-. left. reflexivity.
Qed.

Lemma states_ok_tick m : table_ok m -> states_ok m -> states_ok (SysTick_Handler m).
Proof.
  intros Hlen Hst j t. rewrite SysTick_Handler_spec by exact Hlen.
  cbn [user_tasks]. rewrite list_lookup_fmap.
  destruct (user_tasks m !! j) as [t0 |] eqn:Ht0; [| discriminate].
  intros [= <-]. unfold unblock_tcb.
  destruct (_ && _); [left; reflexivity | exact (Hst j t0 Ht0)].
Qed.

Lemma states_ok_switch p m : index_ok m -> states_ok m -> states_ok (context_switch p m).
Proof.
  intros Hc Hst j t. unfold context_switch.
  rewrite update_current_task_spec by exact Hc.
  cbn [user_tasks with_current_task save_psp_value with_user_tasks].
  rewrite lookup_tcb_upd.
  destruct (user_tasks m !! j) as [t0 |] eqn:Ht0;
    [| case_decide; discriminate].
  case_decide; intros [= <-]; exact (Hst j t0 Ht0).
Qed.

Lemma states_ok_delay d m : states_ok m -> states_ok (task_delay d m).
Proof.
  intros Hst j t. rewrite task_delay_lookup.
  destruct (user_tasks m !! j) as [t0 |] eqn:Ht0;
    [| case_decide; discriminate].
  case_decide; intros [= <-]; [right; reflexivity | exact (Hst j t0 Ht0)].
Qed.

Lemma tick_range_init fn_addr m0 :
  boot_globals m0 -> is_u32 (g_tick_count (init_tasks_stack fn_addr m0)).
Proof.
  intros (Hts & Hg & _).
  assert (table_ok m0) as Hlen
    by (unfold table_ok; rewrite Hts; apply length_replicate).
  destruct (table_ok_lookup m0 0 Hlen ltac:(lia)) as [t0 Ht0].
  destruct (stack_top_exists 0 ltac:(lia)) as [p0 Hp0].
  destruct (init_tasks_stack_spec fn_addr m0 0 t0 p0 Hlen Ht0 Hp0)
    as (_ & _ & _ & Hg' & _).
  rewrite Hg', Hg. unfold is_u32. lia.
Qed.

Lemma tick_range_step m m' :
  table_ok m -> index_ok m -> is_u32 (g_tick_count m) -> step m m' ->
  is_u32 (g_tick_count m').
Proof.
  intros Hlen Hc Hg Hstep. destruct Hstep as [m | m p | m h c _ _].
  - rewrite SysTick_Handler_spec by exact Hlen. cbn [g_tick_count].
    unfold is_u32, to_u32. apply Z.mod_pos_bound. lia.
  - unfold context_switch. rewrite update_current_task_spec by exact Hc.
    exact Hg.
  - destruct c; exact Hg.
Qed.

Lemma states_ok_step m m' :
  table_ok m -> index_ok m -> states_ok m -> step m m' -> states_ok m'.
Proof.
  intros Hlen Hc Hst Hstep. destruct Hstep as [m | m p | m h c _ _].
  - apply states_ok_tick; assumption.
  - apply states_ok_switch; assumption.
  - destruct c; cbn [exec_call]; try exact Hst.
    apply states_ok_delay. exact Hst.
Qed.

Lemma reachable_states_ok fn_addr m :
  reachable fn_addr m -> states_ok m /\ is_u32 (g_tick_count m).
Proof.
  induction 1 as [m0 Hboot | m m' Hreach [IHst IHg] Hstep].
  - split; [apply states_ok_init | apply tick_range_init]; exact Hboot.
  - destruct (reachable_sched_inv fn_addr m Hreach) as (Hlen & Hc & _).
    split; [exact (states_ok_step m m' Hlen Hc IHst Hstep) |].
    exact (tick_range_step m m' Hlen Hc IHg Hstep).
Qed.

(** X2.  In every reachable machine the table has its five entries, the
    current-task index is one of them (no access to [user_tasks] is out of
    bounds), every state is READY or BLOCKED, the tick counter is a 32-bit
    value and every TCB still points at the entry function that
    [init_tasks_stack] installed. *)
Theorem reachable_well_formed (fn_addr : handler -> Z) (m : machine) :
  reachable fn_addr m ->
  length (user_tasks m) = 5%nat /\
  0 <= current_task m < 5 /\
  states_ok m /\
  is_u32 (g_tick_count m) /\
  (forall (i : nat) t,
     user_tasks m !! i = Some t -> task_handler t = entry_point i).
Proof.
  intros Hreach.
  destruct (reachable_sched_inv fn_addr m Hreach) as (Hlen & Hc & Hh & _).
  destruct (reachable_states_ok fn_addr m Hreach) as [Hst Hg].
  split; [exact Hlen |]. split; [exact Hc |]. split; [exact Hst |].
  split; [exact Hg | exact Hh].
Qed.

(** X3.  The task a context switch dispatches from a reachable machine is
    READY: a BLOCKED task is never given the processor. *)
Theorem dispatched_task_is_ready (fn_addr : handler -> Z) (m : machine)
    (p : Z) :
  reachable fn_addr m ->
  let m' := context_switch p m in
  0 <= current_task m' < MAX_TASKS /\
  state_of m' (current_task m') = TASK_READY_STATE.
Proof.
  intros Hreach m'.
  assert (reachable fn_addr m') as Hreach'
    by (apply reach_step with m; [exact Hreach | apply step_switch]).
  destruct (reachable_sched_inv fn_addr m' Hreach') as (Hlen' & Hc' & _ & Hidle).
  split; [exact Hc' |].
  destruct (reachable_sched_inv fn_addr m Hreach) as (Hlen & Hc & _).
  destruct (reachable_states_ok fn_addr m Hreach) as [Hst _].
  set (ms := save_psp_value p m).
  assert (table_ok ms) as Hlens
    by (unfold table_ok, ms; cbn [user_tasks save_psp_value with_user_tasks];
        rewrite length_tcb_upd; exact Hlen).
  assert (states_ok ms) as Hsts.
  { intros j t. unfold ms.
    cbn [user_tasks save_psp_value with_user_tasks]. rewrite lookup_tcb_upd.
    destruct (user_tasks m !! j) as [t0 |] eqn:Ht0;
      [| case_decide; discriminate].
    case_decide; intros [= <-]; exact (Hst j t0 Ht0). }
  destruct (selection_cases ms Hlens Hc Hsts) as (_ & Hready & _).
  destruct (Z.eq_dec (current_task m') 0) as [Hz | Hnz].
  - rewrite Hz. exact Hidle.
  - unfold m', context_switch in *. fold ms in Hnz |- *.
    rewrite (update_current_task_frame ms) at 1.
    exact (Hready Hnz).
Qed.

(** ** Yielding *)

(** The head of a revolution is the eligible task nearest after the current
    index on the ring. *)
Lemma next_task_nearest ts c j :
  0 <= c < MAX_TASKS -> 1 <= j < MAX_TASKS ->
  eligible ts j = true ->
  ring_distance c (next_task ts c) <= ring_distance c j.
Proof.
  intros Hc Hj Hel.
  assert (j = 1 \/ j = 2 \/ j = 3 \/ j = 4) as Hjs
    by (unfold MAX_TASKS in Hj; lia).
  unfold next_task, revolution.
  index_cases c;
    vm_compute (scan_order _);
    destruct Hjs as [-> | [-> | [-> | ->]]];
    cbn [List.filter]; rewrite ?Hel;
    repeat match goal with
           | |- context [eligible ts ?x] => destruct (eligible ts x)
           end;
    vm_compute; discriminate.
Qed.

(** The states the selection sees after [task_delay] and [save_psp_value]:
    the caller is BLOCKED, every other task is as before the call. *)
Lemma delay_switch_states m d p j :
  table_ok m -> index_ok m -> 0 <= j < MAX_TASKS ->
  current_state
    (tcb_at (user_tasks (save_psp_value p (task_delay d m))) j)
  = if decide (j = current_task m) then TASK_BLOCKED_STATE else state_of m j.
Proof.
  intros Hlen Hc Hj.
  destruct (lookup_lt_is_Some_2 (user_tasks m) (Z.to_nat j)) as [t Ht];
    [unfold table_ok, MAX_TASKS in *; lia |].
  rewrite (state_of_lookup m j t Ht).
  assert (current_task (task_delay d m) = current_task m) as Hcur
    by reflexivity.
  unfold index_ok in Hc.
  destruct (decide (j = current_task m)) as [Heq | Hne].
  - subst j.
    rewrite (tcb_at_lookup _ (current_task m)
               (set_psp_value p
                  (mkTCB (psp_value t) (to_u32 (g_tick_count m + d))
                     TASK_BLOCKED_STATE (task_handler t))));
      [reflexivity |].
    cbn [user_tasks save_psp_value with_user_tasks].
    rewrite lookup_tcb_upd, Hcur, decide_True by reflexivity.
    rewrite task_delay_lookup, decide_True, Ht by reflexivity.
    reflexivity.
  - rewrite (tcb_at_lookup _ j t); [reflexivity |].
    cbn [user_tasks save_psp_value with_user_tasks].
    rewrite lookup_tcb_upd, Hcur, decide_False by lia.
    rewrite task_delay_lookup, decide_False by lia. exact Ht.
Qed.

(** X4.  A user task that calls [task_delay] loses the processor at the
    context switch the call pends, whatever the duration.  The switch makes
    current the READY user task that comes first after the caller on the ring
    of indices, if another user task is READY, and the idle task exactly when
    no other user task is READY; it never leaves the caller current. *)
Theorem delay_yields_processor (m : machine) (d p : Z) :
  table_ok m -> index_ok m -> current_task m <> 0 ->
  let c := current_task m in
  let r := current_task (context_switch p (task_delay d m)) in
  r <> c /\
  0 <= r < MAX_TASKS /\
  (r <> 0 ->
     state_of m r = TASK_READY_STATE /\
     forall j, 1 <= j < MAX_TASKS -> j <> c ->
       state_of m j = TASK_READY_STATE ->
       ring_distance c r <= ring_distance c j) /\
  (r = 0 <->
   forall j, 1 <= j < MAX_TASKS -> j <> c ->
     state_of m j <> TASK_READY_STATE).
Proof.
  intros Hlen Hc Hnz c r.
  set (ts := user_tasks (save_psp_value p (task_delay d m))).
  assert (r = next_task ts c) as Hr.
  { unfold r, context_switch.
    rewrite update_current_task_spec by exact Hc. reflexivity. }
  assert (forall j, 0 <= j < MAX_TASKS ->
            current_state (tcb_at ts j)
            = if decide (j = c) then TASK_BLOCKED_STATE else state_of m j)
    as Hst by (intros j Hj; apply delay_switch_states; assumption).
  assert (forall j, 0 <= j < MAX_TASKS ->
            (eligible ts j = true
             <-> state_of m j = TASK_READY_STATE /\ j <> 0 /\ j <> c))
    as Hel.
  { intros j Hj. rewrite eligible_iff, (Hst j Hj).
    destruct (decide (j = c)) as [-> | Hne]; [| tauto].
    split; [intros [Hb _]; discriminate | tauto]. }
  assert (current_state (tcb_at ts c) = TASK_BLOCKED_STATE) as Hblocked.
  { rewrite (Hst c Hc), decide_True by reflexivity. reflexivity. }
  clearbody ts. rewrite Hr. clear Hr r.
  pose proof (next_task_range ts c Hc) as Hrange.
  unfold next_task in *.
  destruct (revolution ts c) as [| e rest] eqn:Hrev.
  - rewrite Hblocked, Z.eqb_refl.
    split; [intros Heq; apply Hnz; symmetry; exact Heq |].
    split; [unfold MAX_TASKS; lia |].
    split; [intros Hne; destruct (Hne eq_refl) |].
    split; [| reflexivity].
    intros _ j Hj Hjc Hready.
    apply (revolution_nil_not_ready ts c j Hc Hrev Hj).
    rewrite (Hst j) by lia. rewrite decide_False by exact Hjc. exact Hready.
  - pose proof (revolution_head_eligible _ _ _ _ Hrev) as Hhead.
    apply (Hel e Hrange) in Hhead as (Hready & He0 & Hec).
    split; [exact Hec |]. split; [exact Hrange |].
    split.
    + intros _. split; [exact Hready |].
      intros j Hj Hjc Hjr.
      assert (eligible ts j = true) as Hj'
        by (apply Hel; [lia | split; [exact Hjr | split; [lia | exact Hjc]]]).
      pose proof (next_task_nearest ts c j Hc Hj Hj') as Hnear.
      unfold next_task in Hnear. rewrite Hrev in Hnear. exact Hnear.
    + split; [intros ->; destruct (He0 eq_refl) |].
      intros Hnone. destruct (Hnone e ltac:(lia) Hec Hready).
Qed.

(** ** When a BLOCKED task wakes *)


(** ** Bounded waiting *)

Lemma ready_in_tick i m : ready_in i m -> ready_in i (SysTick_Handler m).
Proof.
  intros (Hlen & Hc & t & Ht & Hst).
  split; [apply SysTick_Handler_table_ok; exact Hlen |].
  rewrite SysTick_Handler_spec by exact Hlen.
  split; [exact Hc |].
  exists (unblock_tcb (to_u32 (g_tick_count m + 1)) t).
  cbn [user_tasks]. rewrite list_lookup_fmap, Ht.
  split; [reflexivity |]. unfold unblock_tcb.
  destruct (_ && _); [reflexivity | exact Hst].
Qed.

Lemma ready_in_switch i p m : ready_in i m -> ready_in i (context_switch p m).
Proof.
  intros (Hlen & Hc & t & Ht & Hst). unfold context_switch.
  rewrite update_current_task_spec by exact Hc.
  unfold ready_in, table_ok, index_ok.
  cbn [user_tasks current_task with_current_task save_psp_value
       with_user_tasks].
  split; [rewrite length_tcb_upd; exact Hlen |].
  split; [apply next_task_range; exact Hc |].
  rewrite lookup_tcb_upd, Ht.
  case_decide; eexists; (split; [reflexivity | exact Hst]).
Qed.

Lemma ready_in_delay i d m :
  0 <= i -> ready_in i m -> current_task m <> i -> ready_in i (task_delay d m).
Proof.
  intros Hi (Hlen & Hc & t & Ht & Hst) Hne.
  split; [apply task_delay_table_ok; exact Hlen |].
  split; [exact Hc |].
  exists t. rewrite task_delay_lookup.
  case_decide; [unfold index_ok in Hc; lia | auto].
Qed.

Lemma ready_in_state i m : ready_in i m -> state_of m i = TASK_READY_STATE.
Proof.
  intros (_ & _ & t & Ht & Hst). rewrite (state_of_lookup m i t Ht). exact Hst.
Qed.

Lemma ready_selected_within i tr : forall m,
  1 <= i < MAX_TASKS ->
  ready_in i m -> asleep i tr m ->
  ring_distance (current_task m) i <= Z.of_nat (switches tr) ->
  selected_in i tr m.
Proof.
  induction tr as [| e tr IH]; intros m Hi Hr Hq Hdist.
  - pose proof (ring_distance_range (current_task m) i).
    unfold switches in Hdist. simpl in Hdist. lia.
  - destruct Hq as [He Hq]. rewrite switches_cons in Hdist.
    destruct e as [| p | d]; cbn [is_switch exec_event] in *.
    + apply selected_in_cons. cbn [exec_event].
      apply IH; [exact Hi | apply ready_in_tick; exact Hr | exact Hq |].
      rewrite SysTick_Handler_spec by apply Hr. exact Hdist.
    + pose proof (ready_in_switch i p m Hr) as Hr'.
      pose proof (ready_in_state _ _ Hr') as Hst.
      destruct Hr as (Hlen & Hc & _).
      assert (context_switch p m
              = with_current_task
                  (next_task (user_tasks (save_psp_value p m)) (current_task m))
                  (save_psp_value p m)) as Hsw
        by (unfold context_switch; rewrite update_current_task_spec by exact Hc;
            reflexivity).
      assert (eligible (user_tasks (save_psp_value p m)) i = true) as Hel.
      { apply eligible_iff. split; [| lia]. rewrite Hsw in Hst. exact Hst. }
      destruct (select_progress (user_tasks (save_psp_value p m))
                  (current_task m) i Hc Hi Hel) as [Hsel | Hcloser].
      * exists [], p, tr. cbn [app run exec_event].
        split; [reflexivity |]. split; [| exact Hst].
        rewrite Hsw. exact Hsel.
      * apply selected_in_cons. cbn [exec_event].
        apply IH; [exact Hi | exact Hr' | exact Hq |].
        rewrite Hsw at 1. cbn [current_task with_current_task]. lia.
    + apply selected_in_cons. cbn [exec_event].
      apply IH; [exact Hi | | exact Hq | exact Hdist].
      apply ready_in_delay; [lia | exact Hr | apply He].
Qed.

(** X6.  Round-robin fairness as bounded waiting: a READY user task [i]
    that makes no call of its own is given the processor by one of the next
    [d] context switches, where [d <= MAX_TASKS] is its distance after the
    current index on the ring of indices, whatever ticks and [task_delay]
    calls of the other tasks come in between. *)
Theorem ready_task_selected_within_revolution (m : machine) (i : Z)
    (tr : list event) :
  table_ok m -> index_ok m ->
  1 <= i < MAX_TASKS ->
  state_of m i = TASK_READY_STATE ->
  asleep i tr m ->
  ring_distance (current_task m) i <= Z.of_nat (switches tr) ->
  1 <= ring_distance (current_task m) i <= MAX_TASKS /\
  (current_task m <> i -> ring_distance (current_task m) i < MAX_TASKS) /\
  selected_in i tr m.
Proof.
  intros Hlen Hc Hi Hst Hq Hdist.
  split; [apply ring_distance_range |]. split.
  - intros Hne. unfold ring_distance, index_ok, MAX_TASKS in *.
    set (c := current_task m) in *.
    assert (i - c - 1 = -5 \/ i - c - 1 = -4 \/ i - c - 1 = -3 \/
            i - c - 1 = -2 \/ i - c - 1 = 0 \/ i - c - 1 = 1 \/
            i - c - 1 = 2 \/ i - c - 1 = 3) as Hcases by lia.
    destruct Hcases as [-> | [-> | [-> | [-> | [-> | [-> | [-> | ->]]]]]]];
      vm_compute; reflexivity.
  - apply ready_selected_within; try assumption.
    split; [exact Hlen |]. split; [exact Hc |].
    destruct (lookup_lt_is_Some_2 (user_tasks m) (Z.to_nat i)) as [t Ht];
      [unfold table_ok, MAX_TASKS in *; lia |].
    exists t. split; [exact Ht |].
    rewrite (state_of_lookup m i t Ht) in Hst. exact Hst.
Qed.

(** ** What the stack frame initialiser leaves alone *)

Lemma init_tasks_stack_leaves (fn_addr : handler -> Z) (m : machine) :
  table_ok m ->
  let m' := init_tasks_stack fn_addr m in
  (forall a, outside_frames a -> sram m' !! a = sram m !! a) /\
  (forall (i : nat) t, user_tasks m !! i = Some t ->
     exists t', user_tasks m' !! i = Some t' /\
                block_count t' = block_count t) /\
  length (user_tasks m') = length (user_tasks m) /\
  g_tick_count m' = g_tick_count m /\
  current_task m' = current_task m /\
  ICSR m' = ICSR m /\ PRIMASK m' = PRIMASK m /\ GPIOD_ODR m' = GPIOD_ODR m.
Proof.
  intros Hlen m'. subst m'. unfold init_tasks_stack.
  set (ts4 := tcb_upd _ 4 _).
  assert (table_ok (with_user_tasks ts4 m)) as Hlen4.
  { unfold table_ok in *. subst ts4. cbn [user_tasks with_user_tasks].
    rewrite !length_tcb_upd. exact Hlen. }
  destruct (init_loop_spec fn_addr (Z.to_nat MAX_TASKS) 0 (with_user_tasks ts4 m)
              ltac:(unfold MAX_TASKS; lia) Hlen4)
    as (Hin & _ & Hmem & Hlen' & Hg' & Hc' & Hicsr & Hpm & Hodr).
  change (Z.of_nat 0) with 0 in *.
  split.
  { intros a Ha. rewrite Hmem; [reflexivity |].
    intros j p _ Hp. exact (Ha j p Hp). }
  split.
  { intros i t Ht.
    assert (i < 5)%nat as Hi
      by (apply lookup_lt_Some in Ht; unfold table_ok, MAX_TASKS in Hlen; lia).
    destruct (stack_top_exists i Hi) as [p Hp].
    destruct (Hin i (set_task_handler (entry_point i) t) p) as [Htcb _].
    - change (Z.to_nat MAX_TASKS) with 5%nat. lia.
    - cbn [user_tasks with_user_tasks]. subst ts4.
      rewrite install_handlers_lookup by exact Hi. rewrite Ht. reflexivity.
    - exact Hp.
    - eexists. split; [exact Htcb | reflexivity]. }
  split; [unfold table_ok in *; rewrite Hlen', Hlen; reflexivity |].
  repeat split; assumption.
Qed.

(** X7.  [init_tasks_stack] writes SRAM only inside the sixteen words below
    each of the five stack tops; every other word, the wake tick of every
    TCB, the tick counter, the current-task index and the ICSR, PRIMASK and
    GPIO registers are as they were. *)
Theorem init_tasks_stack_frame_effect (fn_addr : handler -> Z) (m : machine) :
  table_ok m ->
  let m' := init_tasks_stack fn_addr m in
  (forall a, outside_frames a -> sram m' !! a = sram m !! a) /\
  (forall (i : nat) t, user_tasks m !! i = Some t ->
     exists t', user_tasks m' !! i = Some t' /\
                block_count t' = block_count t) /\
  length (user_tasks m') = length (user_tasks m) /\
  g_tick_count m' = g_tick_count m /\
  current_task m' = current_task m /\
  ICSR m' = ICSR m /\ PRIMASK m' = PRIMASK m /\ GPIOD_ODR m' = GPIOD_ODR m.
Proof. exact (init_tasks_stack_leaves fn_addr m). Qed.

(** * The GPIO driver and the start-up code *)

(** ** LED operations compose *)

Lemma is_u32_of_bits x :
  0 <= x -> (forall k, 32 <= k -> Z.testbit x k = false) -> is_u32 x.
Proof.
  intros Hx Hhigh.
  assert (x = to_u32 x) as ->.
  { apply Z.bits_inj'. intros k _. rewrite to_u32_testbit.
    destruct (Z.ltb_spec k 32) as [_ | Hge]; [reflexivity |].
    rewrite Hhigh by exact Hge. reflexivity. }
  unfold is_u32, to_u32. apply Z.mod_pos_bound. lia.
Qed.

Lemma led_off_range n odr : is_u32 odr -> is_u32 (Led.led_off n odr).
Proof.
  intros Hodr. apply is_u32_of_bits.
  - unfold Led.led_off. apply Z.land_nonneg. left. apply Hodr.
  - intros k Hk. unfold Led.led_off. rewrite Z.land_spec.
    rewrite (u32_testbit_high odr k Hodr Hk). reflexivity.
Qed.

(** X8.  The LED operations act on independent bits: operations on two
    different pins commute, repeating an operation changes nothing more, and
    of [led_on] and [led_off] on the same pin the later one decides. *)
Theorem led_operations_compose (a b odr : Z) :
  0 <= a < 32 -> 0 <= b < 32 -> a <> b -> is_u32 odr ->
  Led.led_on a (Led.led_off b odr) = Led.led_off b (Led.led_on a odr) /\
  Led.led_on a (Led.led_on b odr) = Led.led_on b (Led.led_on a odr) /\
  Led.led_off a (Led.led_off b odr) = Led.led_off b (Led.led_off a odr) /\
  Led.led_on a (Led.led_on a odr) = Led.led_on a odr /\
  Led.led_off a (Led.led_off a odr) = Led.led_off a odr /\
  Led.led_on a (Led.led_off a odr) = Led.led_on a odr.
Proof.
  intros Ha Hb Hne Hodr.
  pose proof (LedFacts.led_on_range a odr Ha Hodr) as Hona.
  pose proof (LedFacts.led_on_range b odr Hb Hodr) as Honb.
  pose proof (led_off_range a odr Hodr) as Hoffa.
  pose proof (led_off_range b odr Hodr) as Hoffb.
  repeat split; apply Z.bits_inj'; intros k _;
    rewrite ?LedFacts.led_on_testbit, ?LedFacts.led_off_testbit,
            ?LedFacts.led_on_testbit, ?LedFacts.led_off_testbit
      by assumption;
    destruct (Z.eqb_spec a k), (Z.eqb_spec b k), (Z.testbit odr k);
    try reflexivity; congruence.
Qed.

(** ** Pin set-up *)

Lemma led_init_all_spec b :
  led_init_all b
  = on_mach (with_GPIOD_ODR (Z.land (GPIOD_ODR (mach b)) 0xFFFF0FFF))
      (with_GPIOD_MODER
         (Z.lor (Z.land (GPIOD_MODER b) 0x00FFFFFF) 0x55000000)
         (with_RCC_AHB1ENR (Z.lor (RCC_AHB1ENR b) 8) b)).
Proof.
  unfold led_init_all, on_mach, exec_call, Led.led_off.
  cbn [mach GPIOD_MODER RCC_AHB1ENR with_mach with_GPIOD_MODER
       with_RCC_AHB1ENR GPIOD_ODR with_GPIOD_ODR].
  rewrite <- !Z.land_assoc, <- !Z.lor_assoc.
  reflexivity.
Qed.

Lemma testbit_low_mask k : 0 <= k < 24 -> Z.testbit 0x00FFFFFF k = true.
Proof.
  intros Hk. change 0x00FFFFFF with (Z.ones 24). apply Z.ones_spec_low. exact Hk.
Qed.

Lemma testbit_mode_bits_low k : k < 24 -> Z.testbit 0x55000000 k = false.
Proof.
  intros Hk. change 0x55000000 with (Z.shiftl 0x55 24).
  destruct (Z.le_gt_cases 0 k); [apply Z.shiftl_spec_low; exact Hk |].
  apply Z.testbit_neg_r. lia.
Qed.

(** X9.  [led_init_all] enables the port D clock (bit 3 of RCC_AHB1ENR),
    makes pins 12 to 15 general-purpose outputs (mode field 01) and switches
    the four LEDs off; it leaves every other clock-enable bit, the mode of
    pins 0 to 11 and the other output bits as they were, and nothing else on
    the board changes. *)
Theorem led_init_all_effect (b : board) :
  let b' := led_init_all b in
  (Z.testbit (RCC_AHB1ENR b') 3 = true /\
   forall k, k <> 3 ->
     Z.testbit (RCC_AHB1ENR b') k = Z.testbit (RCC_AHB1ENR b) k) /\
  (forall pin, 12 <= pin <= 15 ->
     Z.testbit (GPIOD_MODER b') (2 * pin) = true /\
     Z.testbit (GPIOD_MODER b') (2 * pin + 1) = false) /\
  (forall k, 0 <= k < 24 ->
     Z.testbit (GPIOD_MODER b') k = Z.testbit (GPIOD_MODER b) k) /\
  (forall pin, 12 <= pin <= 15 ->
     Z.testbit (GPIOD_ODR (mach b')) pin = false) /\
  (forall k, 0 <= k < 32 -> ~ 12 <= k <= 15 ->
     Z.testbit (GPIOD_ODR (mach b')) k = Z.testbit (GPIOD_ODR (mach b)) k) /\
  with_GPIOD_ODR (GPIOD_ODR (mach b)) (mach b') = mach b /\
  b' = with_mach (mach b')
         (with_GPIOD_MODER (GPIOD_MODER b')
            (with_RCC_AHB1ENR (RCC_AHB1ENR b') b)).
Proof.
  intros b'. subst b'. rewrite led_init_all_spec.
  unfold on_mach.
  cbn [mach RCC_AHB1ENR GPIOD_MODER GPIOD_ODR with_mach with_GPIOD_MODER
       with_RCC_AHB1ENR with_GPIOD_ODR].
  split; [split |].
  - rewrite Z.lor_spec. apply orb_true_r.
  - intros k Hk. rewrite Z.lor_spec.
    change 8 with (2 ^ 3). rewrite Z.pow2_bits_eqb by lia.
    destruct (Z.eqb_spec 3 k); [congruence | apply orb_false_r].
  - split.
    { intros pin Hpin.
      assert (pin = 12 \/ pin = 13 \/ pin = 14 \/ pin = 15)
        as [-> | [-> | [-> | ->]]] by lia;
        rewrite !Z.lor_spec, !Z.land_spec; split;
        (apply orb_true_r || (rewrite andb_false_r; reflexivity)). }
    split.
    { intros k Hk. rewrite Z.lor_spec, Z.land_spec.
      rewrite testbit_low_mask, testbit_mode_bits_low by lia.
      rewrite andb_true_r, orb_false_r. reflexivity. }
    split.
    { intros pin Hpin.
      assert (pin = 12 \/ pin = 13 \/ pin = 14 \/ pin = 15)
        as [-> | [-> | [-> | ->]]] by lia;
        rewrite Z.land_spec; apply andb_false_r. }
    split.
    { intros k Hk Hnot. rewrite Z.land_spec.
      replace (Z.testbit 0xFFFF0FFF k) with true; [apply andb_true_r |].
      symmetry.
      change 0xFFFF0FFF with (Z.lor (Z.ones 12) (Z.shiftl (Z.ones 16) 16)).
      rewrite Z.lor_spec.
      destruct (Z.lt_ge_cases k 12) as [Hlow | Hhigh].
      - rewrite Z.ones_spec_low by lia. reflexivity.
      - rewrite Z.ones_spec_high by lia.
        rewrite Z.shiftl_spec by lia. cbn [orb].
        apply Z.ones_spec_low. lia. }
    split; [destruct (mach b); reflexivity | destruct b; reflexivity].
Qed.

(** X10.  [led_init_all] is idempotent: running it again leaves the board
    as the first run left it. *)
Theorem led_init_all_idempotent (b : board) :
  led_init_all (led_init_all b) = led_init_all b.
Proof.
  rewrite !led_init_all_spec. unfold on_mach.
  cbn [mach RCC_AHB1ENR GPIOD_MODER GPIOD_ODR with_mach with_GPIOD_MODER
       with_RCC_AHB1ENR with_GPIOD_ODR].
  assert (forall x c, Z.land (Z.land x c) c = Z.land x c) as Hland
    by (intros x c; rewrite <- Z.land_assoc, Z.land_diag; reflexivity).
  assert (forall x c, Z.lor (Z.lor x c) c = Z.lor x c) as Hlor
    by (intros x c; rewrite <- Z.lor_assoc, Z.lor_diag; reflexivity).
  assert (forall x, Z.lor (Z.land (Z.lor (Z.land x 0x00FFFFFF) 0x55000000)
                             0x00FFFFFF) 0x55000000
                    = Z.lor (Z.land x 0x00FFFFFF) 0x55000000) as Hmode.
  { intros x. rewrite Z.land_lor_distr_l, Hland.
    change (Z.land 0x55000000 0x00FFFFFF) with 0.
    rewrite Z.lor_0_r. reflexivity. }
  rewrite Hland, Hlor, Hmode. reflexivity.
Qed.

(** ** The SysTick timer *)

Lemma init_systick_timer_spec tick_hz b :
  init_systick_timer tick_hz b
  = with_SYST_CSR (Z.lor (SYST_CSR b) 7)
      (with_SYST_RVR
         (Z.lor (Z.land (SYST_RVR b) 0xFF000000)
                (to_u32 (SYSTICK_TIM_CLK / tick_hz - 1))) b).
Proof.
  unfold init_systick_timer.
  cbn [SYST_CSR SYST_RVR with_SYST_RVR with_SYST_CSR].
  rewrite Z.shiftl_0_r, <- !Z.lor_assoc.
  f_equal. f_equal. f_equal.
  unfold to_u32. apply Z.mod_mod. lia.
Qed.

Lemma lor_low_field x c :
  0 <= c < 2 ^ 24 ->
  Z.lor (Z.land x 0xFF000000) c mod 2 ^ 24 = c /\
  forall k, 24 <= k < 32 ->
    Z.testbit (Z.lor (Z.land x 0xFF000000) c) k = Z.testbit x k.
Proof.
  intros Hc. split.
  - rewrite <- Z.land_ones by lia.
    rewrite Z.land_lor_distr_l, <- Z.land_assoc.
    change (Z.land 0xFF000000 (Z.ones 24)) with 0.
    rewrite Z.land_0_r, Z.lor_0_l, Z.land_ones by lia.
    apply Z.mod_small. exact Hc.
  - intros k Hk. rewrite Z.lor_spec, Z.land_spec.
    assert (Z.testbit c k = false) as ->.
    { rewrite <- (Z.mod_small c (2 ^ 24)) by exact Hc.
      apply Z.mod_pow2_bits_high. lia. }
    assert (Z.testbit 0xFF000000 k = true) as ->.
    { change 0xFF000000 with (Z.shiftl (Z.ones 8) 24).
      rewrite Z.shiftl_spec by lia. apply Z.ones_spec_low. lia. }
    rewrite andb_true_r, orb_false_r. reflexivity.
Qed.

(** X11.  For a tick rate between 1 Hz and the timer clock,
    [init_systick_timer] programs the 24-bit reload field with
    [SYSTICK_TIM_CLK / tick_hz - 1], so that one period of [reload + 1]
    clock cycles is the longest that gives at least [tick_hz] ticks per
    second (exactly [tick_hz] when it divides the clock); it keeps bits
    24 to 31 of the reload register, sets ENABLE, TICKINT and CLKSOURCE and
    keeps the other control bits. *)
Theorem init_systick_timer_effect (tick_hz : Z) (b : board) :
  1 <= tick_hz <= SYSTICK_TIM_CLK ->
  let b' := init_systick_timer tick_hz b in
  let reload := SYST_RVR b' mod 2 ^ 24 in
  reload = SYSTICK_TIM_CLK / tick_hz - 1 /\
  (reload + 1) * tick_hz <= SYSTICK_TIM_CLK < (reload + 2) * tick_hz /\
  (SYSTICK_TIM_CLK mod tick_hz = 0 ->
     (reload + 1) * tick_hz = SYSTICK_TIM_CLK) /\
  (forall k, 24 <= k < 32 ->
     Z.testbit (SYST_RVR b') k = Z.testbit (SYST_RVR b) k) /\
  (forall k, 0 <= k <= 2 -> Z.testbit (SYST_CSR b') k = true) /\
  (forall k, 2 < k ->
     Z.testbit (SYST_CSR b') k = Z.testbit (SYST_CSR b) k) /\
  b' = with_SYST_CSR (SYST_CSR b') (with_SYST_RVR (SYST_RVR b') b).
Proof.
  intros Hhz b' reload. subst reload b'.
  rewrite init_systick_timer_spec.
  cbn [SYST_CSR SYST_RVR with_SYST_RVR with_SYST_CSR].
  unfold SYSTICK_TIM_CLK, HSI_CLOCK in *.
  set (q := 16000000 / tick_hz).
  assert (1 <= q <= 16000000) as Hq.
  { unfold q. split.
    - apply Z.div_le_lower_bound; lia.
    - apply Z.div_le_upper_bound; nia. }
  assert (q * tick_hz <= 16000000 < (q + 1) * tick_hz) as Hqt.
  { unfold q. split.
    - rewrite Z.mul_comm. apply Z.mul_div_le. lia.
    - pose proof (Z.mul_succ_div_gt 16000000 tick_hz ltac:(lia)). lia. }
  assert (to_u32 (q - 1) = q - 1) as Hcv
    by (apply to_u32_small; unfold is_u32; lia).
  rewrite Hcv.
  destruct (lor_low_field (SYST_RVR b) (q - 1) ltac:(lia)) as [Hlow Hhigh].
  rewrite Hlow.
  split; [reflexivity |]. split; [lia |].
  split.
  { intros Hdiv. pose proof (Z.div_mod 16000000 tick_hz ltac:(lia)) as Hdm.
    fold q in Hdm. lia. }
  split; [exact Hhigh |].
  split.
  { intros k Hk. rewrite Z.lor_spec.
    assert (k = 0 \/ k = 1 \/ k = 2) as [-> | [-> | ->]] by lia;
      apply orb_true_r. }
  split.
  { intros k Hk. rewrite Z.lor_spec.
    change 7 with (Z.ones 3). rewrite Z.ones_spec_high by lia.
    apply orb_false_r. }
  reflexivity.
Qed.

(** X12.  A tick rate above the timer clock is not rejected: the quotient
    is 0, the count wraps to [0xFFFFFFFF], and the reload field ends up at
    its maximum [0xFFFFFF] with bits 24 to 31 of the register set as well. *)
Theorem init_systick_timer_rate_too_high (tick_hz : Z) (b : board) :
  SYSTICK_TIM_CLK < tick_hz ->
  is_u32 (SYST_RVR b) ->
  let b' := init_systick_timer tick_hz b in
  SYST_RVR b' = 0xFFFFFFFF /\
  SYST_RVR b' mod 2 ^ 24 = 0xFFFFFF.
Proof.
  intros Hhz Hrvr b'. subst b'. rewrite init_systick_timer_spec.
  cbn [SYST_RVR with_SYST_RVR with_SYST_CSR].
  unfold SYSTICK_TIM_CLK, HSI_CLOCK in *.
  rewrite Z.div_small by lia.
  change (to_u32 (0 - 1)) with (Z.ones 32).
  assert (Z.lor (Z.land (SYST_RVR b) 0xFF000000) (Z.ones 32) = Z.ones 32)
    as ->; [| split; reflexivity].
  apply Z.bits_inj'. intros k Hk.
  rewrite Z.lor_spec, Z.land_spec.
  destruct (Z.lt_ge_cases k 32) as [Hlt | Hge].
  - rewrite Z.ones_spec_low by lia. apply orb_true_r.
  - rewrite (u32_testbit_high _ k Hrvr Hge), Z.ones_spec_high by lia.
    reflexivity.
Qed.

(** * The assembly routines *)

(** ** Pushing and popping *)

Lemma to_u32_sub_add x n : is_u32 x -> to_u32 (to_u32 (x - n) + n) = x.
Proof.
  intros Hx. unfold to_u32. rewrite Z.add_mod_idemp_l by lia.
  replace (x - n + n) with x by lia. apply Z.mod_small. exact Hx.
Qed.

Lemma to_u32_add_sub x n : is_u32 x -> to_u32 (to_u32 (x + n) - n) = x.
Proof.
  intros Hx. unfold to_u32. rewrite Zminus_mod_idemp_l.
  replace (x + n - n) with x by lia. apply Z.mod_small. exact Hx.
Qed.

Lemma load32_store32 a w mem : load32 a (store32 a w mem) = w.
Proof. unfold load32, store32. rewrite lookup_insert_eq. reflexivity. Qed.

Lemma load32_lookup a w mem : mem !! a = Some w -> load32 a mem = w.
Proof. intros H. unfold load32. rewrite H. reflexivity. Qed.

Lemma store_words_outside ws : forall a mem x,
  x < a \/ a + 4 * Z.of_nat (length ws) <= x ->
  store_words a ws mem !! x = mem !! x.
Proof.
  induction ws as [| w ws IH]; intros a mem x Hx; [reflexivity |].
  cbn [store_words length] in *. rewrite IH by lia.
  unfold store32. apply lookup_insert_ne. lia.
Qed.

Lemma store_words_lookup ws : forall a mem (k : nat) w,
  ws !! k = Some w ->
  store_words a ws mem !! (a + 4 * Z.of_nat k) = Some w.
Proof.
  induction ws as [| w0 ws IH]; intros a mem k w Hk; [discriminate |].
  cbn [store_words]. destruct k as [| k].
  - injection Hk as ->. rewrite store_words_outside by lia.
    replace (a + 4 * Z.of_nat 0) with a by lia.
    unfold store32. apply lookup_insert_eq.
  - replace (a + 4 * Z.of_nat (S k)) with (a + 4 + 4 * Z.of_nat k) by lia.
    apply IH. exact Hk.
Qed.

Lemma load_words_lookup n : forall a mem ws,
  length ws = n ->
  (forall (k : nat) w, ws !! k = Some w ->
     mem !! (a + 4 * Z.of_nat k) = Some w) ->
  load_words n a mem = ws.
Proof.
  induction n as [| n IH]; intros a mem ws Hlen Hws.
  - destruct ws; [reflexivity | discriminate].
  - destruct ws as [| w ws]; [discriminate |]. cbn [load_words]. f_equal.
    + apply load32_lookup. specialize (Hws 0%nat w eq_refl).
      replace (a + 4 * Z.of_nat 0) with a in Hws by lia. exact Hws.
    + apply IH; [simpl in Hlen; lia |].
      intros k w' Hk. specialize (Hws (S k) w' Hk).
      replace (a + 4 + 4 * Z.of_nat k) with (a + 4 * Z.of_nat (S k)) by lia.
      exact Hws.
Qed.

Lemma length_load_words n a mem : length (load_words n a mem) = n.
Proof.
  revert a. induction n as [| n IH]; intros a; simpl; [reflexivity |].
  rewrite IH. reflexivity.
Qed.

(** ** Saving and reading a stack pointer *)

Lemma tcb_at_upd_same f i ts :
  (Z.to_nat i < length ts)%nat -> tcb_at (tcb_upd f i ts) i = f (tcb_at ts i).
Proof.
  intros Hi. unfold tcb_at, tcb_upd. apply list_lookup_total_alter_eq. exact Hi.
Qed.

Lemma tcb_at_upd_other f i j ts :
  Z.to_nat i <> Z.to_nat j -> tcb_at (tcb_upd f i ts) j = tcb_at ts j.
Proof.
  intros Hne. unfold tcb_at, tcb_upd. apply list_lookup_total_alter_ne.
  exact Hne.
Qed.

(** ** The selection does not look at SRAM *)

Lemma update_current_task_with_sram mem m :
  update_current_task (with_sram mem m)
  = with_sram mem (update_current_task m).
Proof.
  rewrite (update_current_task_frame (with_sram mem m)).
  rewrite (update_current_task_frame m).
  assert (current_task (update_current_task (with_sram mem m))
          = current_task (update_current_task m)) as ->; [| reflexivity].
  unfold update_current_task. rewrite !uct_loop_spec.
  cbn [user_tasks current_task with_sram].
  destruct (List.filter _ _); destruct (_ =? TASK_BLOCKED_STATE);
    cbn [current_task with_current_task]; reflexivity.
Qed.

Lemma context_switch_with_sram mem p m :
  context_switch p (with_sram mem m) = with_sram mem (context_switch p m).
Proof.
  unfold context_switch. rewrite <- update_current_task_with_sram. reflexivity.
Qed.

Lemma context_switch_sram p m : sram (context_switch p m) = sram m.
Proof.
  unfold context_switch. rewrite update_current_task_frame. reflexivity.
Qed.

(** ** Entering thread mode on the process stack *)

Lemma switch_sp_to_psp_spec b :
  Z.testbit (CONTROL b) 1 = false -> is_u32 (MSP b) ->
  switch_sp_to_psp b
  = with_CONTROL 2
      (with_R0 2
         (with_PSP (get_psp_value (mach b))
            (with_mem (store32 (to_u32 (MSP b - 4)) (LR b) (sram (mach b)))
               b))).
Proof.
  intros Hctl Hmsp. unfold switch_sp_to_psp, push_word, pop_word.
  unfold thread_sp, with_thread_sp, with_mem, on_mach.
  cbn [CONTROL MSP PSP LR R0 mach with_mach with_R0 with_PSP with_MSP with_LR
       with_CONTROL sram with_sram].
  rewrite Hctl.
  cbn [CONTROL MSP PSP LR R0 mach with_mach with_R0 with_PSP with_MSP with_LR
       with_CONTROL sram with_sram].
  rewrite Hctl.
  cbn [CONTROL MSP PSP LR R0 mach with_mach with_R0 with_PSP with_MSP with_LR
       with_CONTROL sram with_sram].
  rewrite load32_store32, to_u32_sub_add by exact Hmsp.
  destruct b; reflexivity.
Qed.

(** ** The context switch *)

Lemma PendSV_Handler_spec b :
  is_u32 (MSP b) ->
  let a := to_u32 (PSP b - 32) in
  let mem' := store32 (to_u32 (MSP b - 4)) (LR b)
                (store_words a (R4_R11 b) (sram (mach b))) in
  let m' := with_sram mem' (context_switch a (mach b)) in
  PendSV_Handler b
  = with_PSP (to_u32 (get_psp_value m' + 32))
      (with_R0 (to_u32 (get_psp_value m' + 32))
         (with_R4_R11 (load_words 8 (get_psp_value m') mem')
            (with_mach m' b))).
Proof.
  intros Hmsp a mem' m'. unfold PendSV_Handler, push_word, pop_word.
  unfold with_mem, on_mach.
  cbn [CONTROL MSP PSP LR R0 R4_R11 mach with_mach with_R0 with_PSP with_MSP
       with_LR with_R4_R11 sram with_sram].
  fold a.
  change (save_psp_value a
            (with_sram (store32 (to_u32 (MSP b - 4)) (LR b)
                          (store_words a (R4_R11 b) (sram (mach b))))
               (with_sram (store_words a (R4_R11 b) (sram (mach b)))
                  (mach b))))
    with (with_sram mem' (save_psp_value a (mach b))).
  rewrite update_current_task_with_sram.
  fold (context_switch a (mach b)). fold m'.
  replace (sram m') with mem' by reflexivity.
  assert (load32 (to_u32 (MSP b - 4)) mem' = LR b) as ->
    by apply load32_store32.
  rewrite to_u32_sub_add by exact Hmsp.
  destruct b; reflexivity.
Qed.


Lemma PendSV_saves b :
  table_ok (mach b) -> index_ok (mach b) ->
  length (R4_R11 b) = 8%nat ->
  is_u32 (MSP b) -> 32 <= PSP b < 2 ^ 32 ->
  clear_of (to_u32 (MSP b - 4)) (PSP b - 32) 32 ->
  saved_context (current_task (mach b)) (R4_R11 b) (PSP b - 32)
    (mach (PendSV_Handler b)).
Proof.
  intros Hlen Hc Hregs Hmsp Hpsp Hclear.
  rewrite (PendSV_Handler_spec b Hmsp).
  assert (to_u32 (PSP b - 32) = PSP b - 32) as ->
    by (apply to_u32_small; unfold is_u32; lia).
  cbn [mach with_mach with_R0 with_PSP with_R4_R11].
  split; [exact Hregs |]. split.
  - unfold context_switch.
    rewrite update_current_task_spec by exact Hc.
    cbn [user_tasks with_sram with_current_task save_psp_value
         with_user_tasks].
    rewrite tcb_at_upd_same; [reflexivity |].
    unfold table_ok, index_ok, MAX_TASKS in *. lia.
  - intros k w Hk. cbn [sram with_sram]. unfold store32.
    assert (k < 8)%nat by (apply lookup_lt_Some in Hk; lia).
    rewrite lookup_insert_ne by (unfold clear_of in Hclear; lia).
    apply store_words_lookup. exact Hk.
Qed.

Lemma PendSV_sram_outside b x :
  is_u32 (MSP b) -> 32 <= PSP b < 2 ^ 32 ->
  (length (R4_R11 b) <= 8)%nat ->
  x < PSP b - 32 \/ PSP b <= x ->
  x <> to_u32 (MSP b - 4) ->
  sram (mach (PendSV_Handler b)) !! x = sram (mach b) !! x.
Proof.
  intros Hmsp Hpsp Hregs Hx Hne.
  rewrite (PendSV_Handler_spec b Hmsp).
  assert (to_u32 (PSP b - 32) = PSP b - 32) as ->
    by (apply to_u32_small; unfold is_u32; lia).
  cbn [mach with_mach with_R0 with_PSP with_R4_R11 sram with_sram].
  unfold store32. rewrite lookup_insert_ne by congruence.
  apply store_words_outside. lia.
Qed.

Lemma PendSV_restores b i regs sp :
  table_ok (mach b) -> index_ok (mach b) ->
  is_u32 (MSP b) -> 32 <= PSP b < 2 ^ 32 ->
  (length (R4_R11 b) <= 8)%nat ->
  saved_context i regs sp (mach b) ->
  0 <= i ->
  current_task (mach b) <> i ->
  current_task (mach (PendSV_Handler b)) = i ->
  sp + 32 <= PSP b - 32 \/ PSP b <= sp ->
  clear_of (to_u32 (MSP b - 4)) sp 32 ->
  R4_R11 (PendSV_Handler b) = regs /\
  PSP (PendSV_Handler b) = to_u32 (sp + 32).
Proof.
  intros Hlen Hc Hmsp Hpsp Hregs (Hlr & Hsp & Hwords) Hi Hne Hsel Hclear Hmspc.
  rewrite (PendSV_Handler_spec b Hmsp) in Hsel |- *.
  cbn [mach with_mach with_R0 with_PSP with_R4_R11 PSP R4_R11] in *.
  assert (to_u32 (PSP b - 32) = PSP b - 32) as Ha
    by (apply to_u32_small; unfold is_u32; lia).
  rewrite Ha in *.
  set (mem' := store32 _ _ _) in *.
  assert (get_psp_value (with_sram mem' (context_switch (PSP b - 32) (mach b)))
          = sp) as Hget.
  { unfold get_psp_value. rewrite Hsel.
    cbn [user_tasks with_sram]. unfold context_switch.
    rewrite update_current_task_spec by exact Hc.
    cbn [user_tasks with_current_task save_psp_value with_user_tasks].
    rewrite tcb_at_upd_other; [exact Hsp |].
    unfold index_ok in Hc. lia. }
  rewrite Hget. split; [| reflexivity].
  apply load_words_lookup; [exact Hlr |].
  intros k w Hk.
  assert (k < 8)%nat by (apply lookup_lt_Some in Hk; lia).
  subst mem'. unfold store32.
  rewrite lookup_insert_ne by (unfold clear_of in Hmspc; lia).
  rewrite store_words_outside by lia.
  apply Hwords. exact Hk.
Qed.

(** X14.  A task's registers survive being switched out and in again.  If
    [PendSV_Handler] switches task [A] out at board [b], and at a later
    board [b2] the TCB of [A] and the eight words saved below its stack
    pointer are as that switch left them, then a switch at [b2] that
    selects [A] returns with R4-R11 and PSP as they were at [b]. *)
Theorem context_round_trip (b b2 : board) :
  let A := current_task (mach b) in
  let sp := PSP b - 32 in
  table_ok (mach b) -> index_ok (mach b) ->
  length (R4_R11 b) = 8%nat ->
  is_u32 (MSP b) -> 32 <= PSP b < 2 ^ 32 ->
  clear_of (to_u32 (MSP b - 4)) sp 32 ->
  psp_value (tcb_at (user_tasks (mach b2)) A)
    = psp_value (tcb_at (user_tasks (mach (PendSV_Handler b))) A) ->
  (forall k : nat, (k < 8)%nat ->
     sram (mach b2) !! (sp + 4 * Z.of_nat k)
     = sram (mach (PendSV_Handler b)) !! (sp + 4 * Z.of_nat k)) ->
  table_ok (mach b2) -> index_ok (mach b2) ->
  (length (R4_R11 b2) <= 8)%nat ->
  is_u32 (MSP b2) -> 32 <= PSP b2 < 2 ^ 32 ->
  current_task (mach b2) <> A ->
  current_task (mach (PendSV_Handler b2)) = A ->
  sp + 32 <= PSP b2 - 32 \/ PSP b2 <= sp ->
  clear_of (to_u32 (MSP b2 - 4)) sp 32 ->
  R4_R11 (PendSV_Handler b2) = R4_R11 b /\
  PSP (PendSV_Handler b2) = PSP b.
Proof.
  intros A sp Hlen Hc Hregs Hmsp Hpsp Hclear Hkeep_sp Hkeep_mem
         Hlen2 Hc2 Hregs2 Hmsp2 Hpsp2 Hne Hsel Hclear2 Hmspc2.
  destruct (PendSV_saves b Hlen Hc Hregs Hmsp Hpsp Hclear)
    as (Hl & Hsp & Hwords).
  fold A sp in Hsp, Hwords.
  assert (saved_context A (R4_R11 b) sp (mach b2)) as Hsaved.
  { split; [exact Hl |]. split; [rewrite Hkeep_sp; exact Hsp |].
    intros k w Hk. rewrite Hkeep_mem; [apply Hwords; exact Hk |].
    apply lookup_lt_Some in Hk. lia. }
  destruct (PendSV_restores b2 A (R4_R11 b) sp Hlen2 Hc2 Hmsp2 Hpsp2 Hregs2
              Hsaved ltac:(unfold index_ok in Hc; subst A; lia) Hne Hsel
              Hclear2 Hmspc2) as [HR HP].
  split; [exact HR |]. rewrite HP. subst sp.
  replace (PSP b - 32 + 32) with (PSP b) by lia.
  apply to_u32_small. unfold is_u32. lia.
Qed.

(** X15.  A task that has never run starts like one that was switched
    out.  If the initial frame of task [i] is still as [init_tasks_stack]
    built it, a switch that selects [i] returns with R4-R11 zero and PSP
    thirty-two bytes below the stack top, where the eight words the
    exception return pops are R0-R3 and R12 zero, the return link
    [0xFFFFFFFD], the address of the entry function as PC and the status
    word [0x01000000]. *)
Theorem first_dispatch (fn_addr : handler -> Z) (b : board) (i : nat)
    (p : Z) (h : handler) :
  PSP_INIT_ADDRS !! i = Some p ->
  fresh_frame fn_addr (Z.of_nat i) h p (mach b) ->
  table_ok (mach b) -> index_ok (mach b) ->
  (length (R4_R11 b) <= 8)%nat ->
  is_u32 (MSP b) -> 32 <= PSP b < 2 ^ 32 ->
  current_task (mach b) <> Z.of_nat i ->
  current_task (mach (PendSV_Handler b)) = Z.of_nat i ->
  p <= PSP b - 32 \/ PSP b <= p - 64 ->
  clear_of (to_u32 (MSP b - 4)) (p - 64) 64 ->
  let b' := PendSV_Handler b in
  R4_R11 b' = replicate 8 0 /\
  PSP b' = p - 32 /\
  (forall j, 0 <= j <= 4 -> sram (mach b') !! (PSP b' + 4 * j) = Some 0) /\
  sram (mach b') !! (PSP b' + 20) = Some 0xFFFFFFFD /\
  sram (mach b') !! (PSP b' + 24) = Some (to_u32 (fn_addr h)) /\
  sram (mach b') !! (PSP b' + 28) = Some 0x01000000.
Proof.
  intros Hp (Hsp & Hframe) Hlen Hc Hregs Hmsp Hpsp Hne Hsel Hclear Hmspc b'.
  pose proof (stack_top_range i p Hp) as Hrange.
  assert (saved_context (Z.of_nat i) (replicate 8 0) (p - 64) (mach b))
    as Hsaved.
  { split; [reflexivity |]. split; [exact Hsp |].
    intros k w Hk.
    apply lookup_replicate in Hk as [-> Hk].
    replace (p - 64 + 4 * Z.of_nat k) with (p - 4 * (16 - Z.of_nat k)) by lia.
    rewrite Hframe by lia. unfold frame_word.
    destruct (Z.eqb_spec (16 - Z.of_nat k) 1); [lia |].
    destruct (Z.eqb_spec (16 - Z.of_nat k) 2); [lia |].
    destruct (Z.eqb_spec (16 - Z.of_nat k) 3); [lia | reflexivity]. }
  destruct (PendSV_restores b (Z.of_nat i) (replicate 8 0) (p - 64)
              Hlen Hc Hmsp Hpsp Hregs Hsaved ltac:(lia) Hne Hsel
              ltac:(lia) ltac:(unfold clear_of in *; lia)) as [HR HP].
  assert (PSP b' = p - 32) as HP'.
  { subst b'. rewrite HP. replace (p - 64 + 32) with (p - 32) by lia.
    apply to_u32_small. unfold is_u32. lia. }
  assert (forall k, 1 <= k <= 8 ->
            sram (mach b') !! (p - 4 * k)
            = Some (frame_word fn_addr (Some h) k)) as Hkept.
  { intros k Hk. subst b'.
    rewrite PendSV_sram_outside; try assumption.
    - apply Hframe. lia.
    - lia.
    - unfold clear_of in Hmspc. lia. }
  split; [exact HR |]. split; [exact HP' |]. rewrite HP'.
  split.
  { intros j Hj. replace (p - 32 + 4 * j) with (p - 4 * (8 - j)) by lia.
    rewrite Hkept by lia. unfold frame_word.
    destruct (Z.eqb_spec (8 - j) 1); [lia |].
    destruct (Z.eqb_spec (8 - j) 2); [lia |].
    destruct (Z.eqb_spec (8 - j) 3); [lia | reflexivity]. }
  split; [replace (p - 32 + 20) with (p - 4 * 3) by lia;
          rewrite Hkept by lia; reflexivity |].
  split; [replace (p - 32 + 24) with (p - 4 * 2) by lia;
          rewrite Hkept by lia; reflexivity |].
  replace (p - 32 + 28) with (p - 4 * 1) by lia.
  rewrite Hkept by lia. reflexivity.
Qed.

(** * Start-up *)

Lemma sched_inv_same_table m m' :
  user_tasks m' = user_tasks m -> current_task m' = current_task m ->
  sched_inv m -> sched_inv m'.
Proof.
  intros Hts Hc. unfold sched_inv, table_ok, index_ok, handlers_installed,
    state_of. rewrite Hts, Hc. trivial.
Qed.

Lemma states_ok_same_table m m' :
  user_tasks m' = user_tasks m -> states_ok m -> states_ok m'.
Proof. intros Hts. unfold states_ok. rewrite Hts. trivial. Qed.

Lemma stack_top_above_sched (i : nat) p :
  PSP_INIT_ADDRS !! i = Some p -> SCHED_STACK_START + SIZE_TASK_STACK <= p.
Proof.
  intros Hi.
  destruct i as [| [| [| [| [| i]]]]]; try discriminate;
    vm_compute in Hi; simplify_eq; vm_compute; discriminate.
Qed.

Lemma board_ext b1 b2 :
  mach b1 = mach b2 -> R0 b1 = R0 b2 -> R4_R11 b1 = R4_R11 b2 ->
  LR b1 = LR b2 -> PSP b1 = PSP b2 -> MSP b1 = MSP b2 ->
  CONTROL b1 = CONTROL b2 -> SHCSR b1 = SHCSR b2 ->
  SYST_RVR b1 = SYST_RVR b2 -> SYST_CSR b1 = SYST_CSR b2 ->
  RCC_AHB1ENR b1 = RCC_AHB1ENR b2 -> GPIOD_MODER b1 = GPIOD_MODER b2 ->
  b1 = b2.
Proof. destruct b1, b2. cbn. intros. subst. reflexivity. Qed.

Lemma main_startup_spec fn_addr b :
  boot_globals (mach b) -> Z.testbit (CONTROL b) 1 = false ->
  let mi := init_tasks_stack fn_addr (mach b) in
  main_startup fn_addr b
  = mkBoard
      (with_sram (store32 (SCHED_STACK_START - 4) (LR b) (sram mi))
         (with_GPIOD_ODR (Z.land (GPIOD_ODR (mach b)) 0xFFFF0FFF) mi))
      2 (R4_R11 b) (LR b) (T1_STACK_START - 64) SCHED_STACK_START 2
      (Z.lor (SHCSR b) 0x70000)
      (Z.lor (Z.land (SYST_RVR b) 0xFF000000) 15999)
      (Z.lor (SYST_CSR b) 7)
      (Z.lor (RCC_AHB1ENR b) 8)
      (Z.lor (Z.land (GPIOD_MODER b) 0x00FFFFFF) 0x55000000).
Proof.
  destruct b as [m r0 regs lr psp msp ctl shcsr rvr csr rcc moder].
  cbn [mach CONTROL LR R4_R11 SHCSR SYST_RVR SYST_CSR RCC_AHB1ENR
       GPIOD_MODER].
  intros Hboot Hctl.
  assert (table_ok m) as Hlen.
  { destruct Hboot as (Hts & _). unfold table_ok. rewrite Hts.
    apply length_replicate. }
  destruct (table_ok_lookup m 1 Hlen ltac:(lia)) as [t1 Ht1].
  destruct (init_tasks_stack_spec fn_addr m 1 t1 T1_STACK_START Hlen Ht1
              eq_refl) as (Htcb & _ & _ & _ & Hc').
  destruct (init_tasks_stack_leaves fn_addr m Hlen)
    as (_ & _ & _ & _ & _ & _ & _ & Hodr).
  unfold main_startup.
  rewrite switch_sp_to_psp_spec.
  - rewrite init_systick_timer_spec, led_init_all_spec.
    unfold enable_processor_faults, init_scheduler_stack, with_mem.
    cbv [on_mach mach R0 R4_R11 LR PSP MSP CONTROL SHCSR SYST_RVR SYST_CSR
         RCC_AHB1ENR GPIOD_MODER with_mach with_R0 with_PSP with_MSP
         with_CONTROL with_SHCSR with_SYST_RVR with_SYST_CSR
         with_RCC_AHB1ENR with_GPIOD_MODER].
    revert Htcb Hc' Hodr. generalize (init_tasks_stack fn_addr m) as mi.
    intros mi Htcb Hc' Hodr.
    assert (get_psp_value (with_GPIOD_ODR (Z.land (GPIOD_ODR mi) 0xFFFF0FFF) mi)
            = T1_STACK_START - 64) as ->.
    { unfold get_psp_value. cbn [user_tasks current_task with_GPIOD_ODR].
      destruct Hboot as (_ & _ & Hc). rewrite Hc', Hc.
      rewrite (tcb_at_lookup _ 1 _ Htcb). reflexivity. }
    cbn [sram with_GPIOD_ODR]. rewrite Hodr, <- !Z.lor_assoc.
    assert (to_u32 (SCHED_STACK_START - 4) = SCHED_STACK_START - 4) as ->
      by (vm_compute; reflexivity).
    assert (to_u32 (SYSTICK_TIM_CLK / TICK_HZ - 1) = 15999) as ->
      by (vm_compute; reflexivity).
    assert (Z.lor (1 ≪ MEM_MANAGE_EN_BIT)
              (Z.lor (1 ≪ BUS_FAULT_EN_BIT) (1 ≪ USAGE_FAULT_EN_BIT))
            = 0x70000) as -> by (vm_compute; reflexivity).
    reflexivity.
  - rewrite init_systick_timer_spec, led_init_all_spec. exact Hctl.
  - rewrite init_systick_timer_spec, led_init_all_spec.
    unfold is_u32, SCHED_STACK_START, SRAM_END, SRAM_START, SRAM_SIZE,
      SIZE_TASK_STACK. cbn. lia.
Qed.

Lemma init_frames fn_addr m :
  boot_globals m ->
  forall (i : nat) p, PSP_INIT_ADDRS !! i = Some p ->
    exists t, user_tasks (init_tasks_stack fn_addr m) !! i = Some t /\
      psp_value t = p - 64 /\ current_state t = TASK_READY_STATE /\
      forall k, 1 <= k <= 16 ->
        sram (init_tasks_stack fn_addr m) !! (p - 4 * k)
        = Some (frame_word fn_addr (entry_point i) k).
Proof.
  intros (Hts & _) i p Hp.
  assert (table_ok m) as Hlen
    by (unfold table_ok; rewrite Hts; apply length_replicate).
  assert (i < 5)%nat as Hi by (apply lookup_lt_Some in Hp; exact Hp).
  destruct (table_ok_lookup m i Hlen Hi) as [t Ht].
  destruct (init_tasks_stack_spec fn_addr m i t p Hlen Ht Hp)
    as (Htcb & Hmem & _).
  eexists. split; [exact Htcb |]. cbn [psp_value current_state].
  split; [reflexivity |]. split; [reflexivity | exact Hmem].
Qed.

(** X16.  The start-up sequence of [main], from the C start-up values of the
    globals and with the processor on the main stack, hands over a system
    in which the scheduler's invariant holds: the table has five READY
    entries with their entry points, task 1 is current and the tick count
    is 0; every task's sixteen-word initial frame is in memory and its TCB
    points below it (the word pushed on the scheduler stack overwrites
    none of them); the thread runs on the process stack at task 1's saved
    pointer; the main stack pointer is the scheduler stack top; the SysTick
    reload times the tick rate is the timer clock (one interrupt per
    millisecond at 16 MHz), with counter, interrupt and processor clock
    enabled; the three configurable faults are enabled; the
    four LED pins are outputs and the LEDs are off. *)
Theorem main_startup_establishes (fn_addr : handler -> Z) (b : board) :
  boot_globals (mach b) ->
  Z.testbit (CONTROL b) 1 = false ->
  let b' := main_startup fn_addr b in
  let m' := mach b' in
  sched_inv m' /\ states_ok m' /\
  current_task m' = 1 /\ g_tick_count m' = 0 /\
  (forall (i : nat) p, PSP_INIT_ADDRS !! i = Some p ->
     exists t, user_tasks m' !! i = Some t /\
       psp_value t = p - 64 /\ current_state t = TASK_READY_STATE /\
       task_handler t = entry_point i /\
       forall k, 1 <= k <= 16 ->
         sram m' !! (p - 4 * k) = Some (frame_word fn_addr (entry_point i) k)) /\
  PSP b' = get_psp_value m' /\ PSP b' = T1_STACK_START - 64 /\
  MSP b' = SCHED_STACK_START /\
  Z.testbit (CONTROL b') 1 = true /\
  (SYST_RVR b' mod 2 ^ 24 + 1) * TICK_HZ = SYSTICK_TIM_CLK /\
  (forall k, 0 <= k <= 2 -> Z.testbit (SYST_CSR b') k = true) /\
  (forall k, 16 <= k <= 18 -> Z.testbit (SHCSR b') k = true) /\
  (forall pin, 12 <= pin <= 15 ->
     Z.testbit (GPIOD_MODER b') (2 * pin) = true /\
     Z.testbit (GPIOD_MODER b') (2 * pin + 1) = false /\
     Z.testbit (GPIOD_ODR m') pin = false).
Proof.
  intros Hboot Hctl b' m'. subst m' b'.
  pose proof (main_startup_spec fn_addr b Hboot Hctl) as Hs.
  cbv zeta in Hs. rewrite Hs. clear Hs.
  cbn [mach PSP MSP CONTROL LR R4_R11 SYST_RVR SYST_CSR SHCSR GPIOD_MODER].
  pose proof (sched_inv_init fn_addr (mach b) Hboot) as Hinv.
  pose proof (states_ok_init fn_addr (mach b) Hboot) as Hst.
  pose proof (init_frames fn_addr (mach b) Hboot) as Hfr.
  assert (table_ok (mach b)) as Hlen.
  { destruct Hboot as (Hts & _). unfold table_ok. rewrite Hts.
    apply length_replicate. }
  destruct (init_tasks_stack_leaves fn_addr (mach b) Hlen)
    as (_ & _ & _ & Hg & Hc & _).
  destruct Hboot as (_ & Hg0 & Hc0). rewrite Hg0 in Hg. rewrite Hc0 in Hc.
  revert Hinv Hst Hfr Hg Hc.
  generalize (init_tasks_stack fn_addr (mach b)) as mi.
  intros mi Hinv Hst Hfr Hg Hc.
  set (m' := with_sram _ _).
  assert (user_tasks m' = user_tasks mi) as Hts' by reflexivity.
  assert (current_task m' = current_task mi) as Hc' by reflexivity.
  assert (g_tick_count m' = g_tick_count mi) as Hg' by reflexivity.
  assert (sram m' = store32 (SCHED_STACK_START - 4) (LR b) (sram mi))
    as Hmem' by reflexivity.
  assert (GPIOD_ODR m' = Z.land (GPIOD_ODR (mach b)) 0xFFFF0FFF)
    as Hodr' by reflexivity.
  clearbody m'.
  split; [exact (sched_inv_same_table mi m' Hts' Hc' Hinv) |].
  split; [exact (states_ok_same_table mi m' Hts' Hst) |].
  split; [rewrite Hc'; exact Hc |].
  split; [rewrite Hg'; exact Hg |].
  split.
  { intros i p Hp. destruct (Hfr i p Hp) as (t & Ht & Hpsp & Hstate & Hw).
    exists t. rewrite Hts'. split; [exact Ht |].
    split; [exact Hpsp |]. split; [exact Hstate |].
    split; [destruct Hinv as (_ & _ & Hh & _); exact (Hh i t Ht) |].
    intros k Hk. rewrite Hmem'. unfold store32.
    rewrite lookup_insert_ne; [exact (Hw k Hk) |].
    pose proof (stack_top_above_sched i p Hp) as Hab.
    unfold SIZE_TASK_STACK in Hab. lia. }
  split.
  { unfold get_psp_value. rewrite Hts', Hc', Hc.
    destruct (Hfr 1%nat T1_STACK_START eq_refl) as (t & Ht & Hpsp & _).
    rewrite (tcb_at_lookup _ 1 t Ht). symmetry. exact Hpsp. }
  split; [reflexivity |]. split; [reflexivity |]. split; [reflexivity |].
  split.
  { destruct (lor_low_field (SYST_RVR b) 15999 ltac:(lia)) as (-> & _).
    reflexivity. }
  split.
  { intros k Hk. rewrite Z.lor_spec.
    assert (k = 0 \/ k = 1 \/ k = 2) as [-> | [-> | ->]] by lia;
      cbn; apply orb_true_r. }
  split.
  { intros k Hk. rewrite Z.lor_spec.
    assert (k = 16 \/ k = 17 \/ k = 18) as [-> | [-> | ->]] by lia;
      cbn; apply orb_true_r. }
  intros pin Hpin. rewrite Hodr'.
  rewrite !Z.lor_spec, !Z.land_spec.
  assert (pin = 12 \/ pin = 13 \/ pin = 14 \/ pin = 15)
    as [-> | [-> | [-> | ->]]] by lia;
    cbn; rewrite ?andb_false_r, ?orb_true_r, ?orb_false_r; auto.
Qed.

(** * The task bodies and the LEDs *)

Lemma led_off_testbit_low n odr k :
  0 <= n < 32 -> 0 <= k < 32 ->
  Z.testbit (Led.led_off n odr) k = Z.testbit odr k && negb (n =? k).
Proof.
  intros Hn Hk. unfold Led.led_off. rewrite LedFacts.led_mask by exact Hn.
  rewrite Z.land_spec, to_u32_testbit.
  destruct (Z.ltb_spec k 32) as [_ | Hge]; [| lia].
  rewrite Z.lnot_spec, Z.pow2_bits_eqb by lia. reflexivity.
Qed.

Lemma led_call_pin h n :
  call_led_on n ∈ handler_body h \/ call_led_off n ∈ handler_body h ->
  12 <= n <= 15 /\
  forall h',
    call_led_on n ∈ handler_body h' \/ call_led_off n ∈ handler_body h' ->
    h' = h.
Proof.
  intros Hin.
  assert (forall h1 n1,
            call_led_on n1 ∈ handler_body h1 \/
            call_led_off n1 ∈ handler_body h1 ->
            (h1 = task1_handler /\ n1 = LED_GREEN) \/
            (h1 = task2_handler /\ n1 = LED_ORANGE) \/
            (h1 = task3_handler /\ n1 = LED_BLUE) \/
            (h1 = task4_handler /\ n1 = LED_RED)) as Hown.
  { intros h1 n1 H1.
    destruct h1; cbn [handler_body] in H1;
      rewrite ?elem_of_cons, ?elem_of_nil in H1;
      destruct H1 as [H1 | H1]; intuition (try discriminate);
      match goal with
      | E : _ = _ |- _ => injection E as ->
      end; tauto. }
  pose proof (Hown h n Hin) as Hh.
  split.
  - unfold LED_GREEN, LED_ORANGE, LED_BLUE, LED_RED in Hh. lia.
  - intros h' Hin'. pose proof (Hown h' n Hin') as Hh'.
    unfold LED_GREEN, LED_ORANGE, LED_BLUE, LED_RED in Hh, Hh'.
    destruct Hh as [[-> ->] | [[-> ->] | [[-> ->] | [-> ->]]]];
      destruct Hh' as [[-> ?] | [[-> ?] | [[-> ?] | [-> ?]]]];
      first [reflexivity | lia].
Qed.

(** X17.  Each LED belongs to one task, as long as the calls run to
    completion.  A SysTick firing, a context switch, [task_delay] and [wfi]
    leave the output register as it is.  An LED call run without preemption
    between its load and its store changes no bit of the 32-bit register but
    the one of its pin: [led_on] sets it, [led_off] clears it.  Every LED
    call of a task body names one of pins 12 to 15, and no two task bodies
    name the same pin. *)
Theorem led_changed_only_by_owner (m : machine) (h : handler) (c : call) :
  table_ok m ->
  c ∈ handler_body h ->
  GPIOD_ODR (SysTick_Handler m) = GPIOD_ODR m /\
  (forall p, GPIOD_ODR (context_switch p m) = GPIOD_ODR m) /\
  (forall d, GPIOD_ODR (exec_call (call_task_delay d) m) = GPIOD_ODR m) /\
  GPIOD_ODR (exec_call wfi m) = GPIOD_ODR m /\
  (forall k, 0 <= k < 32 ->
     Z.testbit (GPIOD_ODR (exec_call c m)) k <> Z.testbit (GPIOD_ODR m) k ->
     c = call_led_on k \/ c = call_led_off k) /\
  (forall n, c = call_led_on n ->
     Z.testbit (GPIOD_ODR (exec_call c m)) n = true) /\
  (forall n, c = call_led_off n ->
     Z.testbit (GPIOD_ODR (exec_call c m)) n = false) /\
  (forall n, c = call_led_on n \/ c = call_led_off n ->
     12 <= n <= 15 /\
     forall h' c', c' ∈ handler_body h' ->
       c' = call_led_on n \/ c' = call_led_off n -> h' = h).
Proof.
  intros Hlen Hcall.
  assert (forall n, c = call_led_on n \/ c = call_led_off n ->
            call_led_on n ∈ handler_body h \/ call_led_off n ∈ handler_body h)
    as Hnames by (intros n [<- | <-]; [left | right]; exact Hcall).
  assert (forall n, c = call_led_on n \/ c = call_led_off n -> 12 <= n <= 15)
    as Hpin by (intros n Hn; exact (proj1 (led_call_pin h n (Hnames n Hn)))).
  split; [rewrite SysTick_Handler_spec by exact Hlen; reflexivity |].
  split.
  { intros p. unfold context_switch. rewrite update_current_task_frame.
    reflexivity. }
  split; [intros d; reflexivity |]. split; [reflexivity |].
  split.
  { intros k Hk Hbit.
    destruct c as [n | n | d |]; cbn [exec_call] in Hbit.
    - pose proof (Hpin n (or_introl eq_refl)) as Hn.
      cbn [GPIOD_ODR with_GPIOD_ODR] in Hbit.
      rewrite LedFacts.led_on_testbit in Hbit by lia.
      destruct (Z.eqb_spec n k) as [-> | Hne]; [left; reflexivity |].
      exfalso. apply Hbit. apply orb_false_r.
    - pose proof (Hpin n (or_intror eq_refl)) as Hn.
      cbn [GPIOD_ODR with_GPIOD_ODR] in Hbit.
      rewrite led_off_testbit_low in Hbit by lia.
      destruct (Z.eqb_spec n k) as [-> | Hne]; [right; reflexivity |].
      exfalso. apply Hbit. apply andb_true_r.
    - exfalso. apply Hbit. reflexivity.
    - exfalso. apply Hbit. reflexivity. }
  split.
  { intros n Hc. pose proof (Hpin n (or_introl Hc)) as Hn. subst c.
    cbn [exec_call GPIOD_ODR with_GPIOD_ODR].
    rewrite LedFacts.led_on_testbit by lia.
    rewrite Z.eqb_refl. apply orb_true_r. }
  split.
  { intros n Hc. pose proof (Hpin n (or_intror Hc)) as Hn. subst c.
    cbn [exec_call GPIOD_ODR with_GPIOD_ODR].
    rewrite led_off_testbit_low by lia.
    rewrite Z.eqb_refl. apply andb_false_r. }
  intros n Hn.
  destruct (led_call_pin h n (Hnames n Hn)) as (Hrange & Honly).
  split; [exact Hrange |].
  intros h' c' Hc' Hn'. apply Honly.
  destruct Hn' as [<- | <-]; [left | right]; exact Hc'.
Qed.


(** X18.  [task_delay] always returns with interrupts unmasked: PRIMASK is
    0 afterwards whatever it was before, so the call does not restore a
    mask its caller had set.  Of ICSR it sets the PendSV-pending bit and
    keeps every other bit. *)
Theorem task_delay_unmasks_interrupts (d : Z) (m : machine) :
  PRIMASK (task_delay d m) = 0 /\
  Z.testbit (ICSR (task_delay d m)) PENDSVSET_BIT = true /\
  forall k, k <> PENDSVSET_BIT ->
    Z.testbit (ICSR (task_delay d m)) k = Z.testbit (ICSR m) k.
Proof.
  unfold task_delay, INTERRUPT_ENABLE, INTERRUPT_DISABLE, schedule.
  cbn [PRIMASK ICSR with_PRIMASK with_ICSR with_user_tasks].
  split; [reflexivity |].
  unfold PENDSVSET_BIT. split.
  - rewrite Z.lor_spec. apply orb_true_r.
  - intros k Hk. rewrite Z.lor_spec, Z.shiftl_1_l.
    destruct (Z.le_gt_cases 0 k) as [Hpos | Hneg].
    + rewrite Z.pow2_bits_eqb by lia.
      destruct (Z.eqb_spec 28 k); [lia | apply orb_false_r].
    + rewrite !(Z.testbit_neg_r _ k) by lia. reflexivity.
Qed.

(** * The further theorems at sample configurations *)

Lemma mixed_machine_states_ok : states_ok mixed_machine.
Proof.
  intros j t Ht.
  destruct j as [| [| [| [| [| j]]]]]; simpl in Ht; try discriminate;
    injection Ht as <-; simpl; auto.
Qed.

Lemma boot_machine_globals : boot_globals boot_machine.
Proof. repeat split; reflexivity. Qed.

Lemma switch_board_fresh_frame :
  fresh_frame sample_fn_addr 2 task2_handler T2_STACK_START
    (mach switch_board).
Proof.
  destruct (init_frames sample_fn_addr boot_machine boot_machine_globals
              2 T2_STACK_START eq_refl) as (t & Ht & Hpsp & _ & Hw).
  split; [| exact Hw].
  unfold switch_board. cbn [mach].
  rewrite (tcb_at_lookup _ 2 t Ht). exact Hpsp.
Qed.

Lemma sram_mach_return v w c b :
  sram (mach (with_PSP v (with_R4_R11 w (on_mach (with_current_task c) b))))
  = sram (mach b).
Proof. destruct b. reflexivity. Qed.

Lemma return_board_sram :
  sram (mach return_board) = sram (mach (PendSV_Handler switch_board)).
Proof. unfold return_board. apply sram_mach_return. Qed.

Lemma selection_sound_witness :
  let m := mixed_machine in
  (table_ok m /\ index_ok m /\ states_ok m) /\
  let r := current_task (update_current_task m) in
  0 <= r < MAX_TASKS /\
  (r <> 0 -> state_of m r = TASK_READY_STATE) /\
  (r = 0 <->
   forall j, 1 <= j < MAX_TASKS -> state_of m j = TASK_BLOCKED_STATE).
Proof.
  intros m.
  assert (table_ok m) as Hlen by reflexivity.
  assert (index_ok m) as Hc by (unfold index_ok, MAX_TASKS; simpl; lia).
  assert (states_ok m) as Hst by exact mixed_machine_states_ok.
  split; [exact (conj Hlen (conj Hc Hst)) |].
  exact (selection_sound m Hlen Hc Hst).
Defined.

Lemma reachable_well_formed_witness :
  let m := context_switch (T1_STACK_START - 96)
             (init_tasks_stack sample_fn_addr boot_machine) in
  reachable sample_fn_addr m /\
  length (user_tasks m) = 5%nat /\
  0 <= current_task m < 5 /\
  states_ok m /\
  is_u32 (g_tick_count m) /\
  (forall (i : nat) t,
     user_tasks m !! i = Some t -> task_handler t = entry_point i).
Proof.
  intros m.
  assert (reachable sample_fn_addr m) as Hreach.
  { apply reach_step with (init_tasks_stack sample_fn_addr boot_machine).
    - apply reach_init. exact boot_machine_globals.
    - apply step_switch. }
  split; [exact Hreach |].
  exact (reachable_well_formed sample_fn_addr m Hreach).
Defined.

Lemma dispatched_task_is_ready_witness :
  let m := init_tasks_stack sample_fn_addr boot_machine in
  let p := T1_STACK_START - 96 in
  reachable sample_fn_addr m /\
  let m' := context_switch p m in
  0 <= current_task m' < MAX_TASKS /\
  state_of m' (current_task m') = TASK_READY_STATE.
Proof.
  intros m p.
  assert (reachable sample_fn_addr m) as Hreach
    by (apply reach_init; exact boot_machine_globals).
  split; [exact Hreach |].
  exact (dispatched_task_is_ready sample_fn_addr m p Hreach).
Defined.

Lemma delay_yields_processor_witness :
  let m := started_machine in
  let d := LED_GREEN_FREQ in
  let p := T1_STACK_START - 96 in
  (table_ok m /\ index_ok m /\ current_task m <> 0) /\
  let c := current_task m in
  let r := current_task (context_switch p (task_delay d m)) in
  r <> c /\
  0 <= r < MAX_TASKS /\
  (r <> 0 ->
     state_of m r = TASK_READY_STATE /\
     forall j, 1 <= j < MAX_TASKS -> j <> c ->
       state_of m j = TASK_READY_STATE ->
       ring_distance c r <= ring_distance c j) /\
  (r = 0 <->
   forall j, 1 <= j < MAX_TASKS -> j <> c ->
     state_of m j <> TASK_READY_STATE).
Proof.
  intros m d p.
  assert (table_ok m) as Hlen by reflexivity.
  assert (index_ok m) as Hc by (unfold index_ok, MAX_TASKS; simpl; lia).
  assert (current_task m <> 0) as Hnz by (simpl; lia).
  split; [exact (conj Hlen (conj Hc Hnz)) |].
  exact (delay_yields_processor m d p Hlen Hc Hnz).
Defined.


Lemma ready_task_selected_within_revolution_witness :
  let m := mixed_machine in
  let i := 3 in
  let tr := [E_switch (T1_STACK_START - 96); E_tick;
             E_switch (T3_STACK_START - 96)] in
  (table_ok m /\ index_ok m /\ 1 <= i < MAX_TASKS /\
   state_of m i = TASK_READY_STATE /\ asleep i tr m /\
   ring_distance (current_task m) i <= Z.of_nat (switches tr)) /\
  1 <= ring_distance (current_task m) i <= MAX_TASKS /\
  (current_task m <> i -> ring_distance (current_task m) i < MAX_TASKS) /\
  selected_in i tr m.
Proof.
  intros m i tr.
  assert (table_ok m) as Hlen by reflexivity.
  assert (index_ok m) as Hc by (unfold index_ok, MAX_TASKS; simpl; lia).
  assert (1 <= i < MAX_TASKS) as Hi by (unfold MAX_TASKS; subst i; lia).
  assert (state_of m i = TASK_READY_STATE) as Hst by reflexivity.
  assert (asleep i tr m) as Hq.
  { apply asleep_without_delay. repeat constructor. }
  assert (ring_distance (current_task m) i <= Z.of_nat (switches tr)) as Hd
    by (vm_compute; discriminate).
  split; [exact (conj Hlen (conj Hc (conj Hi (conj Hst (conj Hq Hd))))) |].
  exact (ready_task_selected_within_revolution m i tr Hlen Hc Hi Hst Hq Hd).
Defined.

Lemma init_tasks_stack_frame_effect_witness :
  let m := boot_machine in
  table_ok m /\
  let m' := init_tasks_stack sample_fn_addr m in
  (forall a, outside_frames a -> sram m' !! a = sram m !! a) /\
  (forall (i : nat) t, user_tasks m !! i = Some t ->
     exists t', user_tasks m' !! i = Some t' /\
                block_count t' = block_count t) /\
  length (user_tasks m') = length (user_tasks m) /\
  g_tick_count m' = g_tick_count m /\
  current_task m' = current_task m /\
  ICSR m' = ICSR m /\ PRIMASK m' = PRIMASK m /\ GPIOD_ODR m' = GPIOD_ODR m.
Proof.
  intros m.
  assert (table_ok m) as Hlen by reflexivity.
  split; [exact Hlen |].
  exact (init_tasks_stack_frame_effect sample_fn_addr m Hlen).
Defined.

Lemma led_operations_compose_witness :
  let a := LED_GREEN in
  let b := LED_RED in
  let odr := 0x8000 in
  (0 <= a < 32 /\ 0 <= b < 32 /\ a <> b /\ is_u32 odr) /\
  Led.led_on a (Led.led_off b odr) = Led.led_off b (Led.led_on a odr) /\
  Led.led_on a (Led.led_on b odr) = Led.led_on b (Led.led_on a odr) /\
  Led.led_off a (Led.led_off b odr) = Led.led_off b (Led.led_off a odr) /\
  Led.led_on a (Led.led_on a odr) = Led.led_on a odr /\
  Led.led_off a (Led.led_off a odr) = Led.led_off a odr /\
  Led.led_on a (Led.led_off a odr) = Led.led_on a odr.
Proof.
  intros a b odr.
  assert (0 <= a < 32) as Ha by (unfold a, LED_GREEN; lia).
  assert (0 <= b < 32) as Hb by (unfold b, LED_RED; lia).
  assert (a <> b) as Hne by (unfold a, b, LED_GREEN, LED_RED; lia).
  assert (is_u32 odr) as Hodr by (unfold is_u32, odr; lia).
  split; [exact (conj Ha (conj Hb (conj Hne Hodr))) |].
  exact (led_operations_compose a b odr Ha Hb Hne Hodr).
Defined.

Lemma init_systick_timer_effect_witness :
  let tick_hz := TICK_HZ in
  let b := boot_board in
  1 <= tick_hz <= SYSTICK_TIM_CLK /\
  let b' := init_systick_timer tick_hz b in
  let reload := SYST_RVR b' mod 2 ^ 24 in
  reload = SYSTICK_TIM_CLK / tick_hz - 1 /\
  (reload + 1) * tick_hz <= SYSTICK_TIM_CLK < (reload + 2) * tick_hz /\
  (SYSTICK_TIM_CLK mod tick_hz = 0 ->
     (reload + 1) * tick_hz = SYSTICK_TIM_CLK) /\
  (forall k, 24 <= k < 32 ->
     Z.testbit (SYST_RVR b') k = Z.testbit (SYST_RVR b) k) /\
  (forall k, 0 <= k <= 2 -> Z.testbit (SYST_CSR b') k = true) /\
  (forall k, 2 < k ->
     Z.testbit (SYST_CSR b') k = Z.testbit (SYST_CSR b) k) /\
  b' = with_SYST_CSR (SYST_CSR b') (with_SYST_RVR (SYST_RVR b') b).
Proof.
  intros tick_hz b.
  assert (1 <= tick_hz <= SYSTICK_TIM_CLK) as Hhz
    by (unfold tick_hz, TICK_HZ, SYSTICK_TIM_CLK, HSI_CLOCK; lia).
  split; [exact Hhz |].
  exact (init_systick_timer_effect tick_hz b Hhz).
Defined.

Lemma init_systick_timer_rate_too_high_witness :
  let tick_hz := 32000000 in
  let b := boot_board in
  (SYSTICK_TIM_CLK < tick_hz /\ is_u32 (SYST_RVR b)) /\
  let b' := init_systick_timer tick_hz b in
  SYST_RVR b' = 0xFFFFFFFF /\
  SYST_RVR b' mod 2 ^ 24 = 0xFFFFFF.
Proof.
  intros tick_hz b.
  assert (SYSTICK_TIM_CLK < tick_hz) as Hhz
    by (unfold tick_hz, SYSTICK_TIM_CLK, HSI_CLOCK; lia).
  assert (is_u32 (SYST_RVR b)) as Hrvr by (unfold is_u32; simpl; lia).
  split; [exact (conj Hhz Hrvr) |].
  exact (init_systick_timer_rate_too_high tick_hz b Hhz Hrvr).
Defined.


Lemma context_round_trip_witness :
  let b := switch_board in
  let b2 := return_board in
  let A := current_task (mach b) in
  let sp := PSP b - 32 in
  (table_ok (mach b) /\ index_ok (mach b) /\
   length (R4_R11 b) = 8%nat /\
   is_u32 (MSP b) /\ 32 <= PSP b < 2 ^ 32 /\
   clear_of (to_u32 (MSP b - 4)) sp 32 /\
   psp_value (tcb_at (user_tasks (mach b2)) A)
     = psp_value (tcb_at (user_tasks (mach (PendSV_Handler b))) A) /\
   (forall k : nat, (k < 8)%nat ->
      sram (mach b2) !! (sp + 4 * Z.of_nat k)
      = sram (mach (PendSV_Handler b)) !! (sp + 4 * Z.of_nat k)) /\
   table_ok (mach b2) /\ index_ok (mach b2) /\
   (length (R4_R11 b2) <= 8)%nat /\
   is_u32 (MSP b2) /\ 32 <= PSP b2 < 2 ^ 32 /\
   current_task (mach b2) <> A /\
   current_task (mach (PendSV_Handler b2)) = A /\
   (sp + 32 <= PSP b2 - 32 \/ PSP b2 <= sp) /\
   clear_of (to_u32 (MSP b2 - 4)) sp 32) /\
  R4_R11 (PendSV_Handler b2) = R4_R11 b /\
  PSP (PendSV_Handler b2) = PSP b.
Proof.
  intros b b2 A sp.
  assert (table_ok (mach b)) as H1 by (vm_compute; reflexivity).
  assert (index_ok (mach b)) as H2
    by (split; [vm_compute; discriminate | vm_compute; reflexivity]).
  assert (length (R4_R11 b) = 8%nat) as H3 by reflexivity.
  assert (is_u32 (MSP b)) as H4
    by (split; [vm_compute; discriminate | vm_compute; reflexivity]).
  assert (32 <= PSP b < 2 ^ 32) as H5
    by (split; [vm_compute; discriminate | vm_compute; reflexivity]).
  assert (clear_of (to_u32 (MSP b - 4)) sp 32) as H6
    by (left; vm_compute; discriminate).
  assert (psp_value (tcb_at (user_tasks (mach b2)) A)
          = psp_value (tcb_at (user_tasks (mach (PendSV_Handler b))) A))
    as H7 by (vm_compute; reflexivity).
  assert (forall k : nat, (k < 8)%nat ->
            sram (mach b2) !! (sp + 4 * Z.of_nat k)
            = sram (mach (PendSV_Handler b)) !! (sp + 4 * Z.of_nat k))
    as H8 by (intros k _; unfold b2; rewrite return_board_sram; reflexivity).
  assert (table_ok (mach b2)) as H9 by (vm_compute; reflexivity).
  assert (index_ok (mach b2)) as H10
    by (split; [vm_compute; discriminate | vm_compute; reflexivity]).
  assert (length (R4_R11 b2) <= 8)%nat as H11 by (vm_compute; lia).
  assert (is_u32 (MSP b2)) as H12
    by (split; [vm_compute; discriminate | vm_compute; reflexivity]).
  assert (32 <= PSP b2 < 2 ^ 32) as H13
    by (split; [vm_compute; discriminate | vm_compute; reflexivity]).
  assert (current_task (mach b2) <> A) as H14 by (vm_compute; discriminate).
  assert (current_task (mach (PendSV_Handler b2)) = A) as H15
    by (vm_compute; reflexivity).
  assert (sp + 32 <= PSP b2 - 32 \/ PSP b2 <= sp) as H16
    by (right; vm_compute; discriminate).
  assert (clear_of (to_u32 (MSP b2 - 4)) sp 32) as H17
    by (left; vm_compute; discriminate).
  split;
    [exact (conj H1 (conj H2 (conj H3 (conj H4 (conj H5 (conj H6 (conj H7
              (conj H8 (conj H9 (conj H10 (conj H11 (conj H12 (conj H13
              (conj H14 (conj H15 (conj H16 H17)))))))))))))))) |].
  exact (context_round_trip b b2 H1 H2 H3 H4 H5 H6 H7 H8 H9 H10 H11 H12 H13
           H14 H15 H16 H17).
Defined.

Lemma first_dispatch_witness :
  let fn_addr := sample_fn_addr in
  let b := switch_board in
  let i := 2%nat in
  let p := T2_STACK_START in
  let h := task2_handler in
  (PSP_INIT_ADDRS !! i = Some p /\
   fresh_frame fn_addr (Z.of_nat i) h p (mach b) /\
   table_ok (mach b) /\ index_ok (mach b) /\
   (length (R4_R11 b) <= 8)%nat /\
   is_u32 (MSP b) /\ 32 <= PSP b < 2 ^ 32 /\
   current_task (mach b) <> Z.of_nat i /\
   current_task (mach (PendSV_Handler b)) = Z.of_nat i /\
   (p <= PSP b - 32 \/ PSP b <= p - 64) /\
   clear_of (to_u32 (MSP b - 4)) (p - 64) 64) /\
  let b' := PendSV_Handler b in
  R4_R11 b' = replicate 8 0 /\
  PSP b' = p - 32 /\
  (forall j, 0 <= j <= 4 -> sram (mach b') !! (PSP b' + 4 * j) = Some 0) /\
  sram (mach b') !! (PSP b' + 20) = Some 0xFFFFFFFD /\
  sram (mach b') !! (PSP b' + 24) = Some (to_u32 (fn_addr h)) /\
  sram (mach b') !! (PSP b' + 28) = Some 0x01000000.
Proof.
  intros fn_addr b i p h.
  assert (PSP_INIT_ADDRS !! i = Some p) as H1 by reflexivity.
  assert (fresh_frame fn_addr (Z.of_nat i) h p (mach b)) as H2
    by exact switch_board_fresh_frame.
  assert (table_ok (mach b)) as H3 by (vm_compute; reflexivity).
  assert (index_ok (mach b)) as H4
    by (split; [vm_compute; discriminate | vm_compute; reflexivity]).
  assert (length (R4_R11 b) <= 8)%nat as H5 by (vm_compute; lia).
  assert (is_u32 (MSP b)) as H6
    by (split; [vm_compute; discriminate | vm_compute; reflexivity]).
  assert (32 <= PSP b < 2 ^ 32) as H7
    by (split; [vm_compute; discriminate | vm_compute; reflexivity]).
  assert (current_task (mach b) <> Z.of_nat i) as H8
    by (vm_compute; discriminate).
  assert (current_task (mach (PendSV_Handler b)) = Z.of_nat i) as H9
    by (vm_compute; reflexivity).
  assert (p <= PSP b - 32 \/ PSP b <= p - 64) as H10
    by (left; vm_compute; discriminate).
  assert (clear_of (to_u32 (MSP b - 4)) (p - 64) 64) as H11
    by (left; vm_compute; discriminate).
  split;
    [exact (conj H1 (conj H2 (conj H3 (conj H4 (conj H5 (conj H6 (conj H7
              (conj H8 (conj H9 (conj H10 H11)))))))))) |].
  exact (first_dispatch fn_addr b i p h H1 H2 H3 H4 H5 H6 H7 H8 H9 H10 H11).
Defined.

Lemma main_startup_establishes_witness :
  let fn_addr := sample_fn_addr in
  let b := boot_board in
  (boot_globals (mach b) /\ Z.testbit (CONTROL b) 1 = false) /\
  let b' := main_startup fn_addr b in
  let m' := mach b' in
  sched_inv m' /\ states_ok m' /\
  current_task m' = 1 /\ g_tick_count m' = 0 /\
  (forall (i : nat) p, PSP_INIT_ADDRS !! i = Some p ->
     exists t, user_tasks m' !! i = Some t /\
       psp_value t = p - 64 /\ current_state t = TASK_READY_STATE /\
       task_handler t = entry_point i /\
       forall k, 1 <= k <= 16 ->
         sram m' !! (p - 4 * k) = Some (frame_word fn_addr (entry_point i) k)) /\
  PSP b' = get_psp_value m' /\ PSP b' = T1_STACK_START - 64 /\
  MSP b' = SCHED_STACK_START /\
  Z.testbit (CONTROL b') 1 = true /\
  (SYST_RVR b' mod 2 ^ 24 + 1) * TICK_HZ = SYSTICK_TIM_CLK /\
  (forall k, 0 <= k <= 2 -> Z.testbit (SYST_CSR b') k = true) /\
  (forall k, 16 <= k <= 18 -> Z.testbit (SHCSR b') k = true) /\
  (forall pin, 12 <= pin <= 15 ->
     Z.testbit (GPIOD_MODER b') (2 * pin) = true /\
     Z.testbit (GPIOD_MODER b') (2 * pin + 1) = false /\
     Z.testbit (GPIOD_ODR m') pin = false).
Proof.
  intros fn_addr b.
  assert (boot_globals (mach b)) as Hboot by exact boot_machine_globals.
  assert (Z.testbit (CONTROL b) 1 = false) as Hctl by reflexivity.
  split; [exact (conj Hboot Hctl) |].
  exact (main_startup_establishes fn_addr b Hboot Hctl).
Defined.

Lemma led_changed_only_by_owner_witness :
  let m := started_machine in
  let h := task1_handler in
  let c := call_led_on LED_GREEN in
  (table_ok m /\ c ∈ handler_body h) /\
  GPIOD_ODR (SysTick_Handler m) = GPIOD_ODR m /\
  (forall p, GPIOD_ODR (context_switch p m) = GPIOD_ODR m) /\
  (forall d, GPIOD_ODR (exec_call (call_task_delay d) m) = GPIOD_ODR m) /\
  GPIOD_ODR (exec_call wfi m) = GPIOD_ODR m /\
  (forall k, 0 <= k < 32 ->
     Z.testbit (GPIOD_ODR (exec_call c m)) k <> Z.testbit (GPIOD_ODR m) k ->
     c = call_led_on k \/ c = call_led_off k) /\
  (forall n, c = call_led_on n ->
     Z.testbit (GPIOD_ODR (exec_call c m)) n = true) /\
  (forall n, c = call_led_off n ->
     Z.testbit (GPIOD_ODR (exec_call c m)) n = false) /\
  (forall n, c = call_led_on n \/ c = call_led_off n ->
     12 <= n <= 15 /\
     forall h' c', c' ∈ handler_body h' ->
       c' = call_led_on n \/ c' = call_led_off n -> h' = h).
Proof.
  intros m h c.
  assert (table_ok m) as Hlen by reflexivity.
  assert (c ∈ handler_body h) as Hcall by apply list_elem_of_here.
  split; [exact (conj Hlen Hcall) |].
  exact (led_changed_only_by_owner m h c Hlen Hcall).
Defined.

